(** * Plane tracker portal: session statistics, device assignment and export

    A shallow embedding of the TypeScript sources of the portal:

    - [lib/supabase.ts]: the record types of the tables [planes], [devices]
      and [sessions];
    - [PlaneDetail.tsx]: [fetchPlaneData] with its statistics,
      [formatDuration], [formatHobbs] and the statistics cards;
    - [SessionView.tsx]: [fetchData], [filteredSessions], [totalHours] and
      [exportToCSV];
    - [DeviceList.tsx], in the version that addresses a device by its
      [device_uuid]: [fetchData], [openEditModal], [handleUpdateDevice] and
      [handleDeleteDevice];
    - the admin page, in the version with the assignment form:
      [checkAdminAndFetchData], [openAssignModal], [handleEmailInputChange],
      [handleSelectUser] and [handleAssignDevice].

    Conventions of the embedding.

    - A JavaScript [number] that holds a count of seconds is a [Z].  Sums,
      [Math.floor], [%] and [Math.round] of such values are computed exactly,
      which is what the double arithmetic of the source does as long as the
      values are safe integers (magnitude below 2^53).  The one place where
      the source leaves the integers, [seconds / 3600] followed by
      [toFixed], is modelled on IEEE 754 binary64 with [SpecFloat].
    - [string | null] is [option string]; the idiom [x || null] on a string
      is [or_null]; [x || y] on a nullable string is [or_else].
    - The store behind the supabase client is a record of three tables.  A
      query either answers with an error message, and then changes nothing,
      or is carried out as it is written in the source; which of the two
      happens is read from the environment [Env.t], together with the
      signed-in user and the answer to [window.confirm].  Triggers,
      policies and constraints of the database are not part of the sources
      and are not modelled.
    - A React component is its state record; an [async] handler is a
      function from the store and the state to the new store and state. *)

From Stdlib Require Import ZArith List String Ascii Bool Lia.
From Stdlib Require Import DecimalString DecimalZ DecimalPos SpecFloat Permutation.
Import ListNotations.

Local Open Scope string_scope.
Local Open Scope Z_scope.

(** ** JavaScript idioms on strings and numbers *)

(** [s || null] for a string [s]: the empty string is falsy. *)
Definition or_null (s : string) : option string :=
  if String.eqb s "" then None else Some s.

(** [x || d] for [x : string | null | undefined]. *)
Definition or_else (x : option string) (d : string) : string :=
  match x with
  | Some s => if String.eqb s "" then d else s
  | None => d
  end.

(** Truthiness of a [string | null]. *)
Definition truthy (x : option string) : bool :=
  match x with
  | Some s => negb (String.eqb s "")
  | None => false
  end.

(** Template-literal rendering of an integral number. *)
Definition string_of_Z (z : Z) : string :=
  NilZero.string_of_int (Z.to_int z).

(** [Math.floor(a / b)] for integral [a] and positive integral [b]. *)
Definition Math_floor_div (a b : Z) : Z := a / b.

(** [Math.round(a / b)] for integral [a] and positive integral [b]:
    the nearest integer, a tie going towards plus infinity. *)
Definition Math_round_div (a b : Z) : Z := (2 * a + b) / (2 * b).

(** [array.reduce((a, b) => a + b, 0)] *)
Definition sum (l : list Z) : Z := fold_left Z.add l 0.

(** ** Tables of the store ([lib/supabase.ts]) *)

Module Plane.
Record t := {
  id : string;
  user_id : string;
  tail_number : string;
  model : option string;
  manufacturer : option string;
  created_at : string;
  updated_at : string
}.
End Plane.

Module Device.
Record t := {
  device_uuid : string;
  user_id : option string;
  plane_id : option string;
  name : option string;
  created_at : string;
  updated_at : string;
  last_seen : option string
}.
End Device.

Inductive SessionStatus := open | closed.

Definition SessionStatus_eqb (a b : SessionStatus) : bool :=
  match a, b with
  | open, open | closed, closed => true
  | _, _ => false
  end.

Definition SessionStatus_to_string (s : SessionStatus) : string :=
  match s with open => "open" | closed => "closed" end.

Module Session.
Record t := {
  id : string;
  device_uuid : string;
  session_start : string;
  run_seconds : Z;
  last_update : option string;
  status : SessionStatus;
  msg_id : string;
  created_at : string;
  updated_at : string
}.
End Session.

Module Store.
Record t := {
  planes : list Plane.t;
  devices : list Device.t;
  sessions : list Session.t
}.
End Store.

(** ** Session statistics ([PlaneDetail.tsx], [fetchPlaneData], "Calculate statistics") *)

Record SessionStats := {
  totalSessions : Z;
  totalFlightTime : Z;
  activeSessions : Z;
  averageFlightTime : Z;
  longestFlight : Z;
  shortestFlight : Z
}.

(** The initial value of the [stats] state. *)
Definition initialStats : SessionStats :=
  {| totalSessions := 0; totalFlightTime := 0; activeSessions := 0;
     averageFlightTime := 0; longestFlight := 0; shortestFlight := 0 |}.

Definition is_open (s : Session.t) : bool :=
  SessionStatus_eqb (Session.status s) open.

Definition is_closed (s : Session.t) : bool :=
  SessionStatus_eqb (Session.status s) closed.

(** [allSessions.reduce((sum, s) => sum + s.run_seconds, 0)] *)
Definition sumRunSeconds (l : list Session.t) : Z :=
  fold_left (fun acc s => acc + Session.run_seconds s) l 0.

(** [Math.max(...times)] and [Math.min(...times)] of [t :: ts]. *)
Definition Math_max (t : Z) (ts : list Z) : Z := fold_left Z.max ts t.
Definition Math_min (t : Z) (ts : list Z) : Z := fold_left Z.min ts t.

(** The block of [fetchPlaneData] between [const allSessions] and
    [setStats].  The [match] is the guard [closedSessions.length > 0]:
    [times] has the length of [closedSessions]. *)
Definition computeStats (allSessions : list Session.t) : SessionStats :=
  let totalSessions := Z.of_nat (List.length allSessions) in
  let totalFlightTime := sumRunSeconds allSessions in
  let activeSessions := Z.of_nat (List.length (filter is_open allSessions)) in
  let closedSessions := filter is_closed allSessions in
  let '(averageFlightTime, longestFlight, shortestFlight) :=
    match map Session.run_seconds closedSessions with
    | [] => (0, 0, 0)
    | (t :: ts) as times =>
        (Math_round_div (sum times) (Z.of_nat (List.length times)),
         Math_max t ts,
         Math_min t ts)
    end in
  {| totalSessions := totalSessions;
     totalFlightTime := totalFlightTime;
     activeSessions := activeSessions;
     averageFlightTime := averageFlightTime;
     longestFlight := longestFlight;
     shortestFlight := shortestFlight |}.

(** [formatDuration] of [PlaneDetail.tsx] and [SessionView.tsx] (the two
    copies are the same): [`${hours}h ${minutes}m`]. *)
Definition formatDuration (seconds : Z) : string :=
  let hours := Math_floor_div seconds 3600 in
  let minutes := Math_floor_div (Z.rem seconds 3600) 60 in
  string_of_Z hours ++ "h " ++ string_of_Z minutes ++ "m".

(** ** Decimal hours: [seconds / 3600] and [Number.prototype.toFixed] *)

(** The binary64 value of an integral number, and binary64 division. *)
Definition binary64_of_Z (z : Z) : spec_float :=
  binary_normalize 53 1024 z 0 false.

Definition binary64_div (x y : spec_float) : spec_float :=
  SFdiv 53 1024 x y.

(** [is_ge_1e21 m e] : the value [m * 2^e] is at least 10^21. *)
Definition is_ge_1e21 (m : positive) (e : Z) : bool :=
  if 0 <=? e then 10 ^ 21 <=? Z.pos m * 2 ^ e
  else 10 ^ 21 * 2 ^ (- e) <=? Z.pos m.

(** The integer [n] for which [n / 10^f - m * 2^e] is as close to zero as
    possible, the larger one if there are two. *)
Definition nearest_scaled (f : nat) (m : positive) (e : Z) : Z :=
  if 0 <=? e then Z.pos m * 2 ^ e * 10 ^ Z.of_nat f
  else (2 * Z.pos m * 10 ^ Z.of_nat f + 2 ^ (- e)) / (2 * 2 ^ (- e)).

Fixpoint zeros (k : nat) : string :=
  match k with
  | O => ""
  | S k' => String "0" (zeros k')
  end.

(** Steps 8.b to 8.c of [toFixed]: the decimal digits of [n], padded on
    the left to [f + 1] digits, with a point before the last [f] ones. *)
Definition fixed_digits (f : nat) (n : Z) : string :=
  let m := string_of_Z n in
  match f with
  | O => m
  | S _ =>
      let k := String.length m in
      let m := if (k <=? f)%nat then zeros (f + 1 - k) ++ m else m in
      let k := String.length m in
      substring 0 (k - f) m ++ "." ++ substring (k - f) f m
  end.

(** [x.toFixed(f)].  [None] stands for the one case that is not modelled:
    a finite [x] of magnitude 10^21 or more, where the result is that of
    [Number::toString]. *)
Definition toFixed (f : nat) (x : spec_float) : option string :=
  match x with
  | S754_nan => Some "NaN"
  | S754_infinity false => Some "Infinity"
  | S754_infinity true => Some "-Infinity"
  | S754_zero _ => Some (fixed_digits f 0)
  | S754_finite s m e =>
      if is_ge_1e21 m e then None
      else Some ((if s then "-" else "") ++ fixed_digits f (nearest_scaled f m e))
  end.

(** [formatHobbs] of [PlaneDetail.tsx]. *)
Definition formatHobbs (seconds : Z) : option string :=
  let hours := binary64_div (binary64_of_Z seconds) (binary64_of_Z 3600) in
  toFixed 2 hours.

(** ** The supabase client *)

(** The queries the modelled components send, named by what they ask for. *)
Inductive Query :=
  | select_plane (id user : string)
  | select_planes_of (user : string)
  | select_devices_of (user : string)
  | select_devices_on (plane user : string)
  | select_run_seconds_of (device_uuid : string)
  | select_sessions_in (device_uuids : list string)
  | update_device (device_uuid : string)
  | delete_device (device_uuid : string)
  | select_admin_user (user : string)
  | rpc (fn : string).

(** The [{ data, error }] pair a query resolves to. *)
Module Reply.
Record t (A : Type) := { data : option A; error : option string }.
Arguments data {A} _.
Arguments error {A} _.
End Reply.

(** Rows of the two server-side functions the admin page calls. *)
Module AdminDeviceRow.
Record t := {
  device_uuid : string;
  user_id : option string;
  plane_id : option string;
  name : option string;
  created_at : string;
  updated_at : string;
  last_seen : option string;
  owner_email : option string;
  plane_tail_number : option string;
  plane_model : option string;
  plane_manufacturer : option string
}.
End AdminDeviceRow.

Module User.
Record t := {
  user_id : string;
  email : string;
  created_at : string
}.
End User.

Module Env.
Record t := {
  (** [supabase.auth.getUser()]: the id of the signed-in user, if any *)
  auth_user : option string;
  (** the error message the store answers a query with, if it fails *)
  fault : Query -> option string;
  (** the message of [.single()] when the rows are not exactly one *)
  not_single : string;
  (** the store's order on timestamps and on text, for [.order(column)] *)
  ts_leb : string -> string -> bool;
  text_leb : string -> string -> bool;
  (** the rows of the table [admin_users] *)
  admin_users : list string;
  (** what the server-side functions [get_admin_devices] and
      [get_admin_users] return; their code is not part of the portal *)
  get_admin_devices : Store.t -> list AdminDeviceRow.t;
  get_admin_users : list User.t;
  (** the answer to [window.confirm] *)
  confirm : bool
}.
End Env.

Definition ask {A} (env : Env.t) (q : Query) (rows : A) : Reply.t A :=
  match Env.fault env q with
  | Some msg => {| Reply.data := None; Reply.error := Some msg |}
  | None => {| Reply.data := Some rows; Reply.error := None |}
  end.

(** [.single()] *)
Definition ask_single {A} (env : Env.t) (q : Query) (rows : list A) : Reply.t A :=
  match Env.fault env q with
  | Some msg => {| Reply.data := None; Reply.error := Some msg |}
  | None =>
      match rows with
      | [row] => {| Reply.data := Some row; Reply.error := None |}
      | _ => {| Reply.data := None; Reply.error := Some (Env.not_single env) |}
      end
  end.

(** [data || []] *)
Definition or_nil {A} (d : option (list A)) : list A :=
  match d with Some l => l | None => [] end.

Definition opt_eqb (x : option string) (s : string) : bool :=
  match x with Some y => String.eqb y s | None => false end.

(** [.order(column, { ascending: false })] on a key that is a timestamp. *)
Section Order.
Context {A : Type} (key : A -> string) (leb : string -> string -> bool).

Fixpoint insert_desc (x : A) (l : list A) : list A :=
  match l with
  | [] => [x]
  | y :: l' => if leb (key y) (key x) then x :: l else y :: insert_desc x l'
  end.

Definition order_desc (l : list A) : list A :=
  fold_right insert_desc [] l.

Fixpoint insert_asc (x : A) (l : list A) : list A :=
  match l with
  | [] => [x]
  | y :: l' => if leb (key x) (key y) then x :: l else y :: insert_asc x l'
  end.

Definition order_asc (l : list A) : list A :=
  fold_right insert_asc [] l.
End Order.

(** ** [PlaneDetail.tsx] *)

Module DeviceWithStats.
Record t := {
  device : Device.t;
  sessionCount : Z;
  totalFlightTime : Z
}.
End DeviceWithStats.

Module PlaneDetail.

Record State := {
  plane : option Plane.t;
  devices : list DeviceWithStats.t;
  recentSessions : list Session.t;
  stats : SessionStats;
  loading : bool;
  error : option string
}.

Definition initialState : State :=
  {| plane := None; devices := []; recentSessions := [];
     stats := initialStats; loading := true; error := None |}.

Definition setPlane p st :=
  {| plane := p; devices := devices st; recentSessions := recentSessions st;
     stats := stats st; loading := loading st; error := error st |}.
Definition setDevices d st :=
  {| plane := plane st; devices := d; recentSessions := recentSessions st;
     stats := stats st; loading := loading st; error := error st |}.
Definition setRecentSessions r st :=
  {| plane := plane st; devices := devices st; recentSessions := r;
     stats := stats st; loading := loading st; error := error st |}.
Definition setStats s st :=
  {| plane := plane st; devices := devices st; recentSessions := recentSessions st;
     stats := s; loading := loading st; error := error st |}.
Definition setLoading b st :=
  {| plane := plane st; devices := devices st; recentSessions := recentSessions st;
     stats := stats st; loading := b; error := error st |}.
Definition setError e st :=
  {| plane := plane st; devices := devices st; recentSessions := recentSessions st;
     stats := stats st; loading := loading st; error := e |}.

(** The callback of [devicesData.map] in [fetchPlaneData]: only [data] of
    the reply is read, its [error] is dropped. *)
Definition deviceStats (env : Env.t) (db : Store.t) (device : Device.t)
  : DeviceWithStats.t :=
  let sessionData :=
    Reply.data (ask env (select_run_seconds_of (Device.device_uuid device))
            (map Session.run_seconds
               (filter (fun s => String.eqb (Session.device_uuid s)
                                   (Device.device_uuid device))
                  (Store.sessions db)))) in
  let sessionCount :=
    match sessionData with
    | Some l => Z.of_nat (List.length l)
    | None => 0
    end in
  let totalFlightTime :=
    match sessionData with
    | Some l => sum l
    | None => 0
    end in
  {| DeviceWithStats.device := device;
     DeviceWithStats.sessionCount := sessionCount;
     DeviceWithStats.totalFlightTime := totalFlightTime |}.

(** [catch (error) { setError(error.message) }] *)
Definition catch (msg : string) (st : State) : State := setError (Some msg) st.

Definition fetchPlaneData (env : Env.t) (db : Store.t) (id : string) (st : State)
  : State :=
  let finally := setLoading false in
  match Env.auth_user env with
  | None => finally st
  | Some user =>
      let planeReply :=
        ask_single env (select_plane id user)
          (filter (fun p => String.eqb (Plane.id p) id
                            && String.eqb (Plane.user_id p) user)
             (Store.planes db)) in
      match Reply.error planeReply, Reply.data planeReply with
      | Some planeError, _ => finally (catch planeError st)
      | None, None => finally (setLoading false (setError (Some "Plane not found") st))
      | None, Some planeData =>
          let st := setPlane (Some planeData) st in
          let devicesReply :=
            ask env (select_devices_on id user)
              (filter (fun d => opt_eqb (Device.plane_id d) id
                                && opt_eqb (Device.user_id d) user)
                 (Store.devices db)) in
          match Reply.error devicesReply with
          | Some devicesError => finally (catch devicesError st)
          | None =>
              let devicesData := Reply.data devicesReply in
              let devicesWithStats := map (deviceStats env db) (or_nil devicesData) in
              let st := setDevices devicesWithStats st in
              let deviceUuids := map Device.device_uuid (or_nil devicesData) in
              if (0 <? Z.of_nat (List.length deviceUuids)) then
                let sessionsReply :=
                  ask env (select_sessions_in deviceUuids)
                    (order_desc Session.session_start (Env.ts_leb env)
                       (filter (fun s => existsb (String.eqb (Session.device_uuid s))
                                           deviceUuids)
                          (Store.sessions db))) in
                match Reply.error sessionsReply with
                | Some sessionsError => finally (catch sessionsError st)
                | None =>
                    let allSessions := or_nil (Reply.data sessionsReply) in
                    let st := setStats (computeStats allSessions) st in
                    let st := setRecentSessions (firstn 10 allSessions) st in
                    finally st
                end
              else finally st
          end
      end
  end.

(** The "Average Flight" card: its headline and its Hobbs line. *)
Definition averageCard (stats : SessionStats) : string * option (option string) :=
  (if 0 <? averageFlightTime stats
   then formatDuration (averageFlightTime stats) else "N/A",
   if 0 <? averageFlightTime stats
   then Some (formatHobbs (averageFlightTime stats)) else None).

(** A card of the "Additional stats row": duration and Hobbs line. *)
Definition flightCard (seconds : Z) : string * option string :=
  (formatDuration seconds, formatHobbs seconds).

(** The "Additional stats row" with the longest and the shortest flight,
    rendered only when [stats.longestFlight > 0]. *)
Definition additionalStatsRow (stats : SessionStats)
  : option ((string * option string) * (string * option string)) :=
  if 0 <? longestFlight stats
  then Some (flightCard (longestFlight stats), flightCard (shortestFlight stats))
  else None.

End PlaneDetail.

(** ** [SessionView.tsx] *)

(** A device row selected together with its [plane] join: the device and
    the plane its [plane_id] refers to. *)
Module DeviceWithPlane.
Record t := {
  device : Device.t;
  plane : option Plane.t
}.
End DeviceWithPlane.

Definition joinPlane (db : Store.t) (d : Device.t) : DeviceWithPlane.t :=
  {| DeviceWithPlane.device := d;
     DeviceWithPlane.plane :=
       match Device.plane_id d with
       | Some pid => find (fun p => String.eqb (Plane.id p) pid) (Store.planes db)
       | None => None
       end |}.

Module SessionWithDevice.
Record t := {
  session : Session.t;
  device : option DeviceWithPlane.t
}.
End SessionWithDevice.

Module SessionView.

Record State := {
  sessions : list SessionWithDevice.t;
  devices : list DeviceWithPlane.t;
  loading : bool;
  filterDevice : string;
  filterStatus : string;
  error : option string
}.

Definition initialState : State :=
  {| sessions := []; devices := []; loading := true;
     filterDevice := ""; filterStatus := ""; error := None |}.

Definition setData ss ds st :=
  {| sessions := ss; devices := ds; loading := loading st;
     filterDevice := filterDevice st; filterStatus := filterStatus st;
     error := error st |}.
Definition setLoading b st :=
  {| sessions := sessions st; devices := devices st; loading := b;
     filterDevice := filterDevice st; filterStatus := filterStatus st;
     error := error st |}.
Definition setError e st :=
  {| sessions := sessions st; devices := devices st; loading := loading st;
     filterDevice := filterDevice st; filterStatus := filterStatus st;
     error := e |}.
Definition setFilterDevice v st :=
  {| sessions := sessions st; devices := devices st; loading := loading st;
     filterDevice := v; filterStatus := filterStatus st; error := error st |}.
Definition setFilterStatus v st :=
  {| sessions := sessions st; devices := devices st; loading := loading st;
     filterDevice := filterDevice st; filterStatus := v; error := error st |}.

Definition fetchData (env : Env.t) (db : Store.t) (st : State) : State :=
  let finally := setLoading false in
  match Env.auth_user env with
  | None => finally st
  | Some user =>
      let devicesReply :=
        ask env (select_devices_of user)
          (map (joinPlane db)
             (filter (fun d => opt_eqb (Device.user_id d) user) (Store.devices db))) in
      match Reply.error devicesReply with
      | Some devicesError => finally (setError (Some devicesError) st)
      | None =>
          let devicesData := Reply.data devicesReply in
          let deviceUuids :=
            map (fun d => Device.device_uuid (DeviceWithPlane.device d))
              (or_nil devicesData) in
          let sessionsReply :=
            ask env (select_sessions_in deviceUuids)
              (order_desc Session.session_start (Env.ts_leb env)
                 (filter (fun s => existsb (String.eqb (Session.device_uuid s))
                                     deviceUuids)
                    (Store.sessions db))) in
          match Reply.error sessionsReply with
          | Some sessionsError => finally (setError (Some sessionsError) st)
          | None =>
              let sessionsWithDevices :=
                map (fun session =>
                       {| SessionWithDevice.session := session;
                          SessionWithDevice.device :=
                            match devicesData with
                            | Some ds =>
                                find (fun d =>
                                        String.eqb
                                          (Device.device_uuid (DeviceWithPlane.device d))
                                          (Session.device_uuid session)) ds
                            | None => None
                            end |})
                  (or_nil (Reply.data sessionsReply)) in
              finally (setData sessionsWithDevices (or_nil devicesData) st)
          end
      end
  end.

(** The predicate of [sessions.filter] in [filteredSessions]. *)
Definition keeps (st : State) (s : SessionWithDevice.t) : bool :=
  if negb (String.eqb (filterDevice st) "")
     && negb (String.eqb (Session.device_uuid (SessionWithDevice.session s))
               (filterDevice st))
  then false
  else if negb (String.eqb (filterStatus st) "")
          && negb (String.eqb
                     (SessionStatus_to_string
                        (Session.status (SessionWithDevice.session s)))
                     (filterStatus st))
  then false
  else true.

Definition filteredSessions (st : State) : list SessionWithDevice.t :=
  filter (keeps st) (sessions st).

(** [s.run_seconds || 0] *)
Definition run_seconds_or_0 (s : SessionWithDevice.t) : Z :=
  Session.run_seconds (SessionWithDevice.session s).

(** The numerator of [totalHours], a whole number of seconds. *)
Definition totalSeconds (st : State) : Z :=
  fold_left (fun acc s => acc + run_seconds_or_0 s) (filteredSessions st) 0.

(** [totalHours], a binary64 value. *)
Definition totalHours (st : State) : spec_float :=
  binary64_div (binary64_of_Z (totalSeconds st)) (binary64_of_Z 3600).

(** The "Total Sessions", "Total Flight Hours" and "Active Sessions"
    cards. *)
Definition totalSessionsCard (st : State) : Z :=
  Z.of_nat (List.length (filteredSessions st)).

Definition totalFlightHoursCard (st : State) : option string :=
  toFixed 1 (totalHours st).

Definition activeSessionsCard (st : State) : Z :=
  Z.of_nat (List.length
              (filter (fun s => is_open (SessionWithDevice.session s))
                 (filteredSessions st))).

(** *** [exportToCSV] *)

Definition headers : list string :=
  ["Session Start"; "Device"; "Plane"; "Duration"; "Status"; "Last Update"].

(** The callback of [filteredSessions.map] in [exportToCSV]. *)
Definition row (s : SessionWithDevice.t) : list string :=
  let session := SessionWithDevice.session s in
  [ Session.session_start session;
    or_else
      (match SessionWithDevice.device s with
       | Some d => Device.name (DeviceWithPlane.device d)
       | None => None
       end)
      (Session.device_uuid session);
    or_else
      (match SessionWithDevice.device s with
       | Some d =>
           match DeviceWithPlane.plane d with
           | Some p => Some (Plane.tail_number p)
           | None => None
           end
       | None => None
       end)
      "N/A";
    formatDuration (Session.run_seconds session);
    SessionStatus_to_string (Session.status session);
    or_else (Session.last_update session) "N/A" ].

Definition rows (st : State) : list (list string) :=
  map row (filteredSessions st).

(** [array.join(sep)] *)
Definition join (sep : string) (l : list string) : string :=
  String.concat sep l.

Definition dquote : string := String (ascii_of_nat 34) "".
Definition newline : string := String (ascii_of_nat 10) "".

(** The template literal that wraps a cell in double quotes. *)
Definition quoted (cell : string) : string := dquote ++ cell ++ dquote.

(** The array that is joined into [csvContent]. *)
Definition csvLines (st : State) : list string :=
  join "," headers :: map (fun r => join "," (map quoted r)) (rows st).

Definition csvContent (st : State) : string := join newline (csvLines st).

End SessionView.

(** ** Writes to the [devices] table *)

(** [from('devices').update({ name, plane_id }).eq('device_uuid', uuid)] *)
Definition update_name_plane (uuid : string) (name plane_id : option string)
  (db : Store.t) : Store.t :=
  {| Store.planes := Store.planes db;
     Store.devices :=
       map (fun d =>
              if String.eqb (Device.device_uuid d) uuid
              then {| Device.device_uuid := Device.device_uuid d;
                      Device.user_id := Device.user_id d;
                      Device.plane_id := plane_id;
                      Device.name := name;
                      Device.created_at := Device.created_at d;
                      Device.updated_at := Device.updated_at d;
                      Device.last_seen := Device.last_seen d |}
              else d)
         (Store.devices db);
     Store.sessions := Store.sessions db |}.

(** [from('devices').update({ user_id, name }).eq('device_uuid', uuid)] *)
Definition update_user_name (uuid : string) (user_id name : option string)
  (db : Store.t) : Store.t :=
  {| Store.planes := Store.planes db;
     Store.devices :=
       map (fun d =>
              if String.eqb (Device.device_uuid d) uuid
              then {| Device.device_uuid := Device.device_uuid d;
                      Device.user_id := user_id;
                      Device.plane_id := Device.plane_id d;
                      Device.name := name;
                      Device.created_at := Device.created_at d;
                      Device.updated_at := Device.updated_at d;
                      Device.last_seen := Device.last_seen d |}
              else d)
         (Store.devices db);
     Store.sessions := Store.sessions db |}.

(** [from('devices').delete().eq('device_uuid', uuid)] *)
Definition delete_by_uuid (uuid : string) (db : Store.t) : Store.t :=
  {| Store.planes := Store.planes db;
     Store.devices :=
       filter (fun d => negb (String.eqb (Device.device_uuid d) uuid))
         (Store.devices db);
     Store.sessions := Store.sessions db |}.

(** ** [DeviceList.tsx] *)

Module DeviceList.

Record FormData := { name : string; plane_id : string }.

Record State := {
  devices : list DeviceWithPlane.t;
  planes : list Plane.t;
  loading : bool;
  showEditModal : bool;
  selectedDevice : option DeviceWithPlane.t;
  formData : FormData;
  error : option string
}.

Definition initialState : State :=
  {| devices := []; planes := []; loading := true; showEditModal := false;
     selectedDevice := None; formData := {| name := ""; plane_id := "" |};
     error := None |}.

Definition setData ds ps st :=
  {| devices := ds; planes := ps; loading := loading st;
     showEditModal := showEditModal st; selectedDevice := selectedDevice st;
     formData := formData st; error := error st |}.
Definition setLoading b st :=
  {| devices := devices st; planes := planes st; loading := b;
     showEditModal := showEditModal st; selectedDevice := selectedDevice st;
     formData := formData st; error := error st |}.
Definition setShowEditModal b st :=
  {| devices := devices st; planes := planes st; loading := loading st;
     showEditModal := b; selectedDevice := selectedDevice st;
     formData := formData st; error := error st |}.
Definition setSelectedDevice d st :=
  {| devices := devices st; planes := planes st; loading := loading st;
     showEditModal := showEditModal st; selectedDevice := d;
     formData := formData st; error := error st |}.
Definition setFormData f st :=
  {| devices := devices st; planes := planes st; loading := loading st;
     showEditModal := showEditModal st; selectedDevice := selectedDevice st;
     formData := f; error := error st |}.
Definition setError e st :=
  {| devices := devices st; planes := planes st; loading := loading st;
     showEditModal := showEditModal st; selectedDevice := selectedDevice st;
     formData := formData st; error := e |}.

Definition fetchData (env : Env.t) (db : Store.t) (st : State) : State :=
  let finally := setLoading false in
  match Env.auth_user env with
  | None => finally st
  | Some user =>
      let devicesReply :=
        ask env (select_devices_of user)
          (order_desc (fun d => Device.created_at (DeviceWithPlane.device d))
             (Env.ts_leb env)
             (map (joinPlane db)
                (filter (fun d => opt_eqb (Device.user_id d) user)
                   (Store.devices db)))) in
      match Reply.error devicesReply with
      | Some devicesError => finally (setError (Some devicesError) st)
      | None =>
          let planesReply :=
            ask env (select_planes_of user)
              (order_asc Plane.tail_number (Env.text_leb env)
                 (filter (fun p => String.eqb (Plane.user_id p) user)
                    (Store.planes db))) in
          match Reply.error planesReply with
          | Some planesError => finally (setError (Some planesError) st)
          | None =>
              finally (setData (or_nil (Reply.data devicesReply))
                         (or_nil (Reply.data planesReply)) st)
          end
      end
  end.

(** [openEditModal(device)], the "Edit" button of a listed device. *)
Definition openEditModal (device : DeviceWithPlane.t) (st : State) : State :=
  let st := setSelectedDevice (Some device) st in
  let st :=
    setFormData
      {| name := or_else (Device.name (DeviceWithPlane.device device)) "";
         plane_id := or_else (Device.plane_id (DeviceWithPlane.device device)) "" |}
      st in
  setShowEditModal true st.

(** The [option] values of the select [edit_plane_id]: "None" and one
    option per plane of the [planes] state. *)
Definition planeOptions (st : State) : list string :=
  "" :: map Plane.id (planes st).

(** [onChange] of the select [edit_plane_id]: the browser hands over the
    value of the option that was picked, here the [i]-th. *)
Definition selectPlane (i : nat) (st : State) : State :=
  match nth_error (planeOptions st) i with
  | Some value => setFormData {| name := name (formData st); plane_id := value |} st
  | None => st
  end.

(** [onChange] of the text input [edit_name]. *)
Definition typeName (value : string) (st : State) : State :=
  setFormData {| name := value; plane_id := plane_id (formData st) |} st.

Definition handleUpdateDevice (env : Env.t) (db : Store.t) (st : State)
  : Store.t * State :=
  let st := setError None st in
  match selectedDevice st with
  | None => (db, st)
  | Some selected =>
      let uuid := Device.device_uuid (DeviceWithPlane.device selected) in
      match Env.fault env (update_device uuid) with
      | Some msg => (db, setError (Some msg) st)
      | None =>
          let db := update_name_plane uuid (or_null (name (formData st)))
                      (or_null (plane_id (formData st))) db in
          let st := setFormData {| name := ""; plane_id := "" |} st in
          let st := setShowEditModal false st in
          let st := setSelectedDevice None st in
          (db, fetchData env db st)
      end
  end.

Definition handleDeleteDevice (env : Env.t) (db : Store.t) (deviceUuid : string)
  (st : State) : Store.t * State :=
  if negb (Env.confirm env) then (db, st)
  else
    match Env.fault env (delete_device deviceUuid) with
    | Some msg => (db, setError (Some msg) st)
    | None =>
        let db := delete_by_uuid deviceUuid db in
        (db, fetchData env db st)
    end.

End DeviceList.

(** ** [Admin.tsx] *)

Module DeviceWithOwner.
Record PlaneInfo := {
  id : option string;
  tail_number : string;
  model : option string;
  manufacturer : option string
}.
Record t := {
  device_uuid : string;
  user_id : option string;
  plane_id : option string;
  name : option string;
  created_at : string;
  updated_at : string;
  last_seen : option string;
  user : option string;          (* the joined [{ email }] *)
  plane : option PlaneInfo
}.
End DeviceWithOwner.

Module Admin.

Record AssignFormData := { user_id : string; name : string }.
Record Owner := { id : string; email : string }.

Record State := {
  devices : list DeviceWithOwner.t;
  loading : bool;
  isAdmin : bool;
  error : option string;
  owners : list Owner;
  allUsers : list User.t;
  showAssignModal : bool;
  selectedDevice : option DeviceWithOwner.t;
  assignFormData : AssignFormData;
  emailInput : string;
  showEmailSuggestions : bool
}.

Definition initialState : State :=
  {| devices := []; loading := true; isAdmin := false; error := None;
     owners := []; allUsers := []; showAssignModal := false;
     selectedDevice := None;
     assignFormData := {| user_id := ""; name := "" |};
     emailInput := ""; showEmailSuggestions := false |}.

Definition setDevices v st :=
  {| devices := v; loading := loading st; isAdmin := isAdmin st;
     error := error st; owners := owners st; allUsers := allUsers st;
     showAssignModal := showAssignModal st; selectedDevice := selectedDevice st;
     assignFormData := assignFormData st; emailInput := emailInput st;
     showEmailSuggestions := showEmailSuggestions st |}.
Definition setLoading v st :=
  {| devices := devices st; loading := v; isAdmin := isAdmin st;
     error := error st; owners := owners st; allUsers := allUsers st;
     showAssignModal := showAssignModal st; selectedDevice := selectedDevice st;
     assignFormData := assignFormData st; emailInput := emailInput st;
     showEmailSuggestions := showEmailSuggestions st |}.
Definition setIsAdmin v st :=
  {| devices := devices st; loading := loading st; isAdmin := v;
     error := error st; owners := owners st; allUsers := allUsers st;
     showAssignModal := showAssignModal st; selectedDevice := selectedDevice st;
     assignFormData := assignFormData st; emailInput := emailInput st;
     showEmailSuggestions := showEmailSuggestions st |}.
Definition setError v st :=
  {| devices := devices st; loading := loading st; isAdmin := isAdmin st;
     error := v; owners := owners st; allUsers := allUsers st;
     showAssignModal := showAssignModal st; selectedDevice := selectedDevice st;
     assignFormData := assignFormData st; emailInput := emailInput st;
     showEmailSuggestions := showEmailSuggestions st |}.
Definition setOwners v st :=
  {| devices := devices st; loading := loading st; isAdmin := isAdmin st;
     error := error st; owners := v; allUsers := allUsers st;
     showAssignModal := showAssignModal st; selectedDevice := selectedDevice st;
     assignFormData := assignFormData st; emailInput := emailInput st;
     showEmailSuggestions := showEmailSuggestions st |}.
Definition setAllUsers v st :=
  {| devices := devices st; loading := loading st; isAdmin := isAdmin st;
     error := error st; owners := owners st; allUsers := v;
     showAssignModal := showAssignModal st; selectedDevice := selectedDevice st;
     assignFormData := assignFormData st; emailInput := emailInput st;
     showEmailSuggestions := showEmailSuggestions st |}.
Definition setShowAssignModal v st :=
  {| devices := devices st; loading := loading st; isAdmin := isAdmin st;
     error := error st; owners := owners st; allUsers := allUsers st;
     showAssignModal := v; selectedDevice := selectedDevice st;
     assignFormData := assignFormData st; emailInput := emailInput st;
     showEmailSuggestions := showEmailSuggestions st |}.
Definition setSelectedDevice v st :=
  {| devices := devices st; loading := loading st; isAdmin := isAdmin st;
     error := error st; owners := owners st; allUsers := allUsers st;
     showAssignModal := showAssignModal st; selectedDevice := v;
     assignFormData := assignFormData st; emailInput := emailInput st;
     showEmailSuggestions := showEmailSuggestions st |}.
Definition setAssignFormData v st :=
  {| devices := devices st; loading := loading st; isAdmin := isAdmin st;
     error := error st; owners := owners st; allUsers := allUsers st;
     showAssignModal := showAssignModal st; selectedDevice := selectedDevice st;
     assignFormData := v; emailInput := emailInput st;
     showEmailSuggestions := showEmailSuggestions st |}.
Definition setEmailInput v st :=
  {| devices := devices st; loading := loading st; isAdmin := isAdmin st;
     error := error st; owners := owners st; allUsers := allUsers st;
     showAssignModal := showAssignModal st; selectedDevice := selectedDevice st;
     assignFormData := assignFormData st; emailInput := v;
     showEmailSuggestions := showEmailSuggestions st |}.
Definition setShowEmailSuggestions v st :=
  {| devices := devices st; loading := loading st; isAdmin := isAdmin st;
     error := error st; owners := owners st; allUsers := allUsers st;
     showAssignModal := showAssignModal st; selectedDevice := selectedDevice st;
     assignFormData := assignFormData st; emailInput := emailInput st;
     showEmailSuggestions := v |}.

(** The callback that turns a row of [get_admin_devices] into a
    [DeviceWithOwner]. *)
Definition ofRow (device : AdminDeviceRow.t) : DeviceWithOwner.t :=
  {| DeviceWithOwner.device_uuid := AdminDeviceRow.device_uuid device;
     DeviceWithOwner.user_id := AdminDeviceRow.user_id device;
     DeviceWithOwner.plane_id := AdminDeviceRow.plane_id device;
     DeviceWithOwner.name := AdminDeviceRow.name device;
     DeviceWithOwner.created_at := AdminDeviceRow.created_at device;
     DeviceWithOwner.updated_at := AdminDeviceRow.updated_at device;
     DeviceWithOwner.last_seen := AdminDeviceRow.last_seen device;
     DeviceWithOwner.user :=
       if truthy (AdminDeviceRow.owner_email device)
       then AdminDeviceRow.owner_email device else None;
     DeviceWithOwner.plane :=
       match AdminDeviceRow.plane_tail_number device with
       | Some tail =>
           if String.eqb tail "" then None
           else Some {| DeviceWithOwner.id := AdminDeviceRow.plane_id device;
                        DeviceWithOwner.tail_number := tail;
                        DeviceWithOwner.model := AdminDeviceRow.plane_model device;
                        DeviceWithOwner.manufacturer :=
                          AdminDeviceRow.plane_manufacturer device |}
       | None => None
       end |}.

(** The [reduce] that collects the owners for the filter dropdown. *)
Definition uniqueOwners (ds : list DeviceWithOwner.t) : list Owner :=
  fold_left
    (fun acc device =>
       match DeviceWithOwner.user_id device with
       | Some uid =>
           if negb (String.eqb uid "")
              && negb (existsb (fun o => String.eqb (id o) uid) acc)
           then (acc ++ [{| id := uid;
                            email := or_else (DeviceWithOwner.user device) "Unknown" |}])%list
           else acc
       | None => acc
       end)
    (filter (fun d => match DeviceWithOwner.user d with
                      | Some _ => truthy (DeviceWithOwner.user_id d)
                      | None => false
                      end) ds)
    [].

Definition checkAdminAndFetchData (env : Env.t) (db : Store.t) (st : State) : State :=
  let finally := setLoading false in
  match Env.auth_user env with
  | None => finally (setLoading false (setError (Some "Not authenticated") st))
  | Some user =>
      let adminReply :=
        ask_single env (select_admin_user user)
          (filter (String.eqb user) (Env.admin_users env)) in
      let userIsAdmin :=
        match Reply.data adminReply with Some _ => true | None => false end in
      let st := setIsAdmin userIsAdmin st in
      if negb userIsAdmin
      then finally (setLoading false
                      (setError (Some "Access denied. Admin privileges required.") st))
      else
        let devicesReply :=
          ask env (rpc "get_admin_devices") (Env.get_admin_devices env db) in
        match Reply.error devicesReply with
        | Some devicesError => finally (setError (Some devicesError) st)
        | None =>
            let devicesWithOwners := map ofRow (or_nil (Reply.data devicesReply)) in
            let st := setOwners (uniqueOwners devicesWithOwners) st in
            let st := setDevices devicesWithOwners st in
            let usersReply :=
              ask env (rpc "get_admin_users") (Env.get_admin_users env) in
            match Reply.error usersReply with
            | Some _ => finally st
            | None => finally (setAllUsers (or_nil (Reply.data usersReply)) st)
            end
        end
  end.

(** [openAssignModal(device)], the "Edit" / "Assign User" button. *)
Definition openAssignModal (device : DeviceWithOwner.t) (st : State) : State :=
  let st := setSelectedDevice (Some device) st in
  let st :=
    setAssignFormData
      {| user_id := or_else (DeviceWithOwner.user_id device) "";
         name := or_else (DeviceWithOwner.name device) "" |} st in
  let currentUser :=
    find (fun u => opt_eqb (DeviceWithOwner.user_id device) (User.user_id u))
      (allUsers st) in
  let st :=
    setEmailInput
      (match currentUser with
       | Some u => if String.eqb (User.email u) "" then "" else User.email u
       | None => ""
       end) st in
  let st := setShowEmailSuggestions false st in
  setShowAssignModal true st.

(** [!value.trim()]: [trim] leaves no character exactly when the string
    is made of white space (here: the ASCII blanks). *)
Definition is_blank_char (c : ascii) : bool :=
  let n := nat_of_ascii c in
  (Nat.eqb n 32 || (Nat.leb 9 n && Nat.leb n 13))%bool.

Fixpoint all_blank (s : string) : bool :=
  match s with
  | EmptyString => true
  | String c s' => is_blank_char c && all_blank s'
  end.

Definition handleEmailInputChange (value : string) (st : State) : State :=
  let st' := setEmailInput value st in
  let st' := setShowEmailSuggestions true st' in
  if all_blank value
  then setAssignFormData {| user_id := ""; name := name (assignFormData st) |} st'
  else st'.

Definition handleSelectUser (user : User.t) (st : State) : State :=
  let st' := setEmailInput (User.email user) st in
  let st' :=
    setAssignFormData
      {| user_id := User.user_id user; name := name (assignFormData st) |} st' in
  setShowEmailSuggestions false st'.

(** [onChange] of the text input for the device name. *)
Definition typeName (value : string) (st : State) : State :=
  setAssignFormData {| user_id := user_id (assignFormData st); name := value |} st.

Definition handleAssignDevice (env : Env.t) (db : Store.t) (st : State)
  : Store.t * State :=
  let st := setError None st in
  match selectedDevice st with
  | None => (db, st)
  | Some selected =>
      let uuid := DeviceWithOwner.device_uuid selected in
      match Env.fault env (update_device uuid) with
      | Some msg => (db, setError (Some msg) st)
      | None =>
          let db := update_user_name uuid (or_null (user_id (assignFormData st)))
                      (or_null (name (assignFormData st))) db in
          let st := setShowAssignModal false st in
          let st := setSelectedDevice None st in
          let st := setAssignFormData {| user_id := ""; name := "" |} st in
          let st := setEmailInput "" st in
          let st := setShowEmailSuggestions false st in
          (db, checkAdminAndFetchData env db st)
      end
  end.

End Admin.

(** ** Notions used to state the properties *)

(** *** Assignment states of a device *)

Inductive AssignmentState :=
  | Orphan           (* no owner, no plane *)
  | Owned            (* owner, no plane *)
  | Assigned         (* owner and plane *)
  | PlaneWithoutOwner.

Definition assignmentState (d : Device.t) : AssignmentState :=
  match Device.user_id d, Device.plane_id d with
  | None, None => Orphan
  | Some _, None => Owned
  | Some _, Some _ => Assigned
  | None, Some _ => PlaneWithoutOwner
  end.

(** No device row has a plane reference and no owner. *)
Definition ownerInvariant (db : Store.t) : Prop :=
  forall d, In d (Store.devices db) -> assignmentState d <> PlaneWithoutOwner.

Definition findDevice (uuid : string) (db : Store.t) : option Device.t :=
  find (fun d => String.eqb (Device.device_uuid d) uuid) (Store.devices db).

Definition findPlane (id : string) (db : Store.t) : option Plane.t :=
  find (fun p => String.eqb (Plane.id p) id) (Store.planes db).

(** *** Sessions at the two pages that write to [devices]

    An action is what one visitor does in one go: the page is loaded, a
    listed device is picked, the form is filled and submitted. *)
Inductive Action :=
  (** admin page: "Edit" on the device, pick the [user]-th user of the
      suggestions or blank the e-mail input, type a name, submit *)
  | adminAssign (device_uuid : string) (user : option nat) (name : string)
  (** device list: "Edit" on the device, type a name, pick the
      [planeOption]-th option of the plane select or leave the select
      alone, submit *)
  | ownerEdit (device_uuid : string) (name : string) (planeOption : option nat)
  (** device list: "Delete" on the device *)
  | ownerDelete (device_uuid : string).

Definition adminAssignForm (user : option nat) (name : string) (st : Admin.State)
  : Admin.State :=
  let st :=
    match user with
    | None => Admin.handleEmailInputChange "" st
    | Some i =>
        match nth_error (Admin.allUsers st) i with
        | Some u => Admin.handleSelectUser u st
        | None => st
        end
    end in
  Admin.typeName name st.

Definition ownerEditForm (name : string) (planeOption : option nat)
  (st : DeviceList.State) : DeviceList.State :=
  let st := DeviceList.typeName name st in
  match planeOption with
  | Some i => DeviceList.selectPlane i st
  | None => st
  end.

(** The store and the device list page after an [ownerEdit]. *)
Definition ownerEditPage (env : Env.t) (uuid name : string)
  (planeOption : option nat) (db : Store.t) : Store.t * DeviceList.State :=
  let st := DeviceList.fetchData env db DeviceList.initialState in
  match find (fun d => String.eqb (Device.device_uuid (DeviceWithPlane.device d)) uuid)
          (DeviceList.devices st) with
  | Some device =>
      DeviceList.handleUpdateDevice env db
        (ownerEditForm name planeOption (DeviceList.openEditModal device st))
  | None => (db, st)
  end.

Definition step (env : Env.t) (a : Action) (db : Store.t) : Store.t :=
  match a with
  | adminAssign uuid user name =>
      let st := Admin.checkAdminAndFetchData env db Admin.initialState in
      match find (fun d => String.eqb (DeviceWithOwner.device_uuid d) uuid)
              (Admin.devices st) with
      | Some device =>
          let st := Admin.openAssignModal device st in
          let st := adminAssignForm user name st in
          fst (Admin.handleAssignDevice env db st)
      | None => db
      end
  | ownerEdit uuid name planeOption =>
      fst (ownerEditPage env uuid name planeOption db)
  | ownerDelete uuid =>
      let st := DeviceList.fetchData env db DeviceList.initialState in
      if existsb (fun d => String.eqb (Device.device_uuid (DeviceWithPlane.device d)) uuid)
           (DeviceList.devices st)
      then fst (DeviceList.handleDeleteDevice env db uuid st)
      else db
  end.

(** A run: each action with the environment it happens in. *)
Fixpoint run (trace : list (Env.t * Action)) (db : Store.t) : Store.t :=
  match trace with
  | [] => db
  | (env, a) :: trace' => run trace' (step env a db)
  end.

(** A [get_admin_devices] for examples: every device with the e-mail of
    its owner and the columns of its plane. *)
Definition joinOwner (users : list User.t) (db : Store.t) : list AdminDeviceRow.t :=
  map (fun d =>
         let owner :=
           match Device.user_id d with
           | Some uid => find (fun u => String.eqb (User.user_id u) uid) users
           | None => None
           end in
         let plane :=
           match Device.plane_id d with
           | Some pid => find (fun p => String.eqb (Plane.id p) pid) (Store.planes db)
           | None => None
           end in
         {| AdminDeviceRow.device_uuid := Device.device_uuid d;
            AdminDeviceRow.user_id := Device.user_id d;
            AdminDeviceRow.plane_id := Device.plane_id d;
            AdminDeviceRow.name := Device.name d;
            AdminDeviceRow.created_at := Device.created_at d;
            AdminDeviceRow.updated_at := Device.updated_at d;
            AdminDeviceRow.last_seen := Device.last_seen d;
            AdminDeviceRow.owner_email := option_map User.email owner;
            AdminDeviceRow.plane_tail_number := option_map Plane.tail_number plane;
            AdminDeviceRow.plane_model :=
              match plane with Some p => Plane.model p | None => None end;
            AdminDeviceRow.plane_manufacturer :=
              match plane with Some p => Plane.manufacturer p | None => None end |})
    (Store.devices db).

(** *** A reader of comma-separated documents

    Fields are separated by commas and records by line feeds; a field that
    starts with a double quote runs to the next double quote that is not
    doubled, and a doubled double quote inside it stands for one.  The
    result is never empty: the empty document is one record with one empty
    field. *)
Module Reader.

Inductive Mode := StartField | InField | InQuoted | QuoteInQuoted.

Definition comma : ascii := ascii_of_nat 44.
Definition dq : ascii := ascii_of_nat 34.
Definition lf : ascii := ascii_of_nat 10.

Definition consChar (c : ascii) (rs : list (list string)) : list (list string) :=
  match rs with
  | (f :: fs) :: rest => (String c f :: fs) :: rest
  | [] :: rest => [String c ""] :: rest
  | [] => [[String c ""]]
  end.

Definition endField (rs : list (list string)) : list (list string) :=
  match rs with
  | fs :: rest => ("" :: fs) :: rest
  | [] => [[""]]
  end.

Definition endRecord (rs : list (list string)) : list (list string) :=
  [""] :: rs.

Fixpoint read (mode : Mode) (s : string) : list (list string) :=
  match s with
  | EmptyString => [[""]]
  | String c s' =>
      match mode with
      | StartField =>
          if Ascii.eqb c dq then read InQuoted s'
          else if Ascii.eqb c comma then endField (read StartField s')
          else if Ascii.eqb c lf then endRecord (read StartField s')
          else consChar c (read InField s')
      | InField =>
          if Ascii.eqb c comma then endField (read StartField s')
          else if Ascii.eqb c lf then endRecord (read StartField s')
          else consChar c (read InField s')
      | InQuoted =>
          if Ascii.eqb c dq then read QuoteInQuoted s'
          else consChar c (read InQuoted s')
      | QuoteInQuoted =>
          if Ascii.eqb c dq then consChar c (read InQuoted s')
          else if Ascii.eqb c comma then endField (read StartField s')
          else if Ascii.eqb c lf then endRecord (read StartField s')
          else consChar c (read InField s')
      end
  end.

Definition parse (s : string) : list (list string) := read StartField s.

(** The column "Duration" of the records after the header. *)
Definition durations (doc : list (list string)) : list string :=
  map (fun r => nth 3 r "") (tl doc).

End Reader.

(** [s] has no double quote. *)
Fixpoint quoteFree (s : string) : bool :=
  match s with
  | EmptyString => true
  | String c s' => negb (Ascii.eqb c Reader.dq) && quoteFree s'
  end.

(** The text cells [exportToCSV] takes from the store for a session. *)
Definition textCells (s : SessionWithDevice.t) : list string :=
  firstn 3 (SessionView.row s) ++ skipn 5 (SessionView.row s).

(** *** Sums and counts over a collection of sessions, by recursion *)


Fixpoint countOf (p : Session.t -> bool) (l : list Session.t) : Z :=
  match l with
  | [] => 0
  | s :: l' => (if p s then 1 else 0) + countOf p l'
  end.


(** A session record with the given status and duration. *)
Definition mkSession (uuid : string) (st : SessionStatus) (seconds : Z) : Session.t :=
  {| Session.id := "s"; Session.device_uuid := uuid;
     Session.session_start := "2024-05-01T10:00:00+00:00";
     Session.run_seconds := seconds; Session.last_update := None;
     Session.status := st; Session.msg_id := "m";
     Session.created_at := "2024-05-01T10:00:00+00:00";
     Session.updated_at := "2024-05-01T10:00:00+00:00" |}.

(** *** Environments and stores for examples *)

(** The environment of a signed-in user to whom the store answers every
    query. *)
Definition envOf (user : string) : Env.t :=
  {| Env.auth_user := Some user;
     Env.fault := fun _ => None;
     Env.not_single := "JSON object requested, multiple (or no) rows returned";
     Env.ts_leb := String.leb;
     Env.text_leb := String.leb;
     Env.admin_users := ["root"];
     Env.get_admin_devices :=
       joinOwner [ {| User.user_id := "alice"; User.email := "alice@example.org";
                      User.created_at := "2024-01-01T00:00:00+00:00" |};
                   {| User.user_id := "bob"; User.email := "bob@example.org";
                      User.created_at := "2024-01-02T00:00:00+00:00" |} ];
     Env.get_admin_users :=
       [ {| User.user_id := "alice"; User.email := "alice@example.org";
            User.created_at := "2024-01-01T00:00:00+00:00" |};
         {| User.user_id := "bob"; User.email := "bob@example.org";
            User.created_at := "2024-01-02T00:00:00+00:00" |} ];
     Env.confirm := true |}.

(** [env] with another answer of the store to the queries. *)
Definition withFault (fault : Query -> option string) (env : Env.t) : Env.t :=
  {| Env.auth_user := Env.auth_user env;
     Env.fault := fault;
     Env.not_single := Env.not_single env;
     Env.ts_leb := Env.ts_leb env;
     Env.text_leb := Env.text_leb env;
     Env.admin_users := Env.admin_users env;
     Env.get_admin_devices := Env.get_admin_devices env;
     Env.get_admin_users := Env.get_admin_users env;
     Env.confirm := Env.confirm env |}.

(** [env] where the per-device statistics queries of [fetchPlaneData] fail
    with [msg], and [env] where they do not fail. *)
Definition failingStats (msg : string) (env : Env.t) : Env.t :=
  withFault (fun q => match q with
                      | select_run_seconds_of _ => Some msg
                      | _ => Env.fault env q
                      end) env.

Definition answeringStats (env : Env.t) : Env.t :=
  withFault (fun q => match q with
                      | select_run_seconds_of _ => None
                      | _ => Env.fault env q
                      end) env.

Definition mkPlane (id user tail : string) : Plane.t :=
  {| Plane.id := id; Plane.user_id := user; Plane.tail_number := tail;
     Plane.model := None; Plane.manufacturer := None;
     Plane.created_at := "2024-01-01T00:00:00+00:00";
     Plane.updated_at := "2024-01-01T00:00:00+00:00" |}.

Definition mkDevice (uuid : string) (user plane name : option string) : Device.t :=
  {| Device.device_uuid := uuid; Device.user_id := user; Device.plane_id := plane;
     Device.name := name;
     Device.created_at := "2024-02-01T00:00:00+00:00";
     Device.updated_at := "2024-02-01T00:00:00+00:00";
     Device.last_seen := None |}.

(** Alice owns plane [p-alice] with device [dev-1] on it; Bob owns plane
    [p-bob] and the unassigned device [dev-2]; device [dev-3] has just
    reported for the first time. *)
Definition exampleStore : Store.t :=
  {| Store.planes := [mkPlane "p-alice" "alice" "N100AA"; mkPlane "p-bob" "bob" "N200BB"];
     Store.devices :=
       [ mkDevice "dev-1" (Some "alice") (Some "p-alice") (Some "Main tracker");
         mkDevice "dev-2" (Some "bob") None None;
         mkDevice "dev-3" None None None ];
     Store.sessions :=
       [ mkSession "dev-1" closed 3600; mkSession "dev-1" closed 7200;
         mkSession "dev-1" open 1800; mkSession "dev-2" closed 4500 ] |}.


(** [consString s rs] puts the characters of [s] in front of the first
    field of the first record of [rs]. *)
Fixpoint consString (s : string) (rs : list (list string)) : list (list string) :=
  match s with
  | EmptyString => rs
  | String c s' => Reader.consChar c (consString s' rs)
  end.

(** A session on a device of Alice that she named with a quoted word and
    a comma, as the session page holds it after loading. *)
Definition quotedName : string :=
  "Tracker " ++ SessionView.dquote ++ "A" ++ SessionView.dquote ++ ", spare".

Definition quotedNameStore : Store.t :=
  {| Store.planes := [mkPlane "p-alice" "alice" "N100AA"];
     Store.devices :=
       [mkDevice "dev-1" (Some "alice") (Some "p-alice") (Some quotedName)];
     Store.sessions := [mkSession "dev-1" closed 3600] |}.

Definition quotedNameView : SessionView.State :=
  SessionView.fetchData (envOf "alice") quotedNameStore SessionView.initialState.

(** The session page of Alice over [exampleStore]. *)
Definition exampleView : SessionView.State :=
  SessionView.fetchData (envOf "alice") exampleStore SessionView.initialState.


(** A line of the exported document: the cells in double quotes, joined
    by commas. *)
Definition line (cells : list string) : string :=
  SessionView.join "," (map SessionView.quoted cells).


(** The last step of [binary_round_aux]: a mantissa of 53 bits is kept,
    the one of 54 bits that rounding up can produce is renormalised. *)
Definition finish (sx : bool) (m e : Z) : spec_float :=
  if m <? 2 ^ 53 then S754_finite sx (Z.to_pos m) e
  else S754_finite sx (Z.to_pos (2 ^ 52)) (e + 1).

(** The session page of Bob over [exampleStore]. *)
Definition bobView : SessionView.State :=
  SessionView.fetchData (envOf "bob") exampleStore SessionView.initialState.


(** ** More of [PlaneDetail.tsx]: [formatRelativeTime] *)

(** The template [`${n} ${unit}${n !== 1 ? 's' : ''} ago`]. *)
Definition agoText (n : Z) (unit : string) : string :=
  (string_of_Z n ++ " " ++ unit ++ (if (n =? 1)%Z then "" else "s") ++ " ago")%string.

(** [formatRelativeTime(timestamp)].  [now] is [new Date().getTime()] and
    [getTime ts] is [new Date(ts).getTime()], a whole number of
    milliseconds, or [None] when [ts] is not a date (the time value is
    then NaN, every comparison with it is false and it prints as "NaN").
    The difference and the quotients are those of the integers; they are
    the binary64 results as long as the difference is below 2^53 in
    magnitude. *)
Definition formatRelativeTime (now : Z) (getTime : string -> option Z)
  (timestamp : option string) : string :=
  if negb (truthy timestamp) then "Never"
  else
    match getTime (or_else timestamp "") with
    | None => "NaN days ago"
    | Some past =>
        let diffMs := now - past in
        let diffMins := Math_floor_div diffMs 60000 in
        let diffHours := Math_floor_div diffMins 60 in
        let diffDays := Math_floor_div diffHours 24 in
        if diffMins <? 60 then agoText diffMins "min"
        else if diffHours <? 24 then agoText diffHours "hour"
        else agoText diffDays "day"
    end.

(** ** More of [SessionView.tsx]: the summary "Flight Time by Plane" *)

Module SummaryRow.
Record t := {
  tail_number : option string;
  model : string;
  sessionCount : Z;
  hours : option string
}.
End SummaryRow.

Module SessionSummary.

(** [hours === 0] on a binary64 value *)
Definition is_zero (x : spec_float) : bool :=
  match x with
  | S754_zero _ => true
  | _ => false
  end.

(** [filteredSessions.filter(s => s.device_uuid === device.device_uuid)] *)
Definition deviceSessions (st : SessionView.State) (device : DeviceWithPlane.t)
  : list SessionWithDevice.t :=
  filter (fun s => String.eqb (Session.device_uuid (SessionWithDevice.session s))
                     (Device.device_uuid (DeviceWithPlane.device device)))
    (SessionView.filteredSessions st).

Definition totalSeconds (st : SessionView.State) (device : DeviceWithPlane.t) : Z :=
  fold_left (fun acc s => acc + SessionView.run_seconds_or_0 s)
    (deviceSessions st device) 0.

(** The callback of [devices.filter(device => device.plane).map]: [None]
    is [return null]. *)
Definition row (st : SessionView.State) (device : DeviceWithPlane.t)
  : option SummaryRow.t :=
  let hours := binary64_div (binary64_of_Z (totalSeconds st device))
                 (binary64_of_Z 3600) in
  if is_zero hours then None
  else
    Some {| SummaryRow.tail_number :=
              option_map Plane.tail_number (DeviceWithPlane.plane device);
            SummaryRow.model :=
              or_else (match DeviceWithPlane.plane device with
                       | Some p => Plane.model p
                       | None => None
                       end) "Unknown Model";
            SummaryRow.sessionCount :=
              Z.of_nat (List.length (deviceSessions st device));
            SummaryRow.hours := toFixed 1 hours |}.

Definition hasPlane (device : DeviceWithPlane.t) : bool :=
  match DeviceWithPlane.plane device with
  | Some _ => true
  | None => false
  end.

(** The card "Flight Time by Plane"; it is rendered when
    [filteredSessions.length > 0]. *)
Definition card (st : SessionView.State) : option (list (option SummaryRow.t)) :=
  if (0 <? Z.of_nat (List.length (SessionView.filteredSessions st)))
  then Some (map (row st) (filter hasPlane (SessionView.devices st)))
  else None.

End SessionSummary.

(** ** [PlaneList.tsx] *)

(** The writes of the plane list to the table [planes]. *)
Inductive PlaneWrite :=
  | insert_plane
  | update_plane (id : string)
  | delete_plane (id : string).

Module PlaneEnv.
Record t := {
  (** the environment of the reads *)
  env : Env.t;
  (** the error message the store answers a write with, if it fails *)
  fault : PlaneWrite -> option string;
  (** the defaults of the store for the columns [id], [created_at] and
      [updated_at] of an inserted row *)
  new_id : string;
  now : string
}.
End PlaneEnv.

(** [from('planes').insert([{ tail_number, model, manufacturer, user_id }])] *)
Definition insert_plane_row (penv : PlaneEnv.t) (user tail_number : string)
  (model manufacturer : option string) (db : Store.t) : Store.t :=
  {| Store.planes :=
       (Store.planes db ++
        [ {| Plane.id := PlaneEnv.new_id penv;
             Plane.user_id := user;
             Plane.tail_number := tail_number;
             Plane.model := model;
             Plane.manufacturer := manufacturer;
             Plane.created_at := PlaneEnv.now penv;
             Plane.updated_at := PlaneEnv.now penv |} ])%list;
     Store.devices := Store.devices db;
     Store.sessions := Store.sessions db |}.

(** [from('planes').update({ tail_number, model, manufacturer }).eq('id', id)] *)
Definition update_plane_row (id tail_number : string)
  (model manufacturer : option string) (db : Store.t) : Store.t :=
  {| Store.planes :=
       map (fun p =>
              if String.eqb (Plane.id p) id
              then {| Plane.id := Plane.id p;
                      Plane.user_id := Plane.user_id p;
                      Plane.tail_number := tail_number;
                      Plane.model := model;
                      Plane.manufacturer := manufacturer;
                      Plane.created_at := Plane.created_at p;
                      Plane.updated_at := Plane.updated_at p |}
              else p)
         (Store.planes db);
     Store.devices := Store.devices db;
     Store.sessions := Store.sessions db |}.

Module PlaneList.

Record FormData := { tail_number : string; model : string; manufacturer : string }.

Record State := {
  planes : list Plane.t;
  loading : bool;
  showAddModal : bool;
  showEditModal : bool;
  selectedPlane : option Plane.t;
  formData : FormData;
  error : option string
}.

Definition emptyForm : FormData :=
  {| tail_number := ""; model := ""; manufacturer := "" |}.

Definition initialState : State :=
  {| planes := []; loading := true; showAddModal := false; showEditModal := false;
     selectedPlane := None; formData := emptyForm; error := None |}.

Definition setPlanes v st :=
  {| planes := v; loading := loading st; showAddModal := showAddModal st;
     showEditModal := showEditModal st; selectedPlane := selectedPlane st;
     formData := formData st; error := error st |}.
Definition setLoading v st :=
  {| planes := planes st; loading := v; showAddModal := showAddModal st;
     showEditModal := showEditModal st; selectedPlane := selectedPlane st;
     formData := formData st; error := error st |}.
Definition setShowAddModal v st :=
  {| planes := planes st; loading := loading st; showAddModal := v;
     showEditModal := showEditModal st; selectedPlane := selectedPlane st;
     formData := formData st; error := error st |}.
Definition setShowEditModal v st :=
  {| planes := planes st; loading := loading st; showAddModal := showAddModal st;
     showEditModal := v; selectedPlane := selectedPlane st;
     formData := formData st; error := error st |}.
Definition setSelectedPlane v st :=
  {| planes := planes st; loading := loading st; showAddModal := showAddModal st;
     showEditModal := showEditModal st; selectedPlane := v;
     formData := formData st; error := error st |}.
Definition setFormData v st :=
  {| planes := planes st; loading := loading st; showAddModal := showAddModal st;
     showEditModal := showEditModal st; selectedPlane := selectedPlane st;
     formData := v; error := error st |}.
Definition setError v st :=
  {| planes := planes st; loading := loading st; showAddModal := showAddModal st;
     showEditModal := showEditModal st; selectedPlane := selectedPlane st;
     formData := formData st; error := v |}.

Definition fetchPlanes (penv : PlaneEnv.t) (db : Store.t) (st : State) : State :=
  let env := PlaneEnv.env penv in
  let finally := setLoading false in
  match Env.auth_user env with
  | None => finally st
  | Some user =>
      let reply :=
        ask env (select_planes_of user)
          (order_asc Plane.tail_number (Env.text_leb env)
             (filter (fun p => String.eqb (Plane.user_id p) user) (Store.planes db))) in
      match Reply.error reply with
      | Some msg => finally (setError (Some msg) st)
      | None => finally (setPlanes (or_nil (Reply.data reply)) st)
      end
  end.

Definition handleAddPlane (penv : PlaneEnv.t) (db : Store.t) (st : State)
  : Store.t * State :=
  let st := setError None st in
  match Env.auth_user (PlaneEnv.env penv) with
  | None => (db, setError (Some "Not authenticated") st)
  | Some user =>
      match PlaneEnv.fault penv insert_plane with
      | Some msg => (db, setError (Some msg) st)
      | None =>
          let db := insert_plane_row penv user (tail_number (formData st))
                      (or_null (model (formData st)))
                      (or_null (manufacturer (formData st))) db in
          let st := setFormData emptyForm st in
          let st := setShowAddModal false st in
          (db, fetchPlanes penv db st)
      end
  end.

Definition handleUpdatePlane (penv : PlaneEnv.t) (db : Store.t) (st : State)
  : Store.t * State :=
  let st := setError None st in
  match selectedPlane st with
  | None => (db, st)
  | Some selected =>
      match PlaneEnv.fault penv (update_plane (Plane.id selected)) with
      | Some msg => (db, setError (Some msg) st)
      | None =>
          let db := update_plane_row (Plane.id selected) (tail_number (formData st))
                      (or_null (model (formData st)))
                      (or_null (manufacturer (formData st))) db in
          let st := setFormData emptyForm st in
          let st := setShowEditModal false st in
          let st := setSelectedPlane None st in
          (db, fetchPlanes penv db st)
      end
  end.

(** [openEditModal(plane)] *)
Definition openEditModal (plane : Plane.t) (st : State) : State :=
  let st := setSelectedPlane (Some plane) st in
  let st :=
    setFormData
      {| tail_number := Plane.tail_number plane;
         model := or_else (Plane.model plane) "";
         manufacturer := or_else (Plane.manufacturer plane) "" |} st in
  setShowEditModal true st.

(** The browser submits a form only when its [required] input
    [tail_number] is filled in. *)
Definition submits (st : State) : bool :=
  negb (String.eqb (tail_number (formData st)) "").

(** "Add Plane": open the modal, fill the form, submit. *)
Definition addPlane (penv : PlaneEnv.t) (form : FormData) (db : Store.t)
  : Store.t * State :=
  let st := fetchPlanes penv db initialState in
  let st := setFormData form (setShowAddModal true st) in
  if submits st then handleAddPlane penv db st else (db, st).

(** "Edit" on the listed plane with this id: fill the form, submit. *)
Definition editPlane (penv : PlaneEnv.t) (id : string) (form : FormData)
  (db : Store.t) : Store.t * State :=
  let st := fetchPlanes penv db initialState in
  match find (fun p => String.eqb (Plane.id p) id) (planes st) with
  | Some plane =>
      let st := setFormData form (openEditModal plane st) in
      if submits st then handleUpdatePlane penv db st else (db, st)
  | None => (db, st)
  end.

End PlaneList.

(** A plane environment for examples: no write fails. *)
Definition planeEnvOf (user new_id : string) : PlaneEnv.t :=
  {| PlaneEnv.env := envOf user;
     PlaneEnv.fault := fun _ => None;
     PlaneEnv.new_id := new_id;
     PlaneEnv.now := "2024-06-01T00:00:00+00:00" |}.


(** *** Weighted sums over the elements that satisfy a test *)



(** [s] is made of decimal digits and minus signs. *)
Fixpoint numeric (s : string) : bool :=
  match s with
  | EmptyString => true
  | String c s' =>
      let n := nat_of_ascii c in
      ((Nat.eqb n 45 || (Nat.leb 48 n && Nat.leb n 57)) && numeric s')%bool
  end.


(** The actions of the device list page, as opposed to the admin page. *)
Definition ownerAction (a : Action) : bool :=
  match a with
  | adminAssign _ _ _ => false
  | ownerEdit _ _ _ => true
  | ownerDelete _ => true
  end.


(** * Properties *)

(** ** Sums *)







Lemma length_filter_countOf p l : Z.of_nat (List.length (filter p l)) = countOf p l.
Proof.
  induction l as [|s l IH]; [reflexivity|].
  simpl. destruct (p s); simpl List.length; lia.
Qed.






(** ** [Math.round], [Math.max], [Math.min] *)


Lemma Math_max_spec ts : forall t,
  (Math_max t ts = t \/ In (Math_max t ts) ts) /\
  t <= Math_max t ts /\ (forall x, In x ts -> x <= Math_max t ts).
Proof.
  unfold Math_max. induction ts as [|y ts IH]; intro t; simpl.
  - split; [left; reflexivity|]. split; [lia|intros x []].
  - destruct (IH (Z.max t y)) as (Hin & Hle & Hall).
    split; [|split].
    + destruct Hin as [E|Hin]; [|right; right; assumption].
      rewrite E. destruct (Z.max_spec t y) as [[_ ->]|[_ ->]]; [right|]; auto.
    + lia.
    + intros x [<-|Hx]; [lia|auto].
Qed.

Lemma Math_min_spec ts : forall t,
  (Math_min t ts = t \/ In (Math_min t ts) ts) /\
  Math_min t ts <= t /\ (forall x, In x ts -> Math_min t ts <= x).
Proof.
  unfold Math_min. induction ts as [|y ts IH]; intro t; simpl.
  - split; [left; reflexivity|]. split; [lia|intros x []].
  - destruct (IH (Z.min t y)) as (Hin & Hle & Hall).
    split; [|split].
    + destruct Hin as [E|Hin]; [|right; right; assumption].
      rewrite E. destruct (Z.min_spec t y) as [[_ ->]|[_ ->]]; [|right]; auto.
    + lia.
    + intros x [<-|Hx]; [lia|auto].
Qed.

(** ** The statistics of a plane ([computeStats]) *)


Lemma computeStats_no_closed l :
  filter is_closed l = [] ->
  averageFlightTime (computeStats l) = 0 /\
  longestFlight (computeStats l) = 0 /\
  shortestFlight (computeStats l) = 0.
Proof.
  intro H. unfold computeStats. rewrite H. simpl. auto.
Qed.


Lemma In_closed_times l x :
  In x (map Session.run_seconds (filter is_closed l)) <->
  exists s, In s l /\ Session.status s = closed /\ Session.run_seconds s = x.
Proof.
  rewrite in_map_iff. split.
  - intros (s & E & H). apply filter_In in H. destruct H as [H C].
    exists s. repeat split; auto.
    unfold is_closed in C. destruct (Session.status s); [discriminate|reflexivity].
  - intros (s & H & C & E). exists s. split; [assumption|].
    apply filter_In. split; [assumption|]. unfold is_closed. rewrite C. reflexivity.
Qed.

(** The longest and the shortest flight are durations of closed sessions
    and bound the durations of all closed sessions. *)
Lemma computeStats_extrema l :
  0 < countOf is_closed l ->
  (exists s, In s l /\ Session.status s = closed /\
             Session.run_seconds s = longestFlight (computeStats l)) /\
  (exists s, In s l /\ Session.status s = closed /\
             Session.run_seconds s = shortestFlight (computeStats l)) /\
  (forall s, In s l -> Session.status s = closed ->
             shortestFlight (computeStats l) <= Session.run_seconds s
             <= longestFlight (computeStats l)).
Proof.
  intro Hn. rewrite <- length_filter_countOf in Hn.
  rewrite <- (length_map Session.run_seconds (filter is_closed l)) in Hn.
  pose proof (In_closed_times l) as Hin.
  unfold computeStats.
  destruct (map Session.run_seconds (filter is_closed l)) as [|t ts] eqn:E.
  - simpl in Hn. lia.
  - cbn [longestFlight shortestFlight].
    destruct (Math_max_spec ts t) as (Mi & Mt & Ma).
    destruct (Math_min_spec ts t) as (mi & mt & ma).
    split; [|split].
    + apply Hin. destruct Mi as [->|Mi]; [left; reflexivity|right; assumption].
    + apply Hin. destruct mi as [->|mi]; [left; reflexivity|right; assumption].
    + intros s Hs Hc.
      assert (K : In (Session.run_seconds s) (t :: ts))
        by (apply Hin; exists s; auto).
      destruct K as [<-|K]; [lia|].
      specialize (Ma _ K). specialize (ma _ K). lia.
Qed.





(** C3, as stated, fails: with no closed session the average card shows
    "N/A", but the row with the longest and the shortest flight is not
    rendered, so these two carry no marker. *)
Lemma C3_extrema_without_marker :
  let stats := computeStats [mkSession "d" open 1800] in
  ~ (fst (PlaneDetail.averageCard stats) = "N/A" /\
     exists cards,
       PlaneDetail.additionalStatsRow stats = Some cards /\
       fst (fst cards) = "N/A" /\ fst (snd cards) = "N/A").
Proof.
  intros stats (_ & cards & H & _). discriminate H.
Qed.

(** C3, amended.  With no closed session the three statistics are computed
    without a division and are 0; the average card shows "N/A" and no
    Hobbs line, and the row with the longest and the shortest flight is
    not rendered: no duration is displayed for any of the three. *)
Theorem C3_no_closed_session (l : list Session.t) :
  countOf is_closed l = 0 ->
  averageFlightTime (computeStats l) = 0 /\
  longestFlight (computeStats l) = 0 /\
  shortestFlight (computeStats l) = 0 /\
  PlaneDetail.averageCard (computeStats l) = ("N/A", None) /\
  PlaneDetail.additionalStatsRow (computeStats l) = None.
Proof.
  intro H. rewrite <- length_filter_countOf in H.
  assert (E : filter is_closed l = [])
    by (destruct (filter is_closed l); [reflexivity|simpl in H; lia]).
  destruct (computeStats_no_closed l E) as (Ha & Hl & Hs).
  repeat (split; [assumption|]).
  unfold PlaneDetail.averageCard, PlaneDetail.additionalStatsRow.
  rewrite Ha, Hl. split; reflexivity.
Qed.

Lemma C3_no_closed_session_witness :
  let l := [mkSession "d" open 1800; mkSession "e" open 0] in
  averageFlightTime (computeStats l) = 0 /\
  longestFlight (computeStats l) = 0 /\
  shortestFlight (computeStats l) = 0 /\
  PlaneDetail.averageCard (computeStats l) = ("N/A", None) /\
  PlaneDetail.additionalStatsRow (computeStats l) = None.
Proof.
  intro l. apply (C3_no_closed_session l). reflexivity.
Defined.

(** ** Per-device statistics of [fetchPlaneData] *)

Lemma deviceStats_failed env db d msg :
  Env.fault env (select_run_seconds_of (Device.device_uuid d)) = Some msg ->
  PlaneDetail.deviceStats env db d =
  {| DeviceWithStats.device := d; DeviceWithStats.sessionCount := 0;
     DeviceWithStats.totalFlightTime := 0 |}.
Proof.
  intro H. unfold PlaneDetail.deviceStats, ask. rewrite H. reflexivity.
Qed.

Lemma deviceStats_device env db :
  forall l, map DeviceWithStats.device (map (PlaneDetail.deviceStats env db) l) = l.
Proof.
  induction l as [|d l IH]; [reflexivity|]. simpl. rewrite IH. reflexivity.
Qed.

Lemma answeringStats_other env q :
  (forall u, q <> select_run_seconds_of u) ->
  Env.fault (answeringStats env) q = Env.fault env q.
Proof.
  intro H. destruct q; try reflexivity. exfalso. apply (H device_uuid). reflexivity.
Qed.

Lemma ask_answeringStats {A} env q (rows : A) :
  (forall u, q <> select_run_seconds_of u) ->
  ask (answeringStats env) q rows = ask env q rows.
Proof.
  intro H. unfold ask. rewrite answeringStats_other by assumption. reflexivity.
Qed.

Lemma ask_single_answeringStats {A} env q (rows : list A) :
  (forall u, q <> select_run_seconds_of u) ->
  ask_single (answeringStats env) q rows = ask_single env q rows.
Proof.
  intro H. unfold ask_single. rewrite answeringStats_other by assumption. reflexivity.
Qed.

(** C9, as stated, fails: when the statistics query of a device fails, the
    listing is complete and the device shows zeros, but nothing is
    reported: the page has no error. *)
Lemma C9_stat_failure_is_silent :
  let env := failingStats "timeout" (envOf "alice") in
  let st := PlaneDetail.fetchPlaneData env exampleStore "p-alice"
              PlaneDetail.initialState in
  ~ (map DeviceWithStats.device (PlaneDetail.devices st)
       = [mkDevice "dev-1" (Some "alice") (Some "p-alice") (Some "Main tracker")] /\
     (forall d, In d (PlaneDetail.devices st) ->
                DeviceWithStats.sessionCount d = 0 /\
                DeviceWithStats.totalFlightTime d = 0) /\
     PlaneDetail.error st <> None).
Proof.
  intros env st (_ & _ & H). apply H. reflexivity.
Qed.

(** C9, amended.  A failure of a per-device statistics query does not
    abort the listing and is not reported: the page ends in the state it
    would reach if these queries were answered, error included, except
    for the two statistics of the listed devices; a device whose query
    failed is listed with a session count and a flight time of zero. *)
Theorem C9_stat_failure (env : Env.t) (db : Store.t) (id : string)
  (st : PlaneDetail.State) :
  let st1 := PlaneDetail.fetchPlaneData env db id st in
  let st0 := PlaneDetail.fetchPlaneData (answeringStats env) db id st in
  (PlaneDetail.error st1 = PlaneDetail.error st0 /\
   PlaneDetail.plane st1 = PlaneDetail.plane st0 /\
   PlaneDetail.stats st1 = PlaneDetail.stats st0 /\
   PlaneDetail.recentSessions st1 = PlaneDetail.recentSessions st0 /\
   PlaneDetail.loading st1 = PlaneDetail.loading st0 /\
   map DeviceWithStats.device (PlaneDetail.devices st1)
   = map DeviceWithStats.device (PlaneDetail.devices st0)) /\
  (forall d msg,
     Env.fault env (select_run_seconds_of (Device.device_uuid d)) = Some msg ->
     PlaneDetail.deviceStats env db d =
     {| DeviceWithStats.device := d; DeviceWithStats.sessionCount := 0;
        DeviceWithStats.totalFlightTime := 0 |}) /\
  (forall user p,
     Env.auth_user env = Some user ->
     ask_single env (select_plane id user)
       (filter (fun p => String.eqb (Plane.id p) id
                         && String.eqb (Plane.user_id p) user) (Store.planes db))
     = {| Reply.data := Some p; Reply.error := None |} ->
     Env.fault env (select_devices_on id user) = None ->
     PlaneDetail.devices st1 =
     map (PlaneDetail.deviceStats env db)
       (filter (fun d => opt_eqb (Device.plane_id d) id
                         && opt_eqb (Device.user_id d) user) (Store.devices db))).
Proof.
  intros st1 st0. split; [|split].
  - unfold st1, st0, PlaneDetail.fetchPlaneData.
    change (Env.auth_user (answeringStats env)) with (Env.auth_user env).
    change (Env.ts_leb (answeringStats env)) with (Env.ts_leb env).
    destruct (Env.auth_user env) as [user|]; [|repeat split].
    rewrite ask_single_answeringStats by discriminate.
    destruct (ask_single env (select_plane id user) _) as [[p|] [e|]];
      cbn [Reply.data Reply.error]; try solve [repeat split].
    rewrite ask_answeringStats by discriminate.
    destruct (ask env (select_devices_on id user) _) as [dd [e|]];
      cbn [Reply.data Reply.error]; [repeat split|].
    rewrite ask_answeringStats by discriminate.
    destruct (0 <? _).
    + destruct (ask env (select_sessions_in _) _) as [sd [e|]];
        cbn [Reply.data Reply.error];
        cbn [PlaneDetail.error PlaneDetail.plane PlaneDetail.stats
             PlaneDetail.recentSessions PlaneDetail.loading PlaneDetail.devices
             PlaneDetail.setLoading PlaneDetail.setError PlaneDetail.setDevices
             PlaneDetail.setPlane PlaneDetail.setStats PlaneDetail.catch
             PlaneDetail.setRecentSessions];
        rewrite !deviceStats_device; repeat split.
    + cbn [PlaneDetail.error PlaneDetail.plane PlaneDetail.stats
             PlaneDetail.recentSessions PlaneDetail.loading PlaneDetail.devices
             PlaneDetail.setLoading PlaneDetail.setError PlaneDetail.setDevices
             PlaneDetail.setPlane].
      rewrite !deviceStats_device. repeat split.
  - intros d msg H. apply deviceStats_failed with msg. assumption.
  - intros user p Hu Hp Hd. unfold st1, PlaneDetail.fetchPlaneData.
    rewrite Hu, Hp. cbn [Reply.data Reply.error].
    unfold ask. rewrite Hd. cbn [Reply.data Reply.error or_nil].
    destruct (0 <? _).
    + destruct (Env.fault env (select_sessions_in _)); reflexivity.
    + reflexivity.
Qed.

Lemma C9_stat_failure_witness :
  let env := failingStats "timeout" (envOf "alice") in
  let st1 := PlaneDetail.fetchPlaneData env exampleStore "p-alice"
               PlaneDetail.initialState in
  PlaneDetail.error st1 = None /\
  PlaneDetail.devices st1 =
  [ {| DeviceWithStats.device :=
         mkDevice "dev-1" (Some "alice") (Some "p-alice") (Some "Main tracker");
       DeviceWithStats.sessionCount := 0;
       DeviceWithStats.totalFlightTime := 0 |} ].
Proof.
  intros env st1.
  destruct (C9_stat_failure env exampleStore "p-alice" PlaneDetail.initialState)
    as ((He & _) & Hz & Hl).
  split.
  - exact He.
  - unfold st1.
    rewrite (Hl "alice" (mkPlane "p-alice" "alice" "N100AA") eq_refl eq_refl eq_refl).
    simpl map.
    rewrite (Hz (mkDevice "dev-1" (Some "alice") (Some "p-alice") (Some "Main tracker"))
               "timeout" eq_refl).
    reflexivity.
Defined.


(** ** Deleting a device *)

Lemma delete_by_uuid_frame uuid db :
  Store.sessions (delete_by_uuid uuid db) = Store.sessions db /\
  Store.planes (delete_by_uuid uuid db) = Store.planes db.
Proof. split; reflexivity. Qed.

Lemma delete_by_uuid_devices uuid db d :
  In d (Store.devices (delete_by_uuid uuid db)) <->
  In d (Store.devices db) /\ Device.device_uuid d <> uuid.
Proof.
  unfold delete_by_uuid. cbn [Store.devices]. rewrite filter_In.
  destruct (String.eqb_spec (Device.device_uuid d) uuid) as [E|E]; simpl.
  - split; [intros [_ H]; discriminate|intros [_ H]; contradiction].
  - split; intros [H _]; auto.
Qed.

(** C10.  [handleDeleteDevice] leaves the sessions and the planes as they
    are, those of the deleted device included, and leaves every device
    with another token in place; when the visitor confirms and the store
    carries the deletion out, the devices that remain are exactly the
    ones with another token. *)
Theorem C10_delete_device_frame (env : Env.t) (db : Store.t) (deviceUuid : string)
  (st : DeviceList.State) :
  let db' := fst (DeviceList.handleDeleteDevice env db deviceUuid st) in
  Store.sessions db' = Store.sessions db /\
  Store.planes db' = Store.planes db /\
  filter (fun d => negb (String.eqb (Device.device_uuid d) deviceUuid))
    (Store.devices db')
  = filter (fun d => negb (String.eqb (Device.device_uuid d) deviceUuid))
      (Store.devices db) /\
  (forall d, In d (Store.devices db') -> In d (Store.devices db)) /\
  (Env.confirm env = true ->
   Env.fault env (delete_device deviceUuid) = None ->
   forall d, In d (Store.devices db') <->
             In d (Store.devices db) /\ Device.device_uuid d <> deviceUuid).
Proof.
  intro db'. unfold db', DeviceList.handleDeleteDevice.
  destruct (Env.confirm env); cbn [negb];
    [destruct (Env.fault env (delete_device deviceUuid))|]; cbn [fst].
  - repeat split; auto; discriminate.
  - split; [reflexivity|]. split; [reflexivity|]. split; [|split].
    + unfold delete_by_uuid. cbn [Store.devices].
      induction (Store.devices db) as [|d l IH]; [reflexivity|].
      simpl. destruct (negb (Device.device_uuid d =? deviceUuid)%string) eqn:E.
      * simpl. rewrite E, IH. reflexivity.
      * exact IH.
    + intros d H. apply delete_by_uuid_devices in H. tauto.
    + intros _ _ d. apply delete_by_uuid_devices.
  - repeat split; auto; discriminate.
Qed.

Lemma C10_delete_device_frame_witness :
  let db' := fst (DeviceList.handleDeleteDevice (envOf "alice") exampleStore "dev-1"
                    DeviceList.initialState) in
  Store.sessions db' = Store.sessions exampleStore /\
  map Device.device_uuid (Store.devices db') = ["dev-2"; "dev-3"] /\
  forall d, In d (Store.devices db') <->
            In d (Store.devices exampleStore) /\ Device.device_uuid d <> "dev-1".
Proof.
  intro db'.
  destruct (C10_delete_device_frame (envOf "alice") exampleStore "dev-1"
              DeviceList.initialState) as (Hs & _ & _ & _ & Hd).
  split; [exact Hs|]. split; [reflexivity|].
  apply Hd; reflexivity.
Defined.

(** ** The admin assignment and the owner reference *)


Lemma update_user_name_In uuid user name db d' :
  In d' (Store.devices (update_user_name uuid user name db)) <->
  exists d, In d (Store.devices db) /\
    ((Device.device_uuid d <> uuid /\ d' = d) \/
     (Device.device_uuid d = uuid /\
      d' = {| Device.device_uuid := Device.device_uuid d;
              Device.user_id := user;
              Device.plane_id := Device.plane_id d;
              Device.name := name;
              Device.created_at := Device.created_at d;
              Device.updated_at := Device.updated_at d;
              Device.last_seen := Device.last_seen d |})).
Proof.
  unfold update_user_name. cbn [Store.devices]. rewrite in_map_iff.
  split; intros (d & H1 & H2).
  - exists d. destruct (String.eqb_spec (Device.device_uuid d) uuid) as [E|E].
    + split; [assumption|]. right. auto.
    + split; [assumption|]. left. auto.
  - exists d. split; [|assumption].
    destruct H2 as [[E ->]|[E ->]].
    + apply String.eqb_neq in E. rewrite E. reflexivity.
    + apply String.eqb_eq in E. rewrite E. reflexivity.
Qed.





(** ** The owner's edit form and the plane reference *)

Section OrderFacts.
Context {A : Type} (key : A -> string) (leb : string -> string -> bool).

Lemma In_insert_desc x y l : In y (insert_desc key leb x l) <-> y = x \/ In y l.
Proof.
  induction l as [|z l IH]; simpl.
  - intuition.
  - destruct (leb (key z) (key x)); simpl; rewrite ?IH; intuition.
Qed.

Lemma In_order_desc y l : In y (order_desc key leb l) <-> In y l.
Proof.
  induction l as [|z l IH]; simpl; [tauto|].
  rewrite In_insert_desc, IH. intuition.
Qed.

Lemma In_insert_asc x y l : In y (insert_asc key leb x l) <-> y = x \/ In y l.
Proof.
  induction l as [|z l IH]; simpl.
  - intuition.
  - destruct (leb (key x) (key z)); simpl; rewrite ?IH; intuition.
Qed.

Lemma In_order_asc y l : In y (order_asc key leb l) <-> In y l.
Proof.
  induction l as [|z l IH]; simpl; [tauto|].
  rewrite In_insert_asc, IH. intuition.
Qed.
End OrderFacts.

Lemma opt_eqb_eq x s : opt_eqb x s = true <-> x = Some s.
Proof.
  destruct x as [y|]; simpl.
  - rewrite String.eqb_eq. split; congruence.
  - split; discriminate.
Qed.

(** What the device list shows after loading: devices and planes of the
    signed-in user, and nothing when nobody is signed in or a query fails. *)
Lemma DeviceList_fetchData_initial env db :
  let st := DeviceList.fetchData env db DeviceList.initialState in
  (forall d, In d (DeviceList.devices st) ->
     exists user dev,
       Env.auth_user env = Some user /\ In dev (Store.devices db) /\
       Device.user_id dev = Some user /\ d = joinPlane db dev) /\
  (forall p, In p (DeviceList.planes st) ->
     exists user,
       Env.auth_user env = Some user /\ In p (Store.planes db) /\
       Plane.user_id p = user).
Proof.
  unfold DeviceList.fetchData.
  destruct (Env.auth_user env) as [user|]; [|split; intros ? []].
  unfold ask.
  destruct (Env.fault env (select_devices_of user)); cbn [Reply.error Reply.data];
    [split; intros ? []|].
  destruct (Env.fault env (select_planes_of user)); cbn [Reply.error Reply.data];
    [split; intros ? []|].
  cbn [or_nil DeviceList.setLoading DeviceList.setData DeviceList.devices
       DeviceList.planes].
  split.
  - intros d H. apply In_order_desc in H. apply in_map_iff in H.
    destruct H as (dev & <- & H). apply filter_In in H. destruct H as [H U].
    apply opt_eqb_eq in U. exists user, dev. auto.
  - intros p H. apply In_order_asc in H. apply filter_In in H.
    destruct H as [H U]. apply String.eqb_eq in U. exists user. auto.
Qed.

Lemma NoDup_map_eq {A B} (f : A -> B) (l : list A) a b :
  NoDup (map f l) -> In a l -> In b l -> f a = f b -> a = b.
Proof.
  induction l as [|x l IH]; simpl; [intros _ []|].
  intros N Ha Hb E. inversion N as [|? ? Hx N']; subst.
  destruct Ha as [<-|Ha], Hb as [<-|Hb]; auto.
  - exfalso. apply Hx. rewrite E. apply in_map. assumption.
  - exfalso. apply Hx. rewrite <- E. apply in_map. assumption.
Qed.

Lemma update_name_plane_frame uuid name plane db :
  Store.planes (update_name_plane uuid name plane db) = Store.planes db /\
  Store.sessions (update_name_plane uuid name plane db) = Store.sessions db.
Proof. split; reflexivity. Qed.

Lemma update_name_plane_In uuid name plane db d' :
  In d' (Store.devices (update_name_plane uuid name plane db)) ->
  In d' (Store.devices db) \/
  exists d, In d (Store.devices db) /\ Device.device_uuid d = uuid /\
            Device.device_uuid d' = uuid /\
            Device.user_id d' = Device.user_id d /\
            Device.plane_id d' = plane.
Proof.
  unfold update_name_plane. cbn [Store.devices]. rewrite in_map_iff.
  intros (d & <- & H).
  destruct (String.eqb_spec (Device.device_uuid d) uuid) as [E|E].
  - right. exists d. auto.
  - left. assumption.
Qed.

Lemma or_null_or_else x : or_null (or_else x "") = None \/ or_null (or_else x "") = x.
Proof.
  destruct x as [s|]; simpl; [|left; reflexivity].
  destruct (String.eqb_spec s "") as [->|E]; [left; reflexivity|].
  right. unfold or_null. apply String.eqb_neq in E. rewrite E. reflexivity.
Qed.

Lemma or_null_cases s : or_null s = None \/ or_null s = Some s.
Proof. unfold or_null. destruct (s =? "")%string; auto. Qed.

(** [handleUpdateDevice] does not look at owners: with Bob's device
    selected and the id of Alice's plane in the form, the write goes
    through without an error. *)
Lemma handleUpdateDevice_unchecked :
  let device := joinPlane exampleStore (mkDevice "dev-2" (Some "bob") None None) in
  let st := DeviceList.setFormData
              {| DeviceList.name := ""; DeviceList.plane_id := "p-alice" |}
              (DeviceList.openEditModal device
                 (DeviceList.fetchData (envOf "bob") exampleStore
                    DeviceList.initialState)) in
  let result := DeviceList.handleUpdateDevice (envOf "bob") exampleStore st in
  option_map Plane.user_id (findPlane "p-alice" exampleStore) = Some "alice" /\
  findDevice "dev-2" (fst result) = Some (mkDevice "dev-2" (Some "bob") (Some "p-alice") None) /\
  DeviceList.error (snd result) = None.
Proof. repeat split. Qed.

(** C5, as stated, fails.  The administrator hands Alice's device
    [dev-1], which is on Alice's plane, over to Bob; Bob opens the edit
    form, renames the device and submits.  The update sets the plane
    reference of Bob's device to Alice's plane: there is no error, and the
    device is changed. *)
Lemma C5_cross_owner_write_accepted :
  let db1 := step (envOf "root") (adminAssign "dev-1" (Some 1%nat) "Main tracker")
               exampleStore in
  let result := ownerEditPage (envOf "bob") "dev-1" "Renamed" None db1 in
  findDevice "dev-1" db1
  = Some (mkDevice "dev-1" (Some "bob") (Some "p-alice") (Some "Main tracker")) /\
  option_map Plane.user_id (findPlane "p-alice" db1) = Some "alice" /\
  findDevice "dev-1" (fst result)
  = Some (mkDevice "dev-1" (Some "bob") (Some "p-alice") (Some "Renamed")) /\
  ~ (DeviceList.error (snd result) <> None /\ fst result = db1).
Proof.
  intros db1 result. repeat (split; [reflexivity|]).
  intros [H _]. apply H. reflexivity.
Qed.

(** C5, amended.  The write of [handleUpdateDevice] is not checked against
    owners; what keeps a device off another owner's plane is the edit
    form.  When the signed-in user edits a listed device through the form,
    the rows that change belong to that user, and their plane reference
    becomes empty, stays the one the device had, or is a plane of that
    user; planes and sessions do not change.  When the store rejects the
    write, its message becomes the page's error and the store is
    unchanged. *)
Theorem C5_owner_edit (env : Env.t) (db : Store.t) (user uuid name : string)
  (planeOption : option nat) :
  Env.auth_user env = Some user ->
  NoDup (map Device.device_uuid (Store.devices db)) ->
  let db' := fst (ownerEditPage env uuid name planeOption db) in
  (Store.planes db' = Store.planes db /\ Store.sessions db' = Store.sessions db) /\
  (forall d', In d' (Store.devices db') ->
     In d' (Store.devices db) \/
     exists d, In d (Store.devices db) /\
       Device.device_uuid d = uuid /\ Device.device_uuid d' = uuid /\
       Device.user_id d = Some user /\ Device.user_id d' = Some user /\
       (Device.plane_id d' = None \/
        Device.plane_id d' = Device.plane_id d \/
        exists p, In p (Store.planes db) /\ Plane.user_id p = user /\
                  Device.plane_id d' = Some (Plane.id p))) /\
  (forall st selected msg,
     DeviceList.selectedDevice st = Some selected ->
     Env.fault env (update_device (Device.device_uuid (DeviceWithPlane.device selected)))
     = Some msg ->
     fst (DeviceList.handleUpdateDevice env db st) = db /\
     DeviceList.error (snd (DeviceList.handleUpdateDevice env db st)) = Some msg).
Proof.
  intros Hu Hnd db'.
  assert (Hstep :
    db' = db \/
    exists dev v,
      In dev (Store.devices db) /\ Device.user_id dev = Some user /\
      Device.device_uuid dev = uuid /\
      (v = "" \/ v = or_else (Device.plane_id dev) "" \/
       exists p, In p (Store.planes db) /\ Plane.user_id p = user /\ v = Plane.id p) /\
      db' = update_name_plane uuid (or_null name) (or_null v) db).
  { unfold db', ownerEditPage.
    pose proof (DeviceList_fetchData_initial env db) as [Hd Hp].
    set (st := DeviceList.fetchData env db DeviceList.initialState) in *.
    destruct (find _ (DeviceList.devices st)) as [device|] eqn:F; [|left; reflexivity].
    apply find_some in F. destruct F as [Hin Hid]. apply String.eqb_eq in Hid.
    destruct (Hd device Hin) as (user' & dev & Hu' & Hdev & Hown & ->).
    rewrite Hu in Hu'. injection Hu' as <-.
    cbn [joinPlane DeviceWithPlane.device] in Hid.
    unfold DeviceList.handleUpdateDevice.
    set (st3 := ownerEditForm name planeOption _).
    assert (Hsel : DeviceList.selectedDevice st3 = Some (joinPlane db dev)).
    { unfold st3, ownerEditForm, DeviceList.selectPlane.
      destruct planeOption as [i|]; [destruct (nth_error _ i)|]; reflexivity. }
    assert (Hname : DeviceList.name (DeviceList.formData st3) = name).
    { unfold st3, ownerEditForm, DeviceList.selectPlane.
      destruct planeOption as [i|]; [destruct (nth_error _ i)|]; reflexivity. }
    change (DeviceList.selectedDevice (DeviceList.setError None st3))
      with (DeviceList.selectedDevice st3).
    rewrite Hsel. cbn [joinPlane DeviceWithPlane.device]. rewrite Hid.
    destruct (Env.fault env (update_device uuid)); [left; reflexivity|].
    right. cbn [fst].
    change (DeviceList.formData (DeviceList.setError None st3))
      with (DeviceList.formData st3).
    exists dev, (DeviceList.plane_id (DeviceList.formData st3)).
    repeat (split; [assumption|]). split; [|rewrite Hname; reflexivity].
    unfold st3, ownerEditForm, DeviceList.selectPlane.
    destruct planeOption as [i|]; [|right; left; reflexivity].
    destruct (nth_error _ i) as [value|] eqn:N; [|right; left; reflexivity].
    cbn [DeviceList.formData DeviceList.setFormData DeviceList.plane_id].
    apply nth_error_In in N. unfold DeviceList.planeOptions in N.
    destruct N as [<-|N]; [left; reflexivity|].
    right. right.
    change (DeviceList.planes _) with (DeviceList.planes st) in N.
    apply in_map_iff in N. destruct N as (p & <- & N).
    destruct (Hp p N) as (user' & Hu' & Hpin & Hpu).
    rewrite Hu in Hu'. injection Hu' as <-.
    exists p. auto. }
  split; [|split].
  - destruct Hstep as [->|(dev & v & _ & _ & _ & _ & ->)]; split; reflexivity.
  - intros d' Hd'.
    destruct Hstep as [E|(dev & v & Hdev & Hown & Hid & Hv & E)];
      rewrite E in Hd'; [left; assumption|].
    apply update_name_plane_In in Hd'.
    destruct Hd' as [Hd'|(d & Hd & Hdu & Hd'u & Hd'o & Hd'p)]; [left; assumption|].
    right. exists d.
    assert (d = dev) as ->
      by (apply (NoDup_map_eq Device.device_uuid (Store.devices db)); congruence).
    repeat (split; [congruence|]).
    rewrite Hd'p.
    destruct Hv as [->|[->|(p & Hp & Hpu & ->)]].
    + left. reflexivity.
    + destruct (or_null_or_else (Device.plane_id dev)) as [->| ->]; auto.
    + destruct (or_null_cases (Plane.id p)) as [->| ->]; [auto|].
      right. right. exists p. auto.
  - intros st selected msg Hsel Hf. unfold DeviceList.handleUpdateDevice.
    change (DeviceList.selectedDevice (DeviceList.setError None st))
      with (DeviceList.selectedDevice st).
    rewrite Hsel, Hf. split; reflexivity.
Qed.

Lemma C5_owner_edit_witness :
  let db' := fst (ownerEditPage (envOf "bob") "dev-2" "Spare" (Some 1%nat)
                    exampleStore) in
  findDevice "dev-2" db' = Some (mkDevice "dev-2" (Some "bob") (Some "p-bob") (Some "Spare")) /\
  (forall d', In d' (Store.devices db') ->
     In d' (Store.devices exampleStore) \/
     exists d, In d (Store.devices exampleStore) /\
       Device.device_uuid d = "dev-2" /\ Device.device_uuid d' = "dev-2" /\
       Device.user_id d = Some "bob" /\ Device.user_id d' = Some "bob" /\
       (Device.plane_id d' = None \/
        Device.plane_id d' = Device.plane_id d \/
        exists p, In p (Store.planes exampleStore) /\ Plane.user_id p = "bob" /\
                  Device.plane_id d' = Some (Plane.id p))).
Proof.
  intro db'. split; [reflexivity|].
  apply (C5_owner_edit (envOf "bob") exampleStore "bob" "dev-2" "Spare" (Some 1%nat)).
  - reflexivity.
  - repeat constructor; simpl; intuition discriminate.
Defined.

(** ** The exported document *)

Lemma append_assoc (a b c : string) : ((a ++ b) ++ c = a ++ (b ++ c))%string.
Proof. induction a as [|x a IH]; simpl; [reflexivity|]. rewrite IH. reflexivity. Qed.

Lemma append_empty_r (a : string) : (a ++ "" = a)%string.
Proof. induction a as [|x a IH]; simpl; [reflexivity|]. rewrite IH. reflexivity. Qed.

Lemma quoteFree_append a b : quoteFree (a ++ b) = quoteFree a && quoteFree b.
Proof.
  induction a as [|x a IH]; simpl; [reflexivity|].
  rewrite IH. apply andb_assoc.
Qed.

Lemma consString_first s f fs rest :
  consString s ((f :: fs) :: rest) = ((s ++ f)%string :: fs) :: rest.
Proof.
  induction s as [|c s IH]; simpl; [reflexivity|]. rewrite IH. reflexivity.
Qed.

(** Inside a quoted field the reader copies a cell without double quote
    up to the closing quote. *)
Lemma read_quoted_cell cell rest :
  quoteFree cell = true ->
  Reader.read Reader.InQuoted (cell ++ String Reader.dq rest)
  = consString cell (Reader.read Reader.QuoteInQuoted rest).
Proof.
  induction cell as [|c cell IH]; simpl; intro H.
  - reflexivity.
  - apply andb_prop in H. destruct H as [Hc H].
    apply negb_true_iff in Hc. rewrite Hc, IH by assumption. reflexivity.
Qed.

Lemma line_one c : line [c] = SessionView.quoted c.
Proof. reflexivity. Qed.

Lemma line_more c c2 cells :
  line (c :: c2 :: cells) = (SessionView.quoted c ++ "," ++ line (c2 :: cells))%string.
Proof. reflexivity. Qed.

Lemma read_quoted c rest :
  quoteFree c = true ->
  Reader.read Reader.StartField (SessionView.quoted c ++ rest)
  = consString c (Reader.read Reader.QuoteInQuoted rest).
Proof.
  intro H. unfold SessionView.quoted, SessionView.dquote.
  cbn [append]. rewrite append_assoc. cbn [append Reader.read].
  change (Ascii.eqb (ascii_of_nat 34) Reader.dq) with true. cbv iota.
  apply read_quoted_cell. assumption.
Qed.

(** A line of quoted cells is read back as these cells. *)
Lemma read_line cells : forall tail R,
  cells <> [] ->
  forallb quoteFree cells = true ->
  Reader.read Reader.QuoteInQuoted tail = [""] :: R ->
  Reader.read Reader.StartField (line cells ++ tail) = cells :: R.
Proof.
  induction cells as [|c cells IH]; intros tail R Hne Hq Htail; [contradiction|].
  simpl in Hq. apply andb_prop in Hq. destruct Hq as [Hc Hq].
  destruct cells as [|c2 cells].
  - rewrite line_one, read_quoted by assumption.
    rewrite Htail, consString_first, append_empty_r. reflexivity.
  - rewrite line_more, !append_assoc, read_quoted by assumption.
    cbn [append Reader.read].
    change (Ascii.eqb "," Reader.dq) with false.
    change (Ascii.eqb "," Reader.comma) with true. cbv iota.
    rewrite (IH tail R) by (auto; discriminate).
    cbn [Reader.endField].
    rewrite consString_first, append_empty_r. reflexivity.
Qed.

Lemma join_one sep x : SessionView.join sep [x] = x.
Proof. reflexivity. Qed.

Lemma join_more sep x y l :
  SessionView.join sep (x :: y :: l) = (x ++ sep ++ SessionView.join sep (y :: l))%string.
Proof. reflexivity. Qed.

(** Lines of quoted cells, joined by line feeds, are read back as the
    records they were made from. *)
Lemma read_lines (records : list (list string)) :
  records <> [] ->
  Forall (fun cells => cells <> [] /\ forallb quoteFree cells = true) records ->
  Reader.read Reader.StartField (SessionView.join SessionView.newline (map line records))
  = records.
Proof.
  intros Hne H. induction H as [|cells records [Hc Hq] H IH]; [contradiction|].
  destruct records as [|r2 records].
  - cbn [map]. rewrite join_one, <- (append_empty_r (line cells)).
    apply read_line; auto.
  - assert (IH' := IH ltac:(discriminate)). clear IH.
    cbn [map] in *. rewrite join_more.
    apply read_line; auto.
    unfold SessionView.newline in *. cbn [append Reader.read].
    change (Ascii.eqb (ascii_of_nat 10) Reader.dq) with false.
    change (Ascii.eqb (ascii_of_nat 10) Reader.comma) with false.
    change (Ascii.eqb (ascii_of_nat 10) Reader.lf) with true. cbv iota.
    rewrite IH'. reflexivity.
Qed.

(** The header line, which has no quotes, is read back as the six column
    names. *)
Lemma read_header tail R :
  Reader.read Reader.InField tail = [""] :: R ->
  Reader.read Reader.StartField (SessionView.join "," SessionView.headers ++ tail)
  = SessionView.headers :: R.
Proof.
  intro H. cbn. rewrite H. reflexivity.
Qed.

Lemma csvLines_length st :
  List.length (SessionView.csvLines st)
  = S (List.length (SessionView.filteredSessions st)).
Proof.
  unfold SessionView.csvLines, SessionView.rows. simpl. rewrite !length_map. reflexivity.
Qed.

Lemma quoteFree_uint d : quoteFree (NilEmpty.string_of_uint d) = true.
Proof. induction d; simpl; auto. Qed.

Lemma quoteFree_string_of_Z z : quoteFree (string_of_Z z) = true.
Proof.
  unfold string_of_Z.
  destruct (Z.to_int z) as [d|d]; simpl;
    destruct d; simpl; auto using quoteFree_uint.
Qed.

Lemma quoteFree_formatDuration seconds : quoteFree (formatDuration seconds) = true.
Proof.
  unfold formatDuration. rewrite !quoteFree_append, !quoteFree_string_of_Z.
  reflexivity.
Qed.

Lemma quoteFree_row s :
  forallb quoteFree (textCells s) = true ->
  forallb quoteFree (SessionView.row s) = true.
Proof.
  unfold textCells, SessionView.row. cbn [firstn skipn app forallb].
  intro H. repeat (apply andb_prop in H; destruct H as [? H]).
  rewrite quoteFree_formatDuration.
  repeat (apply andb_true_intro; split); auto.
  destruct (Session.status _); reflexivity.
Qed.

(** When no text cell holds a double quote, the exported document is read
    back as the header and one record per filtered session, with the
    cells that were exported. *)
Lemma export_read_back st :
  Forall (fun s => forallb quoteFree (textCells s) = true)
    (SessionView.filteredSessions st) ->
  Reader.parse (SessionView.csvContent st) = SessionView.headers :: SessionView.rows st.
Proof.
  intro H. unfold Reader.parse, SessionView.csvContent, SessionView.csvLines.
  assert (Hrows : Forall (fun cells => cells <> [] /\ forallb quoteFree cells = true)
                    (SessionView.rows st)).
  { unfold SessionView.rows. apply Forall_map.
    eapply Forall_impl; [|exact H]. intros s Hs. split.
    - discriminate.
    - apply quoteFree_row. assumption. }
  change (Reader.read Reader.StartField
            (SessionView.join SessionView.newline
               (SessionView.join "," SessionView.headers
                :: map line (SessionView.rows st)))
          = SessionView.headers :: SessionView.rows st).
  destruct (SessionView.rows st) as [|r records] eqn:E.
  - cbn [map]. rewrite join_one, <- (append_empty_r (SessionView.join _ _)).
    apply read_header. reflexivity.
  - cbn [map]. rewrite join_more. apply read_header.
    unfold SessionView.newline. cbn [append Reader.read].
    change (Ascii.eqb (ascii_of_nat 10) Reader.comma) with false.
    change (Ascii.eqb (ascii_of_nat 10) Reader.lf) with true. cbv iota.
    change (String (ascii_of_nat 10) "") with SessionView.newline.
    change (line r :: map line records) with (map line (r :: records)).
    unfold Reader.endRecord. f_equal.
    apply read_lines; [discriminate|assumption].
Qed.

Lemma durations_rows st :
  Reader.durations (SessionView.headers :: SessionView.rows st)
  = map (fun s => formatDuration (Session.run_seconds (SessionWithDevice.session s)))
      (SessionView.filteredSessions st).
Proof.
  unfold Reader.durations, SessionView.rows. cbn [tl].
  rewrite map_map. reflexivity.
Qed.

(** C6.  The export does not escape the cells it puts between double
    quotes.  For the session of a device named [Tracker "A", spare] the
    document has a header line and one line for the one filtered session,
    but it reads back as a record of seven fields whose duration column
    holds the tail number instead of the exported duration "1h 0m". *)
Theorem C6_export_with_quote_in_name :
  SessionView.filteredSessions quotedNameView
  = [ {| SessionWithDevice.session := mkSession "dev-1" closed 3600;
         SessionWithDevice.device :=
           Some (joinPlane quotedNameStore
                   (mkDevice "dev-1" (Some "alice") (Some "p-alice")
                      (Some quotedName))) |} ] /\
  List.length (SessionView.csvLines quotedNameView) = 2%nat /\
  map (fun s => formatDuration (Session.run_seconds (SessionWithDevice.session s)))
    (SessionView.filteredSessions quotedNameView) = ["1h 0m"] /\
  map (@List.length string) (Reader.parse (SessionView.csvContent quotedNameView))
  = [6%nat; 7%nat] /\
  Reader.durations (Reader.parse (SessionView.csvContent quotedNameView)) = ["N100AA"].
Proof. repeat split. Qed.

(** C7, as stated, fails: the header line is written without double
    quotes. *)
Lemma C7_header_not_quoted :
  hd "" (SessionView.csvLines exampleView) <> line SessionView.headers /\
  hd "" (SessionView.csvLines exampleView)
  = "Session Start,Device,Plane,Duration,Status,Last Update".
Proof. split; [discriminate|reflexivity]. Qed.

(** C7, amended.  The exported document is a sequence of lines separated
    by line feeds.  The first line is the header
    [Session Start,Device,Plane,Duration,Status,Last Update]: the six
    column names separated by commas, without double quotes.  Every other
    line holds the six cells of one filtered session, each between double
    quotes, separated by commas.  When no text cell holds a double quote,
    a reader of comma-separated documents gets the column names and the
    exported cells back. *)
Theorem C7_export_format (st : SessionView.State) :
  SessionView.csvContent st
  = SessionView.join SessionView.newline
      ("Session Start,Device,Plane,Duration,Status,Last Update"
       :: map (fun s => line (SessionView.row s)) (SessionView.filteredSessions st)) /\
  (forall s, exists start device plane duration status update,
     line (SessionView.row s)
     = (SessionView.quoted start ++ "," ++ SessionView.quoted device ++ ","
        ++ SessionView.quoted plane ++ "," ++ SessionView.quoted duration ++ ","
        ++ SessionView.quoted status ++ "," ++ SessionView.quoted update)%string) /\
  (Forall (fun s => forallb quoteFree (textCells s) = true)
     (SessionView.filteredSessions st) ->
   Reader.parse (SessionView.csvContent st)
   = SessionView.headers :: map SessionView.row (SessionView.filteredSessions st)).
Proof.
  split; [|split].
  - unfold SessionView.csvContent, SessionView.csvLines, SessionView.rows.
    rewrite map_map. reflexivity.
  - intro s. unfold SessionView.row. do 6 eexists. reflexivity.
  - apply export_read_back.
Qed.

Lemma C7_export_format_witness :
  Reader.parse (SessionView.csvContent exampleView)
  = SessionView.headers
    :: map SessionView.row (SessionView.filteredSessions exampleView).
Proof.
  apply (C7_export_format exampleView).
  repeat constructor.
Defined.

(** When no text cell holds a double quote, the document has one record
    per filtered session after the header, and its duration column holds
    the durations that were exported. *)
Lemma export_durations_read_back st :
  Forall (fun s => forallb quoteFree (textCells s) = true)
    (SessionView.filteredSessions st) ->
  List.length (Reader.parse (SessionView.csvContent st))
  = S (List.length (SessionView.filteredSessions st)) /\
  Reader.durations (Reader.parse (SessionView.csvContent st))
  = map (fun s => formatDuration (Session.run_seconds (SessionWithDevice.session s)))
      (SessionView.filteredSessions st).
Proof.
  intro H. rewrite export_read_back by assumption. split.
  - unfold SessionView.rows. simpl. rewrite length_map. reflexivity.
  - apply durations_rows.
Qed.

(** ** Binary64 division of whole numbers ([SpecFloat]) *)

Lemma digits2_pos_bounds p :
  2 ^ (Z.pos (digits2_pos p) - 1) <= Z.pos p < 2 ^ Z.pos (digits2_pos p).
Proof.
  induction p as [p IH|p IH|]; cbn [digits2_pos].
  - rewrite Pos2Z.inj_succ, Z.pow_succ_r by lia.
    replace (Z.succ (Z.pos (digits2_pos p)) - 1) with (Z.succ (Z.pos (digits2_pos p) - 1)) by lia.
    rewrite Z.pow_succ_r by lia. lia.
  - rewrite Pos2Z.inj_succ, Z.pow_succ_r by lia.
    replace (Z.succ (Z.pos (digits2_pos p)) - 1) with (Z.succ (Z.pos (digits2_pos p) - 1)) by lia.
    rewrite Z.pow_succ_r by lia. lia.
  - simpl. lia.
Qed.

Lemma Zdigits2_unique z n :
  0 < n -> 2 ^ (n - 1) <= z < 2 ^ n -> Zdigits2 z = n.
Proof.
  intros Hn Hz.
  assert (0 < z) by (pose proof (Z.pow_pos_nonneg 2 (n - 1)); lia).
  destruct z as [|p|p]; try lia.
  cbn [Zdigits2].
  pose proof (digits2_pos_bounds p) as Hp.
  set (d := Z.pos (digits2_pos p)) in *.
  destruct (Z.lt_trichotomy d n) as [L|[E|G]]; [|assumption|].
  - exfalso. assert (2 ^ d <= 2 ^ (n - 1)) by (apply Z.pow_le_mono_r; lia). lia.
  - exfalso. assert (2 ^ n <= 2 ^ (d - 1)) by (apply Z.pow_le_mono_r; lia). lia.
Qed.

Lemma new_location_spec Y r :
  0 < Y -> 0 <= r < Y ->
  new_location Y r = if r =? 0 then loc_Exact else loc_Inexact (2 * r ?= Y).
Proof.
  intros HY Hr. unfold new_location, new_location_even, new_location_odd.
  destruct (Z.even Y) eqn:Ev; destruct (Z.eqb_spec r 0); try reflexivity.
  f_equal.
  assert (Z.odd Y = true) as Od by (rewrite <- Z.negb_even, Ev; reflexivity).
  apply Z.odd_spec in Od. destruct Od as [k Hk].
  destruct (Z.compare_spec (2 * r + 1) Y); destruct (Z.compare_spec (2 * r) Y);
    try reflexivity; lia.
Qed.

Lemma loc_of_shr_record_of_loc m l :
  loc_of_shr_record (shr_record_of_loc m l) = l /\
  shr_m (shr_record_of_loc m l) = m.
Proof. destruct l as [|[| |]]; split; reflexivity. Qed.

Lemma round_nearest_even_range m l :
  m <= round_nearest_even m l <= m + 1.
Proof.
  destruct l as [|[| |]]; simpl; try lia. destruct (Z.even m); lia.
Qed.

Lemma shr_fexp_53 m e l :
  2 ^ 52 <= m < 2 ^ 53 -> -1074 <= e ->
  shr_fexp 53 1024 m e l = (shr_record_of_loc m l, e).
Proof.
  intros Hm He. unfold shr_fexp.
  rewrite (Zdigits2_unique m 53) by lia.
  unfold fexp, SpecFloat.emin.
  replace (Z.max (53 + e - 53) (3 - 1024 - 53) - e) with 0 by lia.
  reflexivity.
Qed.

Lemma shr_fexp_54 m e l :
  2 ^ 53 <= m < 2 ^ 54 -> -1075 <= e ->
  shr_fexp 53 1024 m e l = (shr_1 (shr_record_of_loc m l), e + 1).
Proof.
  intros Hm He. unfold shr_fexp.
  rewrite (Zdigits2_unique m 54) by lia.
  unfold fexp, SpecFloat.emin.
  replace (Z.max (54 + e - 53) (3 - 1024 - 53) - e) with 1 by lia.
  reflexivity.
Qed.

Lemma binary_round_aux_finish sx m e :
  2 ^ 52 <= m <= 2 ^ 53 -> -1074 <= e <= 970 ->
  (let '(mrs, e') := shr_fexp 53 1024 m e loc_Exact in
   match shr_m mrs with
   | Z0 => S754_zero sx
   | Zpos p => if e' <=? 1024 - 53 then S754_finite sx p e' else S754_infinity sx
   | Zneg _ => S754_nan
   end) = finish sx m e.
Proof.
  intros Hm He. unfold finish.
  destruct (Z.ltb_spec m (2 ^ 53)) as [L|L].
  - rewrite shr_fexp_53 by lia. cbn [shr_record_of_loc shr_m].
    destruct m as [|p|p]; try lia.
    destruct (Z.leb_spec e (1024 - 53)); [reflexivity|lia].
  - assert (m = 2 ^ 53) as -> by lia.
    rewrite shr_fexp_54 by lia.
    destruct (Z.leb_spec (e + 1) (1024 - 53)); [reflexivity|lia].
Qed.

Lemma binary_round_aux_53 sx q e l :
  2 ^ 52 <= q < 2 ^ 53 -> -1074 <= e <= 970 ->
  binary_round_aux 53 1024 sx q e l = finish sx (round_nearest_even q l) e.
Proof.
  intros Hq He. unfold binary_round_aux.
  rewrite shr_fexp_53 by lia.
  destruct (loc_of_shr_record_of_loc q l) as [-> ->].
  apply binary_round_aux_finish; [|lia].
  pose proof (round_nearest_even_range q l). lia.
Qed.

Lemma shr_1_m mrs : 0 <= shr_m mrs -> shr_m (shr_1 mrs) = shr_m mrs / 2.
Proof.
  destruct mrs as [m r s]. cbn [shr_m]. intro H.
  destruct m as [|[p|p|]|p]; try lia; cbn [shr_1 shr_m].
  - reflexivity.
  - rewrite Pos2Z.inj_xI. apply Z.div_unique with 1; lia.
  - rewrite Pos2Z.inj_xO. apply Z.div_unique with 0; lia.
  - reflexivity.
Qed.

Lemma binary_round_aux_54 sx q e l :
  2 ^ 53 <= q < 2 ^ 54 -> -1075 <= e <= 969 ->
  binary_round_aux 53 1024 sx q e l
  = finish sx (round_nearest_even (shr_m (shr_1 (shr_record_of_loc q l)))
                 (loc_of_shr_record (shr_1 (shr_record_of_loc q l)))) (e + 1).
Proof.
  intros Hq He. unfold binary_round_aux.
  rewrite shr_fexp_54 by lia.
  apply binary_round_aux_finish; [|lia].
  pose proof (round_nearest_even_range (shr_m (shr_1 (shr_record_of_loc q l)))
                (loc_of_shr_record (shr_1 (shr_record_of_loc q l)))) as R.
  rewrite shr_1_m in * by (destruct (loc_of_shr_record_of_loc q l) as [_ ->]; lia).
  destruct (loc_of_shr_record_of_loc q l) as [_ E]. rewrite E in *.
  assert (2 ^ 52 <= q / 2 < 2 ^ 53).
  { split; [apply Z.div_le_lower_bound|apply Z.div_lt_upper_bound]; lia. }
  lia.
Qed.

Lemma round_53_accurate X Y q r :
  0 < Y -> X = q * Y + r -> 0 <= r < Y ->
  2 * Z.abs (round_nearest_even q (new_location Y r) * Y - X) <= Y.
Proof.
  intros HY HX Hr. rewrite new_location_spec by assumption.
  destruct (Z.eqb_spec r 0) as [E|E]; cbn [round_nearest_even]; [lia|].
  destruct (Z.compare_spec (2 * r) Y); [destruct (Z.even q)| |]; lia.
Qed.

Lemma round_54_accurate X Y q r :
  0 < Y -> 0 <= q -> X = q * Y + r -> 0 <= r < Y ->
  let mrs := shr_1 (shr_record_of_loc q (new_location Y r)) in
  Z.abs (2 * round_nearest_even (shr_m mrs) (loc_of_shr_record mrs) * Y - X) <= Y.
Proof.
  intros HY Hq HX Hr. rewrite new_location_spec by assumption.
  destruct (Z.eqb_spec r 0) as [E|E]; [|destruct (Z.compare_spec (2 * r) Y)];
    destruct q as [|[p|p|]|p]; try lia;
    cbn [shr_1 shr_record_of_loc shr_m loc_of_shr_record round_nearest_even orb];
    try rewrite Pos2Z.inj_xI in *; try rewrite Pos2Z.inj_xO in *;
    try (destruct (Z.even (Z.pos p))); try (destruct (Z.even 0)); lia.
Qed.

Lemma finish_spec sx m e :
  2 ^ 52 <= m <= 2 ^ 53 ->
  exists m' e',
    finish sx m e = S754_finite sx m' e' /\
    2 ^ 52 <= Z.pos m' < 2 ^ 53 /\
    ((e' = e /\ Z.pos m' = m) \/ (e' = e + 1 /\ 2 * Z.pos m' = m)).
Proof.
  intro Hm. unfold finish. destruct (Z.ltb_spec m (2 ^ 53)) as [L|L].
  - exists (Z.to_pos m), e. rewrite Z2Pos.id by lia. split; [reflexivity|].
    split; [lia|]. left. split; reflexivity.
  - exists (Z.to_pos (2 ^ 52)), (e + 1). split; [reflexivity|].
    split; [simpl; lia|]. right. split; [reflexivity|]. simpl. lia.
Qed.

(** Division of two normal binary64 numbers: the quotient of the
    mantissas at 53 more bits, rounded to nearest. *)
Lemma SFdiv_normal sx sy (mx my : positive) ex ey :
  2 ^ 52 <= Z.pos mx < 2 ^ 53 ->
  2 ^ 52 <= Z.pos my < 2 ^ 53 ->
  -1074 <= ex - ey - 53 <= 968 ->
  exists m e j,
    SFdiv 53 1024 (S754_finite sx mx ex) (S754_finite sy my ey)
    = S754_finite (xorb sx sy) m e /\
    2 ^ 52 <= Z.pos m < 2 ^ 53 /\
    0 <= j <= 1 /\ e = ex - ey - 53 + j /\
    2 * Z.abs (Z.pos m * 2 ^ j * Z.pos my - Z.pos mx * 2 ^ 53) <= 2 ^ j * Z.pos my.
Proof.
  intros Hx Hy He.
  unfold SFdiv, SFdiv_core_binary.
  rewrite (Zdigits2_unique (Z.pos mx) 53), (Zdigits2_unique (Z.pos my) 53) by lia.
  replace (Z.min (fexp 53 1024 (53 + ex - (53 + ey))) (ex - ey)) with (ex - ey - 53)
    by (unfold fexp, SpecFloat.emin; lia).
  replace (ex - ey - (ex - ey - 53)) with 53 by lia.
  cbv iota. rewrite Z.shiftl_mul_pow2 by lia.
  change IntDef.Z.div_eucl with Z.div_eucl.
  pose proof (Z_div_mod (Z.pos mx * 2 ^ 53) (Z.pos my) ltac:(lia)) as D.
  destruct (Z.div_eucl (Z.pos mx * 2 ^ 53) (Z.pos my)) as [q r].
  destruct D as [D Hr].
  assert (Hq : 2 ^ 52 <= q < 2 ^ 54).
  { split.
    - assert (2 ^ 52 * Z.pos my < (q + 1) * Z.pos my); [|nia].
      change (2 ^ 53) with (2 * 2 ^ 52) in *. nia.
    - assert (q * Z.pos my < 2 ^ 54 * Z.pos my); [|nia].
      change (2 ^ 54) with (2 ^ 53 * 2) in *. change (2 ^ 53) with (2 ^ 52 * 2) in *. nia. }
  destruct (Z.ltb_spec q (2 ^ 53)) as [L|L].
  - rewrite binary_round_aux_53 by lia.
    pose proof (round_nearest_even_range q (new_location (Z.pos my) r)) as R.
    pose proof (round_53_accurate (Z.pos mx * 2 ^ 53) (Z.pos my) q r ltac:(lia)
                  ltac:(lia) Hr) as A.
    destruct (finish_spec (xorb sx sy)
                (round_nearest_even q (new_location (Z.pos my) r)) (ex - ey - 53)
                ltac:(lia)) as (m' & e' & -> & Hm' & [[-> E]|[-> E]]).
    + exists m', (ex - ey - 53), 0. split; [reflexivity|]. split; [assumption|].
      split; [lia|]. split; [lia|]. rewrite E. change (2 ^ 0) with 1. lia.
    + exists m', (ex - ey - 53 + 1), 1. split; [reflexivity|]. split; [assumption|].
      split; [lia|]. split; [lia|]. change (2 ^ 1) with 2.
      replace (Z.pos m' * 2) with (round_nearest_even q (new_location (Z.pos my) r)) by lia.
      lia.
  - rewrite binary_round_aux_54 by lia.
    pose proof (round_54_accurate (Z.pos mx * 2 ^ 53) (Z.pos my) q r ltac:(lia)
                  ltac:(lia) ltac:(lia) Hr) as A. cbv zeta in A.
    set (mrs := shr_1 (shr_record_of_loc q (new_location (Z.pos my) r))) in *.
    pose proof (round_nearest_even_range (shr_m mrs) (loc_of_shr_record mrs)) as R.
    assert (Hh : 2 ^ 52 <= shr_m mrs < 2 ^ 53).
    { unfold mrs. rewrite shr_1_m;
        destruct (loc_of_shr_record_of_loc q (new_location (Z.pos my) r)) as [_ ->];
        [|lia].
      split; [apply Z.div_le_lower_bound|apply Z.div_lt_upper_bound]; lia. }
    destruct (finish_spec (xorb sx sy)
                (round_nearest_even (shr_m mrs) (loc_of_shr_record mrs))
                (ex - ey - 53 + 1) ltac:(lia)) as (m' & e' & -> & Hm' & [[-> E]|[-> E]]).
    + exists m', (ex - ey - 53 + 1), 1. split; [reflexivity|]. split; [assumption|].
      split; [lia|]. split; [lia|]. rewrite E. change (2 ^ 1) with 2. lia.
    + exfalso.
      assert (2 ^ 53 <= round_nearest_even (shr_m mrs) (loc_of_shr_record mrs)) as B
        by lia.
      assert (2 ^ 54 * Z.pos my
              <= 2 * round_nearest_even (shr_m mrs) (loc_of_shr_record mrs) * Z.pos my)
        by (change (2 ^ 54) with (2 * 2 ^ 53); nia).
      assert (Z.pos mx * 2 ^ 53 <= (2 ^ 53 - 1) * 2 ^ 53) by nia.
      assert (2 ^ 54 * 2 ^ 52 <= 2 ^ 54 * Z.pos my) by nia.
      lia.
Qed.

Lemma Pos_iter_xO p k : Z.pos (Pos.iter xO p k) = Z.pos p * 2 ^ Z.pos k.
Proof.
  rewrite <- Z.shiftl_mul_pow2 by lia. cbn [Z.shiftl].
  apply (Pos.iter_swap_gen _ _ Z.pos xO (Z.mul 2)). reflexivity.
Qed.

(** A positive integer below 2^53 is a binary64 number: its mantissa is
    the integer shifted to 53 bits. *)
Lemma binary64_of_Z_normal s :
  0 < s < 2 ^ 53 ->
  exists m t,
    binary64_of_Z s = S754_finite false m (- t) /\
    0 <= t <= 52 /\ Z.pos m = s * 2 ^ t /\ 2 ^ 52 <= Z.pos m < 2 ^ 53.
Proof.
  intro Hs. destruct s as [|p|p]; try lia.
  unfold binary64_of_Z, binary_normalize, binary_round, shl_align.
  pose proof (digits2_pos_bounds p) as Hd.
  set (d := Z.pos (digits2_pos p)) in *.
  assert (1 <= d <= 53).
  { split; [unfold d; lia|].
    destruct (Z.le_gt_cases d 53) as [L|G]; [assumption|exfalso].
    assert (2 ^ 53 <= 2 ^ (d - 1)) by (apply Z.pow_le_mono_r; lia). lia. }
  replace (fexp 53 1024 (d + 0)) with (d - 53)
    by (unfold fexp, SpecFloat.emin; lia).
  destruct (d - 53 - 0) as [|k|k] eqn:K; try lia.
  - assert (d = 53) as D by lia. rewrite D in Hd.
    rewrite binary_round_aux_53 by (simpl in *; lia).
    exists p, 0. cbn [round_nearest_even]. unfold finish.
    destruct (Z.ltb_spec (Z.pos p) (2 ^ 53)); [|simpl in *; lia].
    split; [reflexivity|]. simpl in *. lia.
  - assert (Hm : 2 ^ 52 <= Z.pos (Pos.iter xO p k) < 2 ^ 53).
    { rewrite Pos_iter_xO.
      assert (d - 1 + Z.pos k = 52) as E1 by lia.
      assert (d + Z.pos k = 53) as E2 by lia.
      rewrite <- E1 at 1. rewrite <- E2. rewrite !Z.pow_add_r by lia.
      pose proof (Z.pow_pos_nonneg 2 (Z.pos k) ltac:(lia) ltac:(lia)). nia. }
    rewrite binary_round_aux_53 by lia.
    exists (Pos.iter xO p k), (Z.pos k). cbn [round_nearest_even]. unfold finish.
    destruct (Z.ltb_spec (Z.pos (Pos.iter xO p k)) (2 ^ 53)); [|lia].
    rewrite Pos2Z.id. replace (d - 53) with (- Z.pos k) by lia.
    split; [reflexivity|]. split; [lia|]. split; [apply Pos_iter_xO|assumption].
Qed.

Lemma binary64_of_3600 :
  binary64_of_Z 3600 = S754_finite false (Z.to_pos (3600 * 2 ^ 41)) (-41).
Proof. reflexivity. Qed.

(** [seconds / 3600] for a positive whole number of seconds below 2^53:
    a binary64 number [m * 2^-k] within half a unit in the last place of
    the exact quotient. *)
Lemma hours_quotient s :
  0 < s < 2 ^ 53 ->
  exists m k,
    binary64_div (binary64_of_Z s) (binary64_of_Z 3600) = S754_finite false m (- k) /\
    11 <= k /\ Z.pos m < 2 ^ 53 /\
    Z.abs (3600 * Z.pos m - s * 2 ^ k) <= 1800.
Proof.
  intro Hs.
  destruct (binary64_of_Z_normal s Hs) as (mx & t & -> & Ht & Hmx & Bx).
  rewrite binary64_of_3600. unfold binary64_div.
  destruct (SFdiv_normal false false mx (Z.to_pos (3600 * 2 ^ 41)) (- t) (-41)
              Bx ltac:(simpl; lia) ltac:(lia))
    as (m & e & j & -> & Bm & Hj & -> & A).
  exists m, (t + 12 - j). split; [f_equal; lia|]. split; [lia|]. split; [lia|].
  rewrite Z2Pos.id in A by (simpl; lia). rewrite Hmx in A.
  assert (j = 0 \/ j = 1) as [-> | ->] by lia.
  - replace (t + 12 - 0) with (t + 12) by lia. rewrite Z.pow_add_r by lia.
    change (2 ^ 0) with 1 in A. change (2 ^ 12) with 4096.
    change (2 ^ 41) with 2199023255552 in A.
    change (2 ^ 53) with 9007199254740992 in A.
    set (u := s * 2 ^ t) in *. lia.
  - replace (t + 12 - 1) with (t + 11) by lia. rewrite Z.pow_add_r by lia.
    change (2 ^ 1) with 2 in A. change (2 ^ 11) with 2048.
    change (2 ^ 41) with 2199023255552 in A.
    change (2 ^ 53) with 9007199254740992 in A.
    set (u := s * 2 ^ t) in *. lia.
Qed.

(** ** [toFixed] *)

Lemma nearest_scaled_spec f m k :
  1 <= k ->
  let n := nearest_scaled f m (- k) in
  0 <= n /\
  2 * n * 2 ^ k - 2 ^ k <= 2 * Z.pos m * 10 ^ Z.of_nat f < 2 * n * 2 ^ k + 2 ^ k.
Proof.
  intros Hk n. unfold n, nearest_scaled.
  destruct (Z.leb_spec 0 (- k)); [lia|].
  rewrite Z.opp_involutive.
  pose proof (Z.pow_pos_nonneg 2 k ltac:(lia) ltac:(lia)) as P2.
  pose proof (Z.pow_pos_nonneg 10 (Z.of_nat f) ltac:(lia) ltac:(lia)) as P10.
  set (T := 2 ^ k) in *. set (D := 10 ^ Z.of_nat f) in *.
  pose proof (Z.div_mod (2 * Z.pos m * D + T) (2 * T) ltac:(lia)) as E.
  pose proof (Z.mod_pos_bound (2 * Z.pos m * D + T) (2 * T) ltac:(lia)) as B.
  split.
  - apply Z.div_pos; nia.
  - nia.
Qed.

Lemma toFixed_small f m k :
  1 <= k -> Z.pos m < 2 ^ 53 ->
  toFixed f (S754_finite false m (- k))
  = Some (fixed_digits f (nearest_scaled f m (- k))).
Proof.
  intros Hk Hm. unfold toFixed, is_ge_1e21.
  destruct (Z.leb_spec 0 (- k)); [lia|].
  rewrite Z.opp_involutive.
  pose proof (Z.pow_pos_nonneg 2 k ltac:(lia) ltac:(lia)) as P2.
  destruct (Z.leb_spec (10 ^ 21 * 2 ^ k) (Z.pos m)) as [L|L]; [|reflexivity].
  exfalso. change (10 ^ 21) with 1000000000000000000000 in L.
  change (2 ^ 53) with 9007199254740992 in Hm. nia.
Qed.

Lemma length_append a b : String.length (a ++ b) = (String.length a + String.length b)%nat.
Proof. induction a as [|c a IH]; simpl; [reflexivity|]. rewrite IH. reflexivity. Qed.

Lemma length_zeros k : String.length (zeros k) = k.
Proof. induction k as [|k IH]; simpl; [reflexivity|]. rewrite IH. reflexivity. Qed.

Lemma length_substring s : forall n m,
  (n + m <= String.length s)%nat -> String.length (substring n m s) = m.
Proof.
  induction s as [|c s IH]; intros n m H; simpl in H.
  - assert (n = 0 /\ m = 0)%nat as [-> ->] by lia. reflexivity.
  - destruct n as [|n]; simpl.
    + destruct m as [|m]; simpl; [reflexivity|]. rewrite IH by lia. reflexivity.
    + apply IH. lia.
Qed.

(** With [f > 0] the result of [toFixed] has a point followed by exactly
    [f] characters. *)
Lemma fixed_digits_shape f n :
  (0 < f)%nat ->
  exists a b, fixed_digits f n = (a ++ "." ++ b)%string /\ String.length b = f.
Proof.
  intro Hf. unfold fixed_digits. destruct f as [|f]; [lia|].
  set (m := string_of_Z n).
  set (m' := if (String.length m <=? S f)%nat then _ else m).
  assert (S f + 1 <= String.length m')%nat.
  { unfold m'. destruct (Nat.leb_spec (String.length m) (S f)).
    - rewrite length_append, length_zeros. lia.
    - lia. }
  eexists _, _. split; [reflexivity|].
  apply length_substring. lia.
Qed.

Lemma nearest_hundredth T n s m :
  2048 <= T ->
  2 * n * T - T <= 2 * m * 100 < 2 * n * T + T ->
  Z.abs (3600 * m - s * T) <= 1800 ->
  Z.abs (36 * n - s) <= 18.
Proof.
  intros HT Hn Hm.
  assert (Z.abs (2 * T * (36 * n - s)) <= 36 * T + 3600) as K by nia.
  destruct (Z.le_gt_cases (Z.abs (36 * n - s)) 18) as [L|G]; [assumption|exfalso].
  assert (19 <= Z.abs (36 * n - s)) by lia.
  rewrite Z.abs_mul in K. rewrite (Z.abs_eq (2 * T)) in K by lia. nia.
Qed.

Lemma nearest_tenth T n s m :
  2048 <= T ->
  2 * n * T - T <= 2 * m * 10 < 2 * n * T + T ->
  Z.abs (3600 * m - s * T) <= 1800 ->
  Z.abs (360 * n - s) <= 180.
Proof.
  intros HT Hn Hm.
  assert (Z.abs (2 * T * (360 * n - s)) <= 360 * T + 3600) as K by nia.
  destruct (Z.le_gt_cases (Z.abs (360 * n - s)) 180) as [L|G]; [assumption|exfalso].
  assert (181 <= Z.abs (360 * n - s)) by lia.
  rewrite Z.abs_mul in K. rewrite (Z.abs_eq (2 * T)) in K by lia. nia.
Qed.

(** [seconds / 3600] rendered by [toFixed(2)] and by [toFixed(1)]. *)
Lemma hours_toFixed s :
  0 <= s < 2 ^ 53 ->
  let hours := binary64_div (binary64_of_Z s) (binary64_of_Z 3600) in
  (exists n, toFixed 2 hours = Some (fixed_digits 2 n) /\
             0 <= n /\ Z.abs (36 * n - s) <= 18) /\
  (exists n, toFixed 1 hours = Some (fixed_digits 1 n) /\
             0 <= n /\ Z.abs (360 * n - s) <= 180).
Proof.
  intros Hs hours.
  destruct (Z.eq_dec s 0) as [->|Hz].
  - split; exists 0; repeat split; simpl; lia.
  - destruct (hours_quotient s ltac:(lia)) as (m & k & E & Hk & Hm & A).
    unfold hours. rewrite E, !toFixed_small by lia.
    assert (2048 <= 2 ^ k).
    { change 2048 with (2 ^ 11). apply Z.pow_le_mono_r; lia. }
    split.
    + destruct (nearest_scaled_spec 2 m k ltac:(lia)) as [N0 N].
      exists (nearest_scaled 2 m (- k)). split; [reflexivity|]. split; [assumption|].
      apply (nearest_hundredth (2 ^ k) _ s (Z.pos m)); assumption.
    + destruct (nearest_scaled_spec 1 m k ltac:(lia)) as [N0 N].
      exists (nearest_scaled 1 m (- k)). split; [reflexivity|]. split; [assumption|].
      apply (nearest_tenth (2 ^ k) _ s (Z.pos m)); assumption.
Qed.

Example fixed_digits_examples :
  fixed_digits 2 125 = "1.25" /\ fixed_digits 2 5 = "0.05" /\
  fixed_digits 2 0 = "0.00" /\ fixed_digits 1 13 = "1.3" /\
  fixed_digits 2 10000000 = "100000.00" /\ fixed_digits 0 7 = "7".
Proof. repeat split. Qed.

Example formatHobbs_examples :
  map formatHobbs [0; 18; 54; 3600; 4500; 5400; 12600]
  = [Some "0.00"; Some "0.01"; Some "0.01"; Some "1.00"; Some "1.25";
     Some "1.50"; Some "3.50"].
Proof. vm_compute. reflexivity. Qed.

(** C8, as stated, fails for the total of the session page: 4500 seconds
    are shown as "1.3" flight hours, one decimal place, where the Hobbs
    format of the plane page gives "1.25". *)
Lemma C8_total_hours_one_decimal :
  SessionView.totalSeconds bobView = 4500 /\
  formatHobbs 4500 = Some "1.25" /\
  SessionView.totalFlightHoursCard bobView = Some "1.3" /\
  SessionView.totalFlightHoursCard bobView
  <> formatHobbs (SessionView.totalSeconds bobView).
Proof.
  split; [reflexivity|]. split; [vm_compute; reflexivity|].
  split; [vm_compute; reflexivity|].
  vm_compute. discriminate.
Qed.

(** C8, amended.  For a duration of a whole number of seconds below 2^53,
    [formatHobbs] renders the binary64 quotient [seconds / 3600] with two
    decimal places: the result is [n / 100] written with a point and two
    digits after it, where [n / 100] is a hundredth nearest to
    [seconds / 3600].  The total flight hours of the session page are the
    same quotient rendered with one decimal place: [n / 10] written with a
    point and one digit after it, a tenth nearest to the total seconds
    divided by 3600. *)
Theorem C8_decimal_hours :
  (forall seconds, 0 <= seconds < 2 ^ 53 ->
     exists n a b,
       formatHobbs seconds = Some (a ++ "." ++ b)%string /\
       (a ++ "." ++ b)%string = fixed_digits 2 n /\ String.length b = 2%nat /\
       0 <= n /\ Z.abs (36 * n - seconds) <= 18) /\
  (forall st, 0 <= SessionView.totalSeconds st < 2 ^ 53 ->
     exists n a b,
       SessionView.totalFlightHoursCard st = Some (a ++ "." ++ b)%string /\
       (a ++ "." ++ b)%string = fixed_digits 1 n /\ String.length b = 1%nat /\
       0 <= n /\ Z.abs (360 * n - SessionView.totalSeconds st) <= 180).
Proof.
  split.
  - intros seconds H.
    destruct (hours_toFixed seconds H) as [(n & E & N0 & N) _].
    destruct (fixed_digits_shape 2 n ltac:(lia)) as (a & b & Eab & Hb).
    exists n, a, b. unfold formatHobbs. rewrite E, Eab. auto.
  - intros st H.
    destruct (hours_toFixed (SessionView.totalSeconds st) H) as [_ (n & E & N0 & N)].
    destruct (fixed_digits_shape 1 n ltac:(lia)) as (a & b & Eab & Hb).
    exists n, a, b.
    unfold SessionView.totalFlightHoursCard, SessionView.totalHours.
    rewrite E, Eab. auto.
Qed.

Lemma C8_decimal_hours_witness :
  (exists n a b,
     formatHobbs 5400 = Some (a ++ "." ++ b)%string /\
     (a ++ "." ++ b)%string = fixed_digits 2 n /\ String.length b = 2%nat /\
     0 <= n /\ Z.abs (36 * n - 5400) <= 18) /\
  (exists n a b,
     SessionView.totalFlightHoursCard bobView = Some (a ++ "." ++ b)%string /\
     (a ++ "." ++ b)%string = fixed_digits 1 n /\ String.length b = 1%nat /\
     0 <= n /\ Z.abs (360 * n - SessionView.totalSeconds bobView) <= 180).
Proof.
  split.
  - apply (proj1 C8_decimal_hours 5400). simpl. lia.
  - apply (proj2 C8_decimal_hours bobView).
    change (SessionView.totalSeconds bobView) with 4500. simpl. lia.
Defined.

(** * Further properties *)

(** ** The statistics do not depend on the order of the sessions *)








(** ** The average lies between the extrema *)




(** X3.  When at least one session is closed, the longest and the
    shortest flight are the durations of closed sessions of the
    collection, and every closed session lies between them; open sessions
    play no part. *)
Theorem computeStats_extrema_attained (l : list Session.t) :
  0 < countOf is_closed l ->
  (exists s, In s l /\ Session.status s = closed /\
             Session.run_seconds s = longestFlight (computeStats l)) /\
  (exists s, In s l /\ Session.status s = closed /\
             Session.run_seconds s = shortestFlight (computeStats l)) /\
  (forall s, In s l -> Session.status s = closed ->
             shortestFlight (computeStats l) <= Session.run_seconds s
             <= longestFlight (computeStats l)).
Proof. exact (computeStats_extrema l). Qed.

Lemma computeStats_extrema_attained_witness :
  let l := [mkSession "d" closed 3600; mkSession "d" closed 7200;
            mkSession "d" open 1800] in
  (exists s, In s l /\ Session.status s = closed /\
             Session.run_seconds s = longestFlight (computeStats l)) /\
  (exists s, In s l /\ Session.status s = closed /\
             Session.run_seconds s = shortestFlight (computeStats l)) /\
  (forall s, In s l -> Session.status s = closed ->
             shortestFlight (computeStats l) <= Session.run_seconds s
             <= longestFlight (computeStats l)).
Proof.
  intro l. apply (computeStats_extrema_attained l). reflexivity.
Defined.

(** ** Sums by device *)










Lemma NoDup_map_filter {A B} (f : A -> B) (p : A -> bool) l :
  NoDup (map f l) -> NoDup (map f (filter p l)).
Proof.
  induction l as [|x l IH]; simpl; intro N; [constructor|].
  inversion N as [|? ? Hx N']; subst.
  destruct (p x); simpl; [|auto].
  constructor; [|auto].
  intro H. apply Hx. apply in_map_iff in H. destruct H as (y & E & Hy).
  apply filter_In in Hy. rewrite <- E. apply in_map. tauto.
Qed.








(** ** What the plane page and the session page show *)



Lemma ask_single_data {A} env q (rows : list A) r :
  Reply.data (ask_single env q rows) = Some r -> rows = [r].
Proof.
  unfold ask_single. destruct (Env.fault env q); [discriminate|].
  destruct rows as [|x [|y rows]]; simpl; try discriminate. congruence.
Qed.



(** X6.  When the store has no plane with the requested id that belongs
    to the signed-in user, the plane page ends with an error and shows
    nothing: no plane, no device, no session, and the initial statistics. *)
Theorem fetchPlaneData_not_found (env : Env.t) (db : Store.t) (id user : string) :
  Env.auth_user env = Some user ->
  (forall p, In p (Store.planes db) -> Plane.id p = id -> Plane.user_id p <> user) ->
  let st := PlaneDetail.fetchPlaneData env db id PlaneDetail.initialState in
  PlaneDetail.error st <> None /\
  PlaneDetail.plane st = None /\
  PlaneDetail.devices st = [] /\
  PlaneDetail.recentSessions st = [] /\
  PlaneDetail.stats st = initialStats /\
  PlaneDetail.loading st = false.
Proof.
  intros Hu Hno st. unfold st, PlaneDetail.fetchPlaneData. rewrite Hu.
  assert (filter (fun p => String.eqb (Plane.id p) id && String.eqb (Plane.user_id p) user)
            (Store.planes db) = []) as ->.
  { destruct (filter _ (Store.planes db)) as [|p l] eqn:E; [reflexivity|exfalso].
    assert (In p (p :: l)) as H by (left; reflexivity). rewrite <- E in H.
    apply filter_In in H. destruct H as [H B]. apply andb_prop in B.
    destruct B as [B1 B2]. apply String.eqb_eq in B1, B2.
    exact (Hno p H B1 B2). }
  unfold ask_single. destruct (Env.fault env (select_plane id user));
    cbn [Reply.data Reply.error]; repeat split; discriminate.
Qed.

Lemma fetchPlaneData_not_found_witness :
  let st := PlaneDetail.fetchPlaneData (envOf "bob") exampleStore "p-alice"
              PlaneDetail.initialState in
  PlaneDetail.error st <> None /\
  PlaneDetail.plane st = None /\
  PlaneDetail.devices st = [] /\
  PlaneDetail.recentSessions st = [] /\
  PlaneDetail.stats st = initialStats /\
  PlaneDetail.loading st = false.
Proof.
  apply (fetchPlaneData_not_found (envOf "bob") exampleStore "p-alice" "bob").
  - reflexivity.
  - intros p [<-|[<-|[]]]; simpl; intros; discriminate.
Defined.

(** X7.  The session page shows only sessions of devices of the signed-in
    user: every session shown is a session of the store, and it carries
    the device of the store with its token, which this user owns,
    together with that device's plane. *)
Theorem SessionView_shows_own (env : Env.t) (db : Store.t) :
  let st := SessionView.fetchData env db SessionView.initialState in
  (forall d, In d (SessionView.devices st) ->
     exists d0, In d0 (Store.devices db) /\ Device.user_id d0 = Env.auth_user env /\
                d = joinPlane db d0) /\
  (forall s, In s (SessionView.sessions st) ->
     In (SessionWithDevice.session s) (Store.sessions db) /\
     exists d, In d (Store.devices db) /\
       Device.user_id d = Env.auth_user env /\
       Device.device_uuid d = Session.device_uuid (SessionWithDevice.session s) /\
       SessionWithDevice.device s = Some (joinPlane db d)).
Proof.
  intro st. unfold st, SessionView.fetchData.
  destruct (Env.auth_user env) as [user|] eqn:Hu; [|split; intros ? []].
  unfold ask.
  destruct (Env.fault env (select_devices_of user));
    cbn [Reply.data Reply.error or_nil]; [split; intros ? []|].
  set (mine := filter (fun d => opt_eqb (Device.user_id d) user) (Store.devices db)).
  assert (Hmine : forall d, In d (map (joinPlane db) mine) ->
            exists d0, In d0 (Store.devices db) /\ Device.user_id d0 = Some user /\
                       d = joinPlane db d0).
  { intros d H. apply in_map_iff in H. destruct H as (d0 & <- & H).
    apply filter_In in H. destruct H as [H E]. apply opt_eqb_eq in E. eauto. }
  destruct (Env.fault env (select_sessions_in _));
    cbn [Reply.data Reply.error or_nil]; [split; intros ? []|].
  cbn [SessionView.setLoading SessionView.setData SessionView.devices
       SessionView.sessions].
  split; [exact Hmine|].
  intros s H. apply in_map_iff in H. destruct H as (x & <- & H).
  apply In_order_desc in H. apply filter_In in H. destruct H as [Hx E].
  cbn [SessionWithDevice.session SessionWithDevice.device].
  split; [assumption|].
  apply existsb_exists in E. destruct E as (u & Hu' & E). apply String.eqb_eq in E.
  apply in_map_iff in Hu'. destruct Hu' as (dj & Hdj & Hin).
  destruct (find (fun d => String.eqb (Device.device_uuid (DeviceWithPlane.device d))
                             (Session.device_uuid x))
              (map (joinPlane db) mine)) as [found|] eqn:F.
  - apply find_some in F. destruct F as [Fin Feq]. apply String.eqb_eq in Feq.
    destruct (Hmine found Fin) as (d0 & H0 & U0 & ->).
    exists d0. auto.
  - exfalso. pose proof (find_none _ _ F dj Hin) as N. cbn beta in N.
    rewrite Hdj, <- E, String.eqb_refl in N. discriminate.
Qed.

(** ** The filters and the cards of the session page *)

Lemma keeps_spec st s :
  SessionView.keeps st s = true <->
  (SessionView.filterDevice st = "" \/
   Session.device_uuid (SessionWithDevice.session s) = SessionView.filterDevice st) /\
  (SessionView.filterStatus st = "" \/
   SessionStatus_to_string (Session.status (SessionWithDevice.session s))
   = SessionView.filterStatus st).
Proof.
  unfold SessionView.keeps.
  destruct (String.eqb_spec (SessionView.filterDevice st) "") as [D|D];
    destruct (String.eqb_spec (Session.device_uuid (SessionWithDevice.session s))
                (SessionView.filterDevice st)) as [U|U];
    destruct (String.eqb_spec (SessionView.filterStatus st) "") as [F|F];
    destruct (String.eqb_spec
                (SessionStatus_to_string (Session.status (SessionWithDevice.session s)))
                (SessionView.filterStatus st)) as [S|S];
    simpl; intuition congruence.
Qed.

Lemma filter_none {A} (p : A -> bool) l :
  (forall x, In x l -> p x = false) -> filter p l = [].
Proof.
  induction l as [|x l IH]; intro H; simpl; [reflexivity|].
  rewrite (H x (or_introl eq_refl)). apply IH. intros y Hy. apply H. right. assumption.
Qed.

Lemma filter_all {A} (p : A -> bool) l :
  (forall x, In x l -> p x = true) -> filter p l = l.
Proof.
  induction l as [|x l IH]; intro H; simpl; [reflexivity|].
  rewrite (H x (or_introl eq_refl)). f_equal. apply IH.
  intros y Hy. apply H. right. assumption.
Qed.

(** X8.  A session is on the session page exactly when it passes both
    filters, an empty filter letting everything pass.  The "Active
    Sessions" card never exceeds the "Total Sessions" card; it is zero
    under the status filter "closed" and equal to the total under the
    status filter "open". *)
Theorem session_filters (st : SessionView.State) :
  (forall s, In s (SessionView.filteredSessions st) <->
     In s (SessionView.sessions st) /\
     (SessionView.filterDevice st = "" \/
      Session.device_uuid (SessionWithDevice.session s) = SessionView.filterDevice st) /\
     (SessionView.filterStatus st = "" \/
      SessionStatus_to_string (Session.status (SessionWithDevice.session s))
      = SessionView.filterStatus st)) /\
  0 <= SessionView.activeSessionsCard st <= SessionView.totalSessionsCard st /\
  (SessionView.filterStatus st = "closed" -> SessionView.activeSessionsCard st = 0) /\
  (SessionView.filterStatus st = "open" ->
   SessionView.activeSessionsCard st = SessionView.totalSessionsCard st).
Proof.
  split; [|split; [|split]].
  - intro s. unfold SessionView.filteredSessions. rewrite filter_In, keeps_spec.
    reflexivity.
  - unfold SessionView.activeSessionsCard, SessionView.totalSessionsCard.
    pose proof (filter_length_le
                  (fun s => is_open (SessionWithDevice.session s))
                  (SessionView.filteredSessions st)).
    lia.
  - intro F. unfold SessionView.activeSessionsCard.
    assert (filter (fun s => is_open (SessionWithDevice.session s))
              (SessionView.filteredSessions st) = []) as ->; [|reflexivity].
    apply filter_none. intros s H.
    unfold SessionView.filteredSessions in H. apply filter_In in H.
    destruct H as [_ K]. apply keeps_spec in K. destruct K as [_ [K|K]];
      rewrite F in K; [discriminate|].
    unfold is_open. destruct (Session.status _); [discriminate|reflexivity].
  - intro F. unfold SessionView.activeSessionsCard, SessionView.totalSessionsCard.
    f_equal. f_equal. apply filter_all. intros s H.
    unfold SessionView.filteredSessions in H. apply filter_In in H.
    destruct H as [_ K]. apply keeps_spec in K. destruct K as [_ [K|K]];
      rewrite F in K; [discriminate|].
    unfold is_open. destruct (Session.status _); [reflexivity|discriminate].
Qed.

Lemma session_filters_witness :
  let st := SessionView.setFilterStatus "closed" exampleView in
  SessionView.activeSessionsCard st = 0 /\
  SessionView.totalSessionsCard st = 2.
Proof.
  intro st. split; [|reflexivity].
  apply (session_filters st). reflexivity.
Defined.


(** ** The summary "Flight Time by Plane" *)



(** X9.  A device with a plane has a row in the summary exactly when the
    run seconds of its filtered sessions do not add up to zero (for sums
    from 0 up to 2^53).  A row that is shown counts at least one session,
    and its hours are the sum divided by 3600 to one decimal place, so a
    sum below three minutes is shown as "0.0". *)
Theorem summary_row_shown (st : SessionView.State) (device : DeviceWithPlane.t) :
  0 <= SessionSummary.totalSeconds st device < 2 ^ 53 ->
  (SessionSummary.row st device = None <-> SessionSummary.totalSeconds st device = 0) /\
  (forall r, SessionSummary.row st device = Some r ->
     1 <= SummaryRow.sessionCount r /\
     exists n, SummaryRow.hours r = Some (fixed_digits 1 n) /\ 0 <= n /\
               Z.abs (360 * n - SessionSummary.totalSeconds st device) <= 180).
Proof.
  intro H. unfold SessionSummary.row.
  set (total := SessionSummary.totalSeconds st device) in *.
  destruct (Z.eq_dec total 0) as [E|E].
  - rewrite E.
    change (binary64_div (binary64_of_Z 0) (binary64_of_Z 3600)) with (S754_zero false).
    cbn [SessionSummary.is_zero]. split; [tauto|intros r D; discriminate D].
  - destruct (hours_quotient total ltac:(lia)) as (m & k & Q & _).
    pose proof (hours_toFixed total H) as [_ (n & T & N0 & N)]. cbv zeta in T.
    rewrite Q in *. cbn [SessionSummary.is_zero]. split.
    + split; [discriminate|contradiction].
    + intros r [= <-]. cbn [SummaryRow.sessionCount SummaryRow.hours]. split.
      * destruct (SessionSummary.deviceSessions st device) as [|s l] eqn:D.
        -- exfalso. apply E. unfold total, SessionSummary.totalSeconds.
           rewrite D. reflexivity.
        -- cbn [List.length]. lia.
      * exists n. auto.
Qed.

Lemma summary_row_shown_witness :
  let device := joinPlane exampleStore
                  (mkDevice "dev-1" (Some "alice") (Some "p-alice") (Some "Main tracker")) in
  SessionSummary.row exampleView device <> None /\
  (forall r, SessionSummary.row exampleView device = Some r ->
     1 <= SummaryRow.sessionCount r /\
     exists n, SummaryRow.hours r = Some (fixed_digits 1 n) /\ 0 <= n /\
               Z.abs (360 * n - SessionSummary.totalSeconds exampleView device) <= 180).
Proof.
  intro device.
  destruct (summary_row_shown exampleView device) as [H1 H2].
  - change (SessionSummary.totalSeconds exampleView device) with 12600. simpl. lia.
  - split; [|exact H2]. intro N. apply H1 in N. discriminate N.
Defined.



(** ** [formatDuration] and [formatRelativeTime] *)

Lemma string_of_Z_inj z z' : string_of_Z z = string_of_Z z' -> z = z'.
Proof.
  unfold string_of_Z. intro H. apply DecimalZ.to_int_inj.
  assert (N : forall n, Z.to_int n <> Decimal.Pos Decimal.Nil /\
                        Z.to_int n <> Decimal.Neg Decimal.Nil).
  { intros [|p|p]; simpl; split; try discriminate;
      intros [= E]; exact (DecimalPos.Unsigned.to_uint_nonnil p E). }
  pose proof (NilZero.isi (Z.to_int z) (proj1 (N z)) (proj2 (N z))) as I.
  pose proof (NilZero.isi (Z.to_int z') (proj1 (N z')) (proj2 (N z'))) as I'.
  rewrite H in I. congruence.
Qed.

Lemma numeric_uint d : numeric (NilEmpty.string_of_uint d) = true.
Proof. induction d; simpl; auto. Qed.

Lemma numeric_string_of_Z z : numeric (string_of_Z z) = true.
Proof.
  unfold string_of_Z.
  destruct (Z.to_int z) as [d|d]; simpl; destruct d; simpl; auto using numeric_uint.
Qed.

(** Two texts that start with a number followed by the same letter start
    with the same number. *)
Lemma numeric_prefix_inj (c : ascii) a a' r r' :
  numeric (String c "") = false ->
  numeric a = true -> numeric a' = true ->
  (a ++ String c r)%string = (a' ++ String c r')%string -> a = a' /\ r = r'.
Proof.
  intro Hc. revert a'. induction a as [|x a IH]; intros [|x' a'] Ha Ha' E;
    cbn [append] in E.
  - injection E as E. auto.
  - exfalso. injection E as E1 E2. subst x'.
    cbn [numeric] in Ha', Hc. rewrite andb_true_r in Hc.
    apply andb_prop in Ha'. destruct Ha' as [Ha' _]. congruence.
  - exfalso. injection E as E1 E2. subst x.
    cbn [numeric] in Ha, Hc. rewrite andb_true_r in Hc.
    apply andb_prop in Ha. destruct Ha as [Ha _]. congruence.
  - injection E as E1 E2. subst x'.
    cbn [numeric] in Ha, Ha'.
    apply andb_prop in Ha. apply andb_prop in Ha'.
    destruct (IH a' (proj2 Ha) (proj2 Ha') E2) as [-> ->]. auto.
Qed.

Lemma formatDuration_parts s s' :
  formatDuration s = formatDuration s' <->
  s / 3600 = s' / 3600 /\ Z.rem s 3600 / 60 = Z.rem s' 3600 / 60.
Proof.
  unfold formatDuration, Math_floor_div. split.
  - intro E.
    apply (numeric_prefix_inj "h") in E;
      [|reflexivity|apply numeric_string_of_Z|apply numeric_string_of_Z].
    destruct E as [E1 E2]. apply string_of_Z_inj in E1.
    cbn [append] in E2. injection E2 as E2.
    apply (numeric_prefix_inj "m") in E2;
      [|reflexivity|apply numeric_string_of_Z|apply numeric_string_of_Z].
    destruct E2 as [E2 _]. apply string_of_Z_inj in E2. auto.
  - intros [-> ->]. reflexivity.
Qed.

(** X11.  [formatDuration] drops the seconds and nothing else: two
    durations, whole numbers of seconds from 0 up to the integers that
    binary64 holds exactly, are shown alike exactly when they have the
    same number of whole minutes. *)
Theorem formatDuration_whole_minutes (s s' : Z) :
  0 <= s < 2 ^ 53 -> 0 <= s' < 2 ^ 53 ->
  (formatDuration s = formatDuration s' <-> s / 60 = s' / 60).
Proof.
  intros [H _] [H' _]. rewrite formatDuration_parts.
  rewrite !Z.rem_mod_nonneg by lia.
  assert (P : forall x, 0 <= x ->
            x / 3600 = x / 60 / 60 /\ x mod 3600 / 60 = (x / 60) mod 60).
  { intros x Hx. split.
    - rewrite Z.div_div by lia. reflexivity.
    - change 3600 with (60 * 60). rewrite Z.rem_mul_r by lia.
      rewrite Z.mul_comm, Z.div_add by lia.
      rewrite (Z.div_small (x mod 60)) by (apply Z.mod_pos_bound; lia).
      reflexivity. }
  destruct (P s H) as [-> ->], (P s' H') as [-> ->].
  pose proof (Z.div_mod (s / 60) 60 ltac:(lia)).
  pose proof (Z.div_mod (s' / 60) 60 ltac:(lia)).
  split; [intros [E1 E2]; lia | intros ->; auto].
Qed.

Lemma formatDuration_whole_minutes_witness :
  formatDuration 3600 = formatDuration 3659 /\
  formatDuration 3659 <> formatDuration 3660.
Proof.
  split.
  - apply (formatDuration_whole_minutes 3600 3659); [lia|lia|reflexivity].
  - intro E. apply (formatDuration_whole_minutes 3659 3660) in E; [|lia|lia].
    discriminate E.
Defined.

(** X12.  [formatRelativeTime] shows "Never" without time stamp.  For a
    time stamp [diff] milliseconds before now, [diff] within the integers
    that binary64 holds exactly, it counts whole minutes
    below one hour, whole hours below one day and whole days from then
    on, each rounded down, with the plural "s" unless the count is 1; a
    time stamp in the future gives a negative count of minutes.  A text
    that is not a date is shown as "NaN days ago". *)
Theorem formatRelativeTime_units (now : Z) (getTime : string -> option Z)
  (ts : string) :
  formatRelativeTime now getTime None = "Never" /\
  formatRelativeTime now getTime (Some "") = "Never" /\
  (ts <> "" -> getTime ts = None ->
   formatRelativeTime now getTime (Some ts) = "NaN days ago") /\
  (forall past, ts <> "" -> getTime ts = Some past ->
     let diff := now - past in
     - 2 ^ 53 < diff < 2 ^ 53 ->
     formatRelativeTime now getTime (Some ts)
     = if diff <? 3600000 then agoText (diff / 60000) "min"
       else if diff <? 86400000 then agoText (diff / 3600000) "hour"
       else agoText (diff / 86400000) "day").
Proof.
  split; [reflexivity|]. split; [reflexivity|].
  assert (T : ts <> "" -> or_else (Some ts) "" = ts /\ truthy (Some ts) = true).
  { intro N. apply String.eqb_neq in N. simpl. rewrite N. auto. }
  split.
  - intros N G. unfold formatRelativeTime. destruct (T N) as [-> ->].
    rewrite G. reflexivity.
  - intros past N G diff _. unfold formatRelativeTime, Math_floor_div.
    destruct (T N) as [-> ->]. rewrite G. cbn [negb]. fold diff.
    assert (E1 : diff / 60000 / 60 = diff / 3600000)
      by (rewrite Z.div_div by lia; reflexivity).
    assert (E2 : diff / 3600000 / 24 = diff / 86400000)
      by (rewrite Z.div_div by lia; reflexivity).
    rewrite E1, E2.
    pose proof (Z.div_mod diff 60000 ltac:(lia)).
    pose proof (Z.mod_pos_bound diff 60000 ltac:(lia)).
    pose proof (Z.div_mod diff 3600000 ltac:(lia)).
    pose proof (Z.mod_pos_bound diff 3600000 ltac:(lia)).
    destruct (Z.ltb_spec diff 3600000), (Z.ltb_spec (diff / 60000) 60),
      (Z.ltb_spec diff 86400000), (Z.ltb_spec (diff / 3600000) 24);
      try reflexivity; lia.
Qed.

Lemma formatRelativeTime_units_witness :
  formatRelativeTime 10000000 (fun _ => Some 2800000) (Some "2024-05-01T10:00:00Z")
  = "2 hours ago" /\
  formatRelativeTime 10000000 (fun _ => None) (Some "yesterday") = "NaN days ago".
Proof.
  split.
  - apply (proj2 (proj2 (proj2 (formatRelativeTime_units 10000000
                                  (fun _ => Some 2800000) "2024-05-01T10:00:00Z")))
             2800000); [discriminate|reflexivity|lia].
  - apply (proj1 (proj2 (proj2 (formatRelativeTime_units 10000000
                                  (fun _ => None) "yesterday"))));
      [discriminate|reflexivity].
Defined.

(** ** The device list page as a whole *)

Lemma ownerEditPage_store env uuid name planeOption db :
  fst (ownerEditPage env uuid name planeOption db) = db \/
  exists user dev n p,
    Env.auth_user env = Some user /\ In dev (Store.devices db) /\
    Device.user_id dev = Some user /\ Device.device_uuid dev = uuid /\
    fst (ownerEditPage env uuid name planeOption db) = update_name_plane uuid n p db.
Proof.
  unfold ownerEditPage.
  pose proof (DeviceList_fetchData_initial env db) as [Hd _].
  set (st := DeviceList.fetchData env db DeviceList.initialState) in *.
  destruct (find _ (DeviceList.devices st)) as [device|] eqn:F; [|left; reflexivity].
  apply find_some in F. destruct F as [Hin Hid]. apply String.eqb_eq in Hid.
  destruct (Hd device Hin) as (user & dev & Hu & Hdev & Hown & ->).
  cbn [joinPlane DeviceWithPlane.device] in Hid.
  unfold DeviceList.handleUpdateDevice.
  set (st3 := ownerEditForm name planeOption _).
  assert (Hsel : DeviceList.selectedDevice st3 = Some (joinPlane db dev)).
  { unfold st3, ownerEditForm, DeviceList.selectPlane.
    destruct planeOption as [i|]; [destruct (nth_error _ i)|]; reflexivity. }
  change (DeviceList.selectedDevice (DeviceList.setError None st3))
    with (DeviceList.selectedDevice st3).
  rewrite Hsel. cbn [joinPlane DeviceWithPlane.device]. rewrite Hid.
  destruct (Env.fault env (update_device uuid)); [left; reflexivity|].
  right. cbn [fst]. exists user, dev. do 2 eexists.
  repeat (split; [assumption|]). reflexivity.
Qed.

Lemma update_name_plane_keys uuid name plane db :
  map Device.device_uuid (Store.devices (update_name_plane uuid name plane db))
  = map Device.device_uuid (Store.devices db) /\
  map Device.user_id (Store.devices (update_name_plane uuid name plane db))
  = map Device.user_id (Store.devices db).
Proof.
  unfold update_name_plane. cbn [Store.devices].
  split; rewrite map_map; apply map_ext; intro d;
    destruct (Device.device_uuid d =? uuid)%string; reflexivity.
Qed.

Lemma In_same_keys (l l' : list Device.t) d' :
  map Device.device_uuid l' = map Device.device_uuid l ->
  map Device.user_id l' = map Device.user_id l ->
  In d' l' ->
  exists d, In d l /\ Device.device_uuid d' = Device.device_uuid d /\
            Device.user_id d' = Device.user_id d.
Proof.
  revert l. induction l' as [|x l' IH]; intros [|y l] E1 E2 H;
    try discriminate; [destruct H|].
  cbn [map] in E1, E2. injection E1 as E1 E1'. injection E2 as E2 E2'.
  destruct H as [<-|H].
  - exists y. split; [left; reflexivity|]. auto.
  - destruct (IH l E1' E2' H) as (d & Hd & K). exists d. split; [right; assumption|].
    exact K.
Qed.

Lemma handleDeleteDevice_store env db uuid st :
  fst (DeviceList.handleDeleteDevice env db uuid st) = db \/
  fst (DeviceList.handleDeleteDevice env db uuid st) = delete_by_uuid uuid db.
Proof.
  unfold DeviceList.handleDeleteDevice.
  destruct (Env.confirm env); cbn [negb]; [|left; reflexivity].
  destruct (Env.fault env (delete_device uuid)); [left|right]; reflexivity.
Qed.

(** What one action of the device list page keeps. *)
Lemma owner_step env a db :
  ownerAction a = true ->
  NoDup (map Device.device_uuid (Store.devices db)) ->
  ownerInvariant db ->
  ownerInvariant (step env a db) /\
  NoDup (map Device.device_uuid (Store.devices (step env a db))) /\
  Store.planes (step env a db) = Store.planes db /\
  Store.sessions (step env a db) = Store.sessions db /\
  (forall d', In d' (Store.devices (step env a db)) ->
     exists d, In d (Store.devices db) /\
               Device.device_uuid d' = Device.device_uuid d /\
               Device.user_id d' = Device.user_id d).
Proof.
  intros Ha N Inv.
  assert (Same : forall d', In d' (Store.devices db) ->
            exists d, In d (Store.devices db) /\
                      Device.device_uuid d' = Device.device_uuid d /\
                      Device.user_id d' = Device.user_id d)
    by (intros d' H; exists d'; auto).
  destruct a as [uuid user name|uuid name planeOption|uuid]; [discriminate| |];
    cbn [step].
  - destruct (ownerEditPage_store env uuid name planeOption db)
      as [->|(user & dev & n & p & Hu & Hdev & Hown & Hid & ->)]; [auto|].
    destruct (update_name_plane_keys uuid n p db) as [K1 K2].
    split; [|split; [|split; [|split]]]; try reflexivity.
    + intros d' Hd'. apply update_name_plane_In in Hd'.
      destruct Hd' as [Hd'|(d & Hd & Hdu & _ & Hd'o & _)]; [auto|].
      assert (d = dev) as ->
        by (apply (NoDup_map_eq Device.device_uuid (Store.devices db)); congruence).
      unfold assignmentState. rewrite Hd'o, Hown.
      destruct (Device.plane_id d'); discriminate.
    + rewrite K1. assumption.
    + intros d' Hd'. exact (In_same_keys _ _ d' K1 K2 Hd').
  - destruct (existsb _ _); [|auto].
    destruct (handleDeleteDevice_store env db uuid
                (DeviceList.fetchData env db DeviceList.initialState)) as [->| ->];
      [auto|].
    split; [|split; [|split; [|split]]]; try reflexivity.
    + intros d Hd. apply delete_by_uuid_devices in Hd. apply Inv. tauto.
    + unfold delete_by_uuid. cbn [Store.devices]. apply NoDup_map_filter. assumption.
    + intros d Hd. apply delete_by_uuid_devices in Hd. exists d. tauto.
Qed.

(** X13.  Whatever owners do at the device list page, in whatever order
    and whoever is signed in, no device ends up with a plane reference and
    without owner, no device changes its owner, no device appears, and
    planes and sessions stay as they are: only the admin page can hand a
    device over. *)
Theorem owner_runs_keep_owners (trace : list (Env.t * Action)) (db : Store.t) :
  forallb (fun ea => ownerAction (snd ea)) trace = true ->
  NoDup (map Device.device_uuid (Store.devices db)) ->
  ownerInvariant db ->
  ownerInvariant (run trace db) /\
  NoDup (map Device.device_uuid (Store.devices (run trace db))) /\
  Store.planes (run trace db) = Store.planes db /\
  Store.sessions (run trace db) = Store.sessions db /\
  (forall d', In d' (Store.devices (run trace db)) ->
     exists d, In d (Store.devices db) /\
               Device.device_uuid d' = Device.device_uuid d /\
               Device.user_id d' = Device.user_id d).
Proof.
  revert db. induction trace as [|[env a] trace IH]; intros db Ha N Inv.
  - cbn [run]. repeat split; auto. intros d' H. exists d'. auto.
  - cbn [forallb snd] in Ha. apply andb_prop in Ha. destruct Ha as [Ha Ht].
    cbn [run].
    destruct (owner_step env a db Ha N Inv) as (I1 & N1 & P1 & S1 & D1).
    destruct (IH (step env a db) Ht N1 I1) as (I2 & N2 & P2 & S2 & D2).
    split; [assumption|]. split; [assumption|].
    split; [congruence|]. split; [congruence|].
    intros d' Hd'. destruct (D2 d' Hd') as (d1 & Hd1 & U1 & O1).
    destruct (D1 d1 Hd1) as (d & Hd & U & O). exists d.
    split; [assumption|]. split; congruence.
Qed.

Lemma owner_runs_keep_owners_witness :
  let trace :=
    [ (envOf "bob", ownerEdit "dev-2" "Spare" (Some 1%nat));
      (envOf "bob", ownerEdit "dev-1" "Mine" (Some 1%nat));
      (envOf "alice", ownerDelete "dev-1") ] in
  ownerInvariant (run trace exampleStore) /\
  map Device.device_uuid (Store.devices (run trace exampleStore)) = ["dev-2"; "dev-3"].
Proof.
  intro trace. split; [|reflexivity].
  apply (owner_runs_keep_owners trace exampleStore).
  - reflexivity.
  - repeat constructor; simpl; intuition discriminate.
  - intros d [<-|[<-|[<-|[]]]]; discriminate.
Defined.

Lemma or_null_or_else_id (x : option string) :
  x <> Some "" -> or_null (or_else x "") = x.
Proof.
  intro H. destruct x as [s|]; [|reflexivity]. simpl.
  destruct (String.eqb_spec s "") as [->|E]; [contradiction|].
  unfold or_null. apply String.eqb_neq in E. rewrite E. reflexivity.
Qed.

(** X14.  Opening the edit form of a device and submitting it untouched
    changes nothing in the store: the form shows an absent name or plane
    as the empty text and the update turns the empty text back into
    null. *)
Theorem edit_untouched_keeps_store (env : Env.t) (db : Store.t) (dev : Device.t)
  (st : DeviceList.State) :
  In dev (Store.devices db) ->
  NoDup (map Device.device_uuid (Store.devices db)) ->
  Device.name dev <> Some "" ->
  Device.plane_id dev <> Some "" ->
  fst (DeviceList.handleUpdateDevice env db
         (DeviceList.openEditModal (joinPlane db dev) st)) = db.
Proof.
  intros Hin N Hn Hp. unfold DeviceList.handleUpdateDevice.
  cbn [DeviceList.openEditModal DeviceList.setError DeviceList.setSelectedDevice
       DeviceList.setFormData DeviceList.setShowEditModal DeviceList.selectedDevice
       DeviceList.formData DeviceList.name DeviceList.plane_id
       joinPlane DeviceWithPlane.device].
  destruct (Env.fault env (update_device (Device.device_uuid dev))); [reflexivity|].
  cbn [fst]. rewrite !or_null_or_else_id by assumption.
  unfold update_name_plane. destruct db as [planes devices sessions].
  cbn [Store.planes Store.devices Store.sessions] in *. f_equal.
  rewrite <- (map_id devices) at 2. apply map_ext_in. intros d Hd.
  destruct (String.eqb_spec (Device.device_uuid d) (Device.device_uuid dev)) as [E|E];
    [|reflexivity].
  assert (d = dev) as -> by (apply (NoDup_map_eq Device.device_uuid devices); auto).
  destruct dev; reflexivity.
Qed.

Lemma edit_untouched_keeps_store_witness :
  fst (DeviceList.handleUpdateDevice (envOf "alice") exampleStore
         (DeviceList.openEditModal
            (joinPlane exampleStore
               (mkDevice "dev-1" (Some "alice") (Some "p-alice") (Some "Main tracker")))
            DeviceList.initialState)) = exampleStore.
Proof.
  apply (edit_untouched_keeps_store (envOf "alice") exampleStore
           (mkDevice "dev-1" (Some "alice") (Some "p-alice") (Some "Main tracker"))).
  - left. reflexivity.
  - repeat constructor; simpl; intuition discriminate.
  - discriminate.
  - discriminate.
Defined.

(** ** The plane list page *)

Lemma fetchPlanes_listed penv db st p :
  In p (PlaneList.planes (PlaneList.fetchPlanes penv db st)) ->
  In p (PlaneList.planes st) \/
  (Env.auth_user (PlaneEnv.env penv) = Some (Plane.user_id p) /\
   In p (Store.planes db)).
Proof.
  unfold PlaneList.fetchPlanes.
  destruct (Env.auth_user (PlaneEnv.env penv)) as [user|]; [|left; assumption].
  unfold ask.
  destruct (Env.fault (PlaneEnv.env penv) (select_planes_of user));
    cbn [Reply.error Reply.data]; [left; assumption|].
  cbn [or_nil PlaneList.setLoading PlaneList.setPlanes PlaneList.planes].
  intro H. apply In_order_asc in H. apply filter_In in H.
  destruct H as [H U]. apply String.eqb_eq in U. right. rewrite U. auto.
Qed.

Lemma fetchPlanes_answered penv db st user p :
  Env.auth_user (PlaneEnv.env penv) = Some user ->
  Env.fault (PlaneEnv.env penv) (select_planes_of user) = None ->
  (In p (PlaneList.planes (PlaneList.fetchPlanes penv db st)) <->
   In p (Store.planes db) /\ Plane.user_id p = user).
Proof.
  intros Hu Hf. unfold PlaneList.fetchPlanes, ask. rewrite Hu, Hf.
  cbn [Reply.error Reply.data or_nil PlaneList.setLoading PlaneList.setPlanes
       PlaneList.planes].
  rewrite In_order_asc, filter_In, String.eqb_eq. tauto.
Qed.

Lemma update_plane_row_In id tail model manufacturer db p' :
  In p' (Store.planes (update_plane_row id tail model manufacturer db)) ->
  In p' (Store.planes db) \/
  exists p, In p (Store.planes db) /\ Plane.id p = id /\
    p' = {| Plane.id := Plane.id p; Plane.user_id := Plane.user_id p;
            Plane.tail_number := tail; Plane.model := model;
            Plane.manufacturer := manufacturer;
            Plane.created_at := Plane.created_at p;
            Plane.updated_at := Plane.updated_at p |}.
Proof.
  unfold update_plane_row. cbn [Store.planes]. rewrite in_map_iff.
  intros (p & <- & H).
  destruct (String.eqb_spec (Plane.id p) id) as [E|E].
  - right. exists p. auto.
  - left. assumption.
Qed.

(** X15.  Editing a plane at the plane list page touches no device and no
    session, adds and removes no plane and changes no plane's id or
    owner.  A plane that does change is a plane of the signed-in user
    with the id that was edited, and it gets the tail number, the model
    and the manufacturer of the form, an empty model or manufacturer as
    null; its tail number is never empty, since the form does not submit
    without one. *)
Theorem editPlane_frame (penv : PlaneEnv.t) (id : string) (form : PlaneList.FormData)
  (db : Store.t) :
  NoDup (map Plane.id (Store.planes db)) ->
  let db' := fst (PlaneList.editPlane penv id form db) in
  Store.devices db' = Store.devices db /\
  Store.sessions db' = Store.sessions db /\
  map Plane.id (Store.planes db') = map Plane.id (Store.planes db) /\
  map Plane.user_id (Store.planes db') = map Plane.user_id (Store.planes db) /\
  (forall p', In p' (Store.planes db') ->
     In p' (Store.planes db) \/
     (Plane.id p' = id /\
      Env.auth_user (PlaneEnv.env penv) = Some (Plane.user_id p') /\
      Plane.tail_number p' = PlaneList.tail_number form /\
      Plane.tail_number p' <> "" /\
      Plane.model p' = or_null (PlaneList.model form) /\
      Plane.manufacturer p' = or_null (PlaneList.manufacturer form))).
Proof.
  intros N db'.
  assert (Hstep :
    db' = db \/
    exists plane,
      In plane (Store.planes db) /\ Plane.id plane = id /\
      Env.auth_user (PlaneEnv.env penv) = Some (Plane.user_id plane) /\
      PlaneList.tail_number form <> "" /\
      db' = update_plane_row id (PlaneList.tail_number form)
              (or_null (PlaneList.model form))
              (or_null (PlaneList.manufacturer form)) db).
  { unfold db', PlaneList.editPlane.
    destruct (find _ _) as [plane|] eqn:F; [|left; reflexivity].
    apply find_some in F. destruct F as [Hin Hid]. apply String.eqb_eq in Hid.
    apply fetchPlanes_listed in Hin. destruct Hin as [[]|[Hu Hin]].
    unfold PlaneList.submits.
    cbn [PlaneList.formData PlaneList.setFormData].
    destruct (String.eqb_spec (PlaneList.tail_number form) "") as [E|E];
      cbn [negb]; [left; reflexivity|].
    unfold PlaneList.handleUpdatePlane.
    cbn [PlaneList.openEditModal PlaneList.setError PlaneList.setSelectedPlane
         PlaneList.setFormData PlaneList.setShowEditModal PlaneList.selectedPlane
         PlaneList.formData].
    rewrite Hid.
    destruct (PlaneEnv.fault penv (update_plane id)); [left; reflexivity|].
    right. exists plane. cbn [fst]. auto. }
  destruct Hstep as [->|(plane & Hin & Hid & Hu & Ht & ->)].
  - repeat split; auto.
  - unfold update_plane_row at 1 2 3 4. cbn [Store.devices Store.sessions Store.planes].
    split; [reflexivity|]. split; [reflexivity|].
    split; [|split].
    + rewrite map_map. apply map_ext. intro p.
      destruct (Plane.id p =? id)%string; reflexivity.
    + rewrite map_map. apply map_ext. intro p.
      destruct (Plane.id p =? id)%string; reflexivity.
    + intros p' Hp'.
      apply (update_plane_row_In id (PlaneList.tail_number form)
               (or_null (PlaneList.model form))
               (or_null (PlaneList.manufacturer form)) db) in Hp'.
      destruct Hp' as [Hp'|(p & Hp & Hpid & ->)]; [left; assumption|].
      assert (p = plane) as ->
        by (apply (NoDup_map_eq Plane.id (Store.planes db)); congruence).
      right. cbn [Plane.id Plane.user_id Plane.tail_number Plane.model
                  Plane.manufacturer]. repeat split; assumption.
Qed.

Lemma editPlane_frame_witness :
  let form := {| PlaneList.tail_number := "N101AA"; PlaneList.model := "";
                 PlaneList.manufacturer := "Cessna" |} in
  let db' := fst (PlaneList.editPlane (planeEnvOf "alice" "p-new") "p-alice" form
                    exampleStore) in
  Store.devices db' = Store.devices exampleStore /\
  Store.sessions db' = Store.sessions exampleStore /\
  map Plane.id (Store.planes db') = ["p-alice"; "p-bob"] /\
  map Plane.tail_number (Store.planes db') = ["N101AA"; "N200BB"].
Proof.
  intros form db'.
  destruct (editPlane_frame (planeEnvOf "alice" "p-new") "p-alice" form exampleStore)
    as (Hd & Hs & Hi & _).
  - repeat constructor; simpl; intuition discriminate.
  - split; [exact Hd|]. split; [exact Hs|]. split; [exact Hi|]. reflexivity.
Defined.

(** X16.  Adding a plane: when somebody is signed in, the store accepts
    the row and answers the query of the list, the store gets one more
    plane, owned by the signed-in user, with an empty model or
    manufacturer as null, and the list shows this plane and the planes it
    showed before; the modal is closed and the form is empty again.
    Devices and sessions do not change. *)
Theorem addPlane_then_listed (penv : PlaneEnv.t) (user : string)
  (form : PlaneList.FormData) (db : Store.t) :
  Env.auth_user (PlaneEnv.env penv) = Some user ->
  Env.fault (PlaneEnv.env penv) (select_planes_of user) = None ->
  PlaneEnv.fault penv insert_plane = None ->
  PlaneList.tail_number form <> "" ->
  let before := PlaneList.planes (PlaneList.fetchPlanes penv db PlaneList.initialState) in
  let db' := fst (PlaneList.addPlane penv form db) in
  let st' := snd (PlaneList.addPlane penv form db) in
  let new := {| Plane.id := PlaneEnv.new_id penv;
                Plane.user_id := user;
                Plane.tail_number := PlaneList.tail_number form;
                Plane.model := or_null (PlaneList.model form);
                Plane.manufacturer := or_null (PlaneList.manufacturer form);
                Plane.created_at := PlaneEnv.now penv;
                Plane.updated_at := PlaneEnv.now penv |} in
  Store.planes db' = (Store.planes db ++ [new])%list /\
  Store.devices db' = Store.devices db /\
  Store.sessions db' = Store.sessions db /\
  (forall p, In p (PlaneList.planes st') <-> p = new \/ In p before) /\
  PlaneList.showAddModal st' = false /\
  PlaneList.formData st' = PlaneList.emptyForm /\
  PlaneList.error st' = None /\
  PlaneList.loading st' = false.
Proof.
  intros Hu Hf Hw Ht before db' st' new.
  assert (E : PlaneList.addPlane penv form db
              = (insert_plane_row penv user (PlaneList.tail_number form)
                   (or_null (PlaneList.model form))
                   (or_null (PlaneList.manufacturer form)) db,
                 PlaneList.fetchPlanes penv
                   (insert_plane_row penv user (PlaneList.tail_number form)
                      (or_null (PlaneList.model form))
                      (or_null (PlaneList.manufacturer form)) db)
                   (PlaneList.setShowAddModal false
                      (PlaneList.setFormData PlaneList.emptyForm
                         (PlaneList.setError None
                            (PlaneList.setFormData form
                               (PlaneList.setShowAddModal true
                                  (PlaneList.fetchPlanes penv db
                                     PlaneList.initialState)))))))).
  { unfold PlaneList.addPlane, PlaneList.submits.
    cbn [PlaneList.formData PlaneList.setFormData].
    apply String.eqb_neq in Ht. rewrite Ht. cbn [negb].
    unfold PlaneList.handleAddPlane. rewrite Hu, Hw.
    cbn [PlaneList.formData PlaneList.setFormData PlaneList.setError]. reflexivity. }
  unfold db', st'. rewrite E. cbn [fst snd].
  split; [reflexivity|]. split; [reflexivity|]. split; [reflexivity|].
  split.
  - intro p. unfold before.
    rewrite (fetchPlanes_answered penv _ _ user p Hu Hf).
    rewrite (fetchPlanes_answered penv db _ user p Hu Hf).
    unfold insert_plane_row. cbn [Store.planes]. rewrite in_app_iff. simpl.
    split.
    + intros [[H|[<-|[]]] U]; auto.
    + intros [->|[H U]]; auto.
  - unfold PlaneList.fetchPlanes, ask. rewrite Hu, Hf.
    cbn [Reply.error Reply.data]. repeat split.
Qed.

Lemma addPlane_then_listed_witness :
  let form := {| PlaneList.tail_number := "N300CC"; PlaneList.model := "172";
                 PlaneList.manufacturer := "" |} in
  map Plane.tail_number
    (PlaneList.planes (snd (PlaneList.addPlane (planeEnvOf "alice" "p-new") form
                              exampleStore)))
  = ["N100AA"; "N300CC"] /\
  Store.devices (fst (PlaneList.addPlane (planeEnvOf "alice" "p-new") form exampleStore))
  = Store.devices exampleStore.
Proof.
  intro form. split; [reflexivity|].
  apply (addPlane_then_listed (planeEnvOf "alice" "p-new") "alice" form exampleStore);
    [reflexivity|reflexivity|reflexivity|discriminate].
Defined.

(** X17.  No plane is written when nobody is signed in, when the tail
    number of the form is empty or when the store refuses the row: the
    store stays as it is, and in the first and the last case the page
    shows the reason. *)
Theorem addPlane_refused (penv : PlaneEnv.t) (form : PlaneList.FormData) (db : Store.t) :
  let db' := fst (PlaneList.addPlane penv form db) in
  let st' := snd (PlaneList.addPlane penv form db) in
  (PlaneList.tail_number form = "" ->
   db' = db /\ PlaneList.showAddModal st' = true /\ PlaneList.formData st' = form) /\
  (PlaneList.tail_number form <> "" -> Env.auth_user (PlaneEnv.env penv) = None ->
   db' = db /\ PlaneList.error st' = Some "Not authenticated" /\
   PlaneList.showAddModal st' = true /\ PlaneList.formData st' = form) /\
  (forall user msg,
     PlaneList.tail_number form <> "" ->
     Env.auth_user (PlaneEnv.env penv) = Some user ->
     PlaneEnv.fault penv insert_plane = Some msg ->
     db' = db /\ PlaneList.error st' = Some msg /\
     PlaneList.showAddModal st' = true /\ PlaneList.formData st' = form) /\
  (db' <> db ->
   PlaneList.tail_number form <> "" /\
   Env.auth_user (PlaneEnv.env penv) <> None /\
   PlaneEnv.fault penv insert_plane = None).
Proof.
  intros db' st'. unfold db', st', PlaneList.addPlane, PlaneList.submits.
  cbn [PlaneList.formData PlaneList.setFormData].
  destruct (String.eqb_spec (PlaneList.tail_number form) "") as [E|E]; cbn [negb].
  - cbn [fst snd]. repeat split; easy.
  - unfold PlaneList.handleAddPlane.
    destruct (Env.auth_user (PlaneEnv.env penv)) as [user|];
      [destruct (PlaneEnv.fault penv insert_plane) as [msg|]|]; cbn [fst snd].
    + repeat split; try easy; congruence.
    + repeat split; easy.
    + repeat split; easy.
Qed.

(** ** The admin page *)

(** X18.  The admin page is closed to everybody but administrators.  It
    takes the visitor for an administrator exactly when the table of
    administrators answers with one row for the signed-in user.  To
    anybody else, and when that query fails, it shows "Access denied" and
    no device, owner or user that it did not show before; when nobody is
    signed in it shows "Not authenticated".  In every case it stops
    loading. *)
Theorem admin_page_gate (env : Env.t) (db : Store.t) (st : Admin.State) :
  let st' := Admin.checkAdminAndFetchData env db st in
  Admin.loading st' = false /\
  (Env.auth_user env = None ->
   Admin.error st' = Some "Not authenticated" /\
   Admin.isAdmin st' = Admin.isAdmin st /\
   Admin.devices st' = Admin.devices st /\
   Admin.owners st' = Admin.owners st /\
   Admin.allUsers st' = Admin.allUsers st) /\
  (forall user, Env.auth_user env = Some user ->
     (Admin.isAdmin st' = true <->
      Env.fault env (select_admin_user user) = None /\
      filter (String.eqb user) (Env.admin_users env) = [user]) /\
     (Admin.isAdmin st' = false ->
      Admin.error st' = Some "Access denied. Admin privileges required." /\
      Admin.devices st' = Admin.devices st /\
      Admin.owners st' = Admin.owners st /\
      Admin.allUsers st' = Admin.allUsers st)).
Proof.
  intro st'. unfold st', Admin.checkAdminAndFetchData.
  destruct (Env.auth_user env) as [user|]; [|repeat split; discriminate].
  assert (One : forall a, filter (String.eqb user) (Env.admin_users env) = [a] ->
                          filter (String.eqb user) (Env.admin_users env) = [user]).
  { intros a E. assert (In a [a]) as H by (left; reflexivity).
    rewrite <- E in H. apply filter_In in H. destruct H as [_ H].
    apply String.eqb_eq in H. subst a. assumption. }
  unfold ask_single.
  destruct (Env.fault env (select_admin_user user)) as [msg|] eqn:Fa;
    cbn [Reply.data Reply.error negb].
  { split; [reflexivity|]. split; [discriminate|].
    intros u [= <-]. split; [|repeat split].
    split; [discriminate|intros [H _]; congruence]. }
  destruct (filter (String.eqb user) (Env.admin_users env)) as [|a [|b l]] eqn:F;
    cbn [Reply.data Reply.error negb].
  - split; [reflexivity|]. split; [discriminate|].
    intros u [= <-]. split; [|repeat split].
    split; [discriminate|intros [_ H]; congruence].
  - pose proof (One a eq_refl) as Fu.
    unfold ask.
    destruct (Env.fault env (rpc "get_admin_devices")); cbn [Reply.data Reply.error].
    + split; [reflexivity|]. split; [discriminate|].
      intros u [= <-].
      split; [split; [intros _; split; congruence|reflexivity]|discriminate].
    + destruct (Env.fault env (rpc "get_admin_users")); cbn [Reply.data Reply.error];
        (split; [reflexivity|]; split; [discriminate|];
         intros u [= <-];
         split; [split; [intros _; split; congruence|reflexivity]|discriminate]).
  - split; [reflexivity|]. split; [discriminate|].
    intros u [= <-]. split; [|repeat split].
    split; [discriminate|intros [_ H]; congruence].
Qed.

Lemma existsb_owner (acc : list Admin.Owner) uid :
  existsb (fun o => String.eqb (Admin.id o) uid) acc = true <->
  In uid (map Admin.id acc).
Proof.
  rewrite existsb_exists, in_map_iff. split; intros (o & H1 & H2); exists o.
  - apply String.eqb_eq in H2. auto.
  - split; [assumption|]. apply String.eqb_eq. assumption.
Qed.

Lemma uniqueOwners_fold (l : list DeviceWithOwner.t) (acc : list Admin.Owner) :
  let step := fun acc device =>
    match DeviceWithOwner.user_id device with
    | Some uid =>
        if negb (String.eqb uid "")
           && negb (existsb (fun o => String.eqb (Admin.id o) uid) acc)
        then (acc ++ [{| Admin.id := uid;
                         Admin.email := or_else (DeviceWithOwner.user device) "Unknown" |}])%list
        else acc
    | None => acc
    end in
  NoDup (map Admin.id acc) ->
  NoDup (map Admin.id (fold_left step l acc)) /\
  (forall uid, In uid (map Admin.id (fold_left step l acc)) <->
     In uid (map Admin.id acc) \/
     (uid <> "" /\ exists d, In d l /\ DeviceWithOwner.user_id d = Some uid)).
Proof.
  intro step. revert acc. induction l as [|d l IH]; intros acc N; cbn [fold_left].
  - split; [assumption|]. intro uid. split; [auto|].
    intros [H|(_ & d & [] & _)]. assumption.
  - assert (N' : NoDup (map Admin.id (step acc d)) /\
                 forall uid, In uid (map Admin.id (step acc d)) <->
                   In uid (map Admin.id acc) \/
                   (uid <> "" /\ DeviceWithOwner.user_id d = Some uid)).
    { unfold step. destruct (DeviceWithOwner.user_id d) as [u|].
      - destruct (String.eqb_spec u "") as [E|E]; cbn [negb andb].
        + split; [assumption|]. intro uid. split; [auto|].
          intros [H|(H1 & [= H2])]; [assumption|]. congruence.
        + destruct (existsb _ acc) eqn:X; cbn [negb].
          * split; [assumption|]. intro uid. split; [auto|].
            intros [H|(H1 & [= H2])]; [assumption|]. subst u.
            apply existsb_owner. assumption.
          * split.
            -- rewrite map_app. cbn [map Admin.id].
               apply NoDup_app; [assumption|repeat constructor; intros []|].
               intros x Hx [<-|[]]. apply existsb_owner in Hx. congruence.
            -- intro uid. rewrite map_app, in_app_iff. cbn [map Admin.id In].
               split.
               ++ intros [H|[<-|[]]]; auto.
               ++ intros [H|(H1 & [= H2])]; auto.
      - split; [assumption|]. intro uid. split; [auto|].
        intros [H|(_ & H)]; [assumption|discriminate]. }
    destruct N' as [N1 M1]. destruct (IH (step acc d) N1) as [N2 M2].
    split; [assumption|]. intro uid. rewrite M2, M1. cbn [In]. split.
    + intros [[H|(H1 & H2)]|(H1 & d' & H2 & H3)]; auto.
      * right. split; [assumption|]. exists d. auto.
      * right. split; [assumption|]. exists d'. auto.
    + intros [H|(H1 & d' & [<-|H2] & H3)]; auto.
      right. split; [assumption|]. exists d'. auto.
Qed.

(** X19.  The owners offered by the filter of the admin page: every user
    id is listed once, and the ids listed are the non-empty owner ids of
    the devices that come with an owner e-mail. *)
Theorem uniqueOwners_once (ds : list DeviceWithOwner.t) :
  NoDup (map Admin.id (Admin.uniqueOwners ds)) /\
  (forall uid, In uid (map Admin.id (Admin.uniqueOwners ds)) <->
     uid <> "" /\
     exists d, In d ds /\ DeviceWithOwner.user_id d = Some uid /\
               DeviceWithOwner.user d <> None).
Proof.
  unfold Admin.uniqueOwners.
  destruct (uniqueOwners_fold
              (filter (fun d => match DeviceWithOwner.user d with
                                | Some _ => truthy (DeviceWithOwner.user_id d)
                                | None => false
                                end) ds) [] (NoDup_nil _)) as [N M].
  split; [exact N|]. intro uid. rewrite M. cbn [map In]. split.
  - intros [[]|(H1 & d & H2 & H3)]. split; [assumption|]. exists d.
    apply filter_In in H2. destruct H2 as [H2 H4]. repeat split; try assumption.
    destruct (DeviceWithOwner.user d); discriminate.
  - intros (H1 & d & H2 & H3 & H4). right. split; [assumption|]. exists d.
    split; [|assumption]. apply filter_In. split; [assumption|].
    destruct (DeviceWithOwner.user d); [|contradiction]. rewrite H3. simpl.
    apply String.eqb_neq in H1. rewrite H1. reflexivity.
Qed.

Lemma or_null_Some s u : or_null s = Some u -> s = u /\ u <> "".
Proof.
  unfold or_null. destruct (String.eqb_spec s "") as [E|E]; [discriminate|].
  intros [= <-]. auto.
Qed.

Lemma or_null_filled s : s <> "" -> or_null s = Some s.
Proof.
  intro H. unfold or_null. apply String.eqb_neq in H. rewrite H. reflexivity.
Qed.

(** X20.  The admin assignment and the device lists of the owners.  Once
    the admin page has written the owner [u] of the form to a device, the
    device is on the device list of [u], with the name of the form and
    the plane reference it had, and on nobody else's; with an empty owner
    in the form it is on no device list at all. *)
Theorem assigned_device_listed (env : Env.t) (db : Store.t) (st : Admin.State)
  (sel : DeviceWithOwner.t) (dev : Device.t) :
  Admin.selectedDevice st = Some sel ->
  Env.fault env (update_device (DeviceWithOwner.device_uuid sel)) = None ->
  In dev (Store.devices db) ->
  Device.device_uuid dev = DeviceWithOwner.device_uuid sel ->
  let u := Admin.user_id (Admin.assignFormData st) in
  let db' := fst (Admin.handleAssignDevice env db st) in
  (forall env' d,
     In d (DeviceList.devices (DeviceList.fetchData env' db' DeviceList.initialState)) ->
     Device.device_uuid (DeviceWithPlane.device d) = DeviceWithOwner.device_uuid sel ->
     Env.auth_user env' = Some u /\ u <> "") /\
  (forall env',
     Env.auth_user env' = Some u -> u <> "" ->
     Env.fault env' (select_devices_of u) = None ->
     Env.fault env' (select_planes_of u) = None ->
     exists d,
       In d (DeviceList.devices (DeviceList.fetchData env' db' DeviceList.initialState)) /\
       Device.device_uuid (DeviceWithPlane.device d) = DeviceWithOwner.device_uuid sel /\
       Device.user_id (DeviceWithPlane.device d) = Some u /\
       Device.name (DeviceWithPlane.device d)
       = or_null (Admin.name (Admin.assignFormData st)) /\
       Device.plane_id (DeviceWithPlane.device d) = Device.plane_id dev).
Proof.
  intros Hsel Hf Hdev Hid u db'.
  assert (E : db' = update_user_name (DeviceWithOwner.device_uuid sel) (or_null u)
                      (or_null (Admin.name (Admin.assignFormData st))) db).
  { unfold db', Admin.handleAssignDevice.
    change (Admin.selectedDevice (Admin.setError None st)) with (Admin.selectedDevice st).
    rewrite Hsel, Hf. reflexivity. }
  rewrite E. split.
  - intros env' d Hd Hu.
    destruct (DeviceList_fetchData_initial env'
                (update_user_name (DeviceWithOwner.device_uuid sel) (or_null u)
                   (or_null (Admin.name (Admin.assignFormData st))) db)) as [Hl _].
    destruct (Hl d Hd) as (user & dev' & Ha & Hin & Hown & ->).
    cbn [joinPlane DeviceWithPlane.device] in Hu.
    apply update_user_name_In in Hin.
    destruct Hin as (d0 & _ & [[Hne ->]|[_ ->]]); [contradiction|].
    cbn [Device.user_id] in Hown. apply or_null_Some in Hown.
    destruct Hown as [-> Hne]. auto.
  - intros env' Ha Hne Hf1 Hf2.
    exists (joinPlane
              (update_user_name (DeviceWithOwner.device_uuid sel) (or_null u)
                 (or_null (Admin.name (Admin.assignFormData st))) db)
              {| Device.device_uuid := Device.device_uuid dev;
                 Device.user_id := or_null u;
                 Device.plane_id := Device.plane_id dev;
                 Device.name := or_null (Admin.name (Admin.assignFormData st));
                 Device.created_at := Device.created_at dev;
                 Device.updated_at := Device.updated_at dev;
                 Device.last_seen := Device.last_seen dev |}).
    cbn [joinPlane DeviceWithPlane.device Device.device_uuid Device.user_id
         Device.name Device.plane_id].
    split; [|repeat split; auto using or_null_filled].
    unfold DeviceList.fetchData, ask. rewrite Ha, Hf1, Hf2.
    cbn [Reply.error Reply.data or_nil DeviceList.setLoading DeviceList.setData
         DeviceList.devices].
    apply In_order_desc. apply in_map. apply filter_In. split.
    + apply update_user_name_In. exists dev. split; [assumption|]. right. auto.
    + cbn [Device.user_id]. apply opt_eqb_eq. apply or_null_filled. assumption.
Qed.

Lemma assigned_device_listed_witness :
  let st := adminAssignForm (Some 1%nat) "Spare"
              (Admin.openAssignModal
                 (Admin.ofRow
                    {| AdminDeviceRow.device_uuid := "dev-1";
                       AdminDeviceRow.user_id := Some "alice";
                       AdminDeviceRow.plane_id := Some "p-alice";
                       AdminDeviceRow.name := Some "Main tracker";
                       AdminDeviceRow.created_at := "2024-02-01T00:00:00+00:00";
                       AdminDeviceRow.updated_at := "2024-02-01T00:00:00+00:00";
                       AdminDeviceRow.last_seen := None;
                       AdminDeviceRow.owner_email := Some "alice@example.org";
                       AdminDeviceRow.plane_tail_number := Some "N100AA";
                       AdminDeviceRow.plane_model := None;
                       AdminDeviceRow.plane_manufacturer := None |})
                 (Admin.checkAdminAndFetchData (envOf "root") exampleStore
                    Admin.initialState)) in
  let db' := fst (Admin.handleAssignDevice (envOf "root") exampleStore st) in
  (forall d,
     In d (DeviceList.devices
             (DeviceList.fetchData (envOf "alice") db' DeviceList.initialState)) ->
     Device.device_uuid (DeviceWithPlane.device d) <> "dev-1") /\
  exists d,
    In d (DeviceList.devices
            (DeviceList.fetchData (envOf "bob") db' DeviceList.initialState)) /\
    Device.device_uuid (DeviceWithPlane.device d) = "dev-1" /\
    Device.user_id (DeviceWithPlane.device d) = Some "bob" /\
    Device.name (DeviceWithPlane.device d) = Some "Spare" /\
    Device.plane_id (DeviceWithPlane.device d) = Some "p-alice".
Proof.
  intros st db'.
  destruct (assigned_device_listed (envOf "root") exampleStore st
              (Admin.ofRow
                 {| AdminDeviceRow.device_uuid := "dev-1";
                    AdminDeviceRow.user_id := Some "alice";
                    AdminDeviceRow.plane_id := Some "p-alice";
                    AdminDeviceRow.name := Some "Main tracker";
                    AdminDeviceRow.created_at := "2024-02-01T00:00:00+00:00";
                    AdminDeviceRow.updated_at := "2024-02-01T00:00:00+00:00";
                    AdminDeviceRow.last_seen := None;
                    AdminDeviceRow.owner_email := Some "alice@example.org";
                    AdminDeviceRow.plane_tail_number := Some "N100AA";
                    AdminDeviceRow.plane_model := None;
                    AdminDeviceRow.plane_manufacturer := None |})
              (mkDevice "dev-1" (Some "alice") (Some "p-alice") (Some "Main tracker")))
    as [H1 H2]; try reflexivity.
  - left. reflexivity.
  - split.
    + intros d Hd Hu. destruct (H1 (envOf "alice") d Hd Hu) as [H _]. discriminate H.
    + apply (H2 (envOf "bob")); try reflexivity. discriminate.
Defined.



(** X22.  What the device list page loads.  When both queries are
    answered it shows exactly the devices of the signed-in user, each
    with the plane its reference points to, and offers exactly the planes
    of that user.  When either query fails it shows the message and keeps
    the devices and planes it had, also the devices that were fetched
    before the query for the planes failed.  It always stops loading. *)
Theorem DeviceList_shows_own (env : Env.t) (db : Store.t) (st : DeviceList.State) :
  let st' := DeviceList.fetchData env db st in
  DeviceList.loading st' = false /\
  (Env.auth_user env = None ->
   DeviceList.devices st' = DeviceList.devices st /\
   DeviceList.planes st' = DeviceList.planes st /\
   DeviceList.error st' = DeviceList.error st) /\
  (forall user, Env.auth_user env = Some user ->
     (forall msg,
        Env.fault env (select_devices_of user) = Some msg \/
        (Env.fault env (select_devices_of user) = None /\
         Env.fault env (select_planes_of user) = Some msg) ->
        DeviceList.error st' = Some msg /\
        DeviceList.devices st' = DeviceList.devices st /\
        DeviceList.planes st' = DeviceList.planes st) /\
     (Env.fault env (select_devices_of user) = None ->
      Env.fault env (select_planes_of user) = None ->
      DeviceList.error st' = DeviceList.error st /\
      (forall d, In d (DeviceList.devices st') <->
         exists dev, In dev (Store.devices db) /\ Device.user_id dev = Some user /\
                     d = joinPlane db dev) /\
      (forall p, In p (DeviceList.planes st') <->
         In p (Store.planes db) /\ Plane.user_id p = user))).
Proof.
  intro st'. unfold st', DeviceList.fetchData.
  destruct (Env.auth_user env) as [user|]; [|repeat split; discriminate].
  split.
  { unfold ask. destruct (Env.fault env (select_devices_of user));
      cbn [Reply.error Reply.data]; [reflexivity|].
    destruct (Env.fault env (select_planes_of user)); reflexivity. }
  split; [discriminate|]. intros u [= <-]. unfold ask. split.
  - intros msg [F|[F1 F2]].
    + rewrite F. cbn [Reply.error]. repeat split.
    + rewrite F1, F2. cbn [Reply.error]. repeat split.
  - intros F1 F2. rewrite F1, F2.
    cbn [Reply.error Reply.data or_nil DeviceList.setLoading DeviceList.setData
         DeviceList.devices DeviceList.planes DeviceList.error].
    split; [reflexivity|]. split.
    + intro d. rewrite In_order_desc, in_map_iff. split.
      * intros (dev & <- & H). apply filter_In in H. destruct H as [H U].
        apply opt_eqb_eq in U. exists dev. auto.
      * intros (dev & H & U & ->). exists dev. split; [reflexivity|].
        apply filter_In. split; [assumption|]. apply opt_eqb_eq. assumption.
    + intro p. rewrite In_order_asc, filter_In, String.eqb_eq. tauto.
Qed.
